(** * Verification of the analytics service [app.py]

    A shallow embedding of the freshness cache, the technical-analysis
    engine, the trend forecast, the sentiment scorer and the request
    handler [get_analysis], followed by the properties proved about them.

    Conventions of the embedding:
    - A Python float is the rational ([Q]) it denotes; a pandas [NaN] entry
      of an indicator series is [None] in a [list (option Q)].  The float
      operations of the sentiment scorer round to the nearest double
      (section "Double-precision arithmetic"); elsewhere only comparisons
      and the shape of the results are used, and the operations are exact.
    - Python [int]s are [Z].
    - The process-wide dictionaries [data_cache] and [cache_timestamp] are
      finite maps keyed by strings and are threaded explicitly.
    - A raised Python exception is the [Raise] constructor of [result].
    - Third-party routines ([ta], [numpy], the builtin parsers) are fields of
      type classes: every theorem holds for any implementation of them. *)

From Stdlib Require Import ZArith QArith Qround Qabs Qpower Lia Lqa List Bool Ascii String.
From stdpp Require Import gmap strings list.

Local Open Scope Z_scope.
Local Open Scope Q_scope.

(** ** Exceptions and the error monad *)

Inductive exn : Type :=
| KeyError | IndexError | ZeroDivisionError | ValueError | TypeError
| AttributeError | RequestError.

Inductive result (A : Type) : Type :=
| Ok (a : A)
| Raise (e : exn).
Arguments Ok {A} a.
Arguments Raise {A} e.

Definition rbind {A B : Type} (m : result A) (k : A -> result B) : result B :=
  match m with
  | Ok a => k a
  | Raise e => Raise e
  end.

Declare Scope result_scope.
Delimit Scope result_scope with result.
Notation "'do' x <- m ; k" := (rbind m (fun x => k))
  (at level 10, x name, m at level 100, k at level 200) : result_scope.
Local Open Scope result_scope.

Definition is_ok {A : Type} (m : result A) : bool :=
  match m with Ok _ => true | Raise _ => false end.

(** ** Rational helpers standing for float operations *)

Definition Qlt_bool (x y : Q) : bool := negb (Qle_bool y x).

Definition Qmax (x y : Q) : Q := if Qle_bool x y then y else x.
Definition Qmin (x y : Q) : Q := if Qle_bool x y then x else y.

(** Python's [a / b] on floats raises [ZeroDivisionError] when [b] is zero.
    [numpy]'s element-wise division never raises (it yields [inf] or [nan]);
    the embedding uses the raising division at every division site, which
    is the stricter reading. *)
Definition checked_div (a b : Q) : result Q :=
  if Qeq_bool b 0 then Raise ZeroDivisionError else Ok (a / b).

(** The nearest integer, ties to the even one. *)
Definition round_half_even (q : Q) : Z :=
  let f := Qfloor q in
  let r := q - inject_Z f in
  if Qlt_bool r (1 # 2) then f
  else if Qlt_bool (1 # 2) r then (f + 1)%Z
  else if Z.even f then f else (f + 1)%Z.

(** ** Double-precision arithmetic

    Where a result depends on the rounding of a float operation (the
    sentiment score and its thresholds, lines 264-267, and the NVT proxy,
    line 282) the operation is modelled as IEEE 754 binary64 does it: the
    exact result, rounded to the nearest double, ties to the even
    significand.  A double is the rational it denotes; infinities and NaN
    (results beyond the finite range) are not represented. *)

(** [floor (log2 |q|)] for [q <> 0]. *)
Definition Qlog2_floor (q : Q) : Z :=
  let e := (Z.log2 (Z.abs (Qnum q)) - Z.log2 (Z.pos (Qden q)))%Z in
  if Qle_bool (2 ^ e) (Qabs q) then e else (e - 1)%Z.

(** Rounding to the nearest double: 53 significant bits, the spacing never
    below [2^-1074] (gradual underflow). *)
Definition fl (q : Q) : Q :=
  if Qeq_bool q 0 then 0
  else
    let k := Z.max (Qlog2_floor q - 52) (-1074) in
    Qred (inject_Z (round_half_even (q / 2 ^ k)) * 2 ^ k).

(** A decimal literal of the source, such as [0.15], denotes the nearest
    double. *)
Definition float_literal (q : Q) : Q := fl q.

(** [float(n)] on an integer. *)
Definition float_of_int (n : Z) : Q := fl (inject_Z n).

Definition float_add (a b : Q) : Q := fl (a + b).
Definition float_sub (a b : Q) : Q := fl (a - b).

(** [a / b] on floats: the rounded quotient, [ZeroDivisionError] on a
    zero divisor. *)
Definition float_div (a b : Q) : result Q :=
  do q <- checked_div a b; Ok (fl q).

(** [round(x, ndigits)] on a float: the decimal with [ndigits] places
    nearest to the exact value of [x], ties to even, as a double. *)
Definition float_round (x : Q) (ndigits : nat) : Q :=
  let scale := inject_Z (10 ^ Z.of_nat ndigits) in
  fl (inject_Z (round_half_even (x * scale)) / scale).

(** ** Freshness cache (app.py, lines 22-50) *)

Definition CACHE_DURATION : Q := 300.

Inductive LogEvent : Type :=
| Returning_cached (key : string)
| Fetching_fresh (key : string)
| Error_fetching (key : string) (e : exn)
| Returning_expired (key : string).

(** Number of times the fetch function was entered for [key], read off the
    log: the source logs [Fetching_fresh] immediately before each call of
    [fetch_func]. *)
Definition fetch_count (key : string) (l : list LogEvent) : nat :=
  length (List.filter (fun ev => match ev with
                                 | Fetching_fresh k => bool_decide (k = key)
                                 | _ => false
                                 end) l).

Section Cache.
(** [V] is the type of non-[None] Python objects held by the cache, so a
    Python value is an [option V] with [None] for Python's [None].
    [W] is the state of the outside world a fetch function acts on. *)
Context {V W : Type}.

Record State : Type := mkState {
  data_cache : gmap string (option V);
  cache_timestamp : gmap string Q;
  world : W;
  log : list LogEvent
}.

Definition fetcher : Type := W -> result (option V) * W.

Definition logger (ev : LogEvent) (s : State) : State :=
  mkState (data_cache s) (cache_timestamp s) (world s) (log s ++ [ev]).

Definition set_world (w : W) (s : State) : State :=
  mkState (data_cache s) (cache_timestamp s) w (log s).

Definition store (key : string) (data : option V) (current_time : Q)
    (s : State) : State :=
  mkState (<[key := data]> (data_cache s))
          (<[key := current_time]> (cache_timestamp s))
          (world s) (log s).

(** Lines 37-50: call the fetch function; store and return its value, or
    on an exception fall back to whatever [data_cache] holds for the key. *)
Definition refresh (current_time : Q) (key : string)
    (fetch_func : fetcher) (s : State) : option V * State :=
  let s := logger (Fetching_fresh key) s in
  let '(r, w) := fetch_func (world s) in
  let s := set_world w s in
  match r with
  | Ok data => (data, store key data current_time s)
  | Raise e =>
      let s := logger (Error_fetching key e) s in
      match data_cache s !! key with
      | Some v => (v, logger (Returning_expired key) s)
      | None => (None, s)
      end
  end.

Definition get_cached_data (current_time : Q) (key : string)
    (fetch_func : fetcher) (s : State) : option V * State :=
  match data_cache s !! key, cache_timestamp s !! key with
  | Some v, Some ts =>
      if Qlt_bool (current_time - ts) CACHE_DURATION
      then (v, logger (Returning_cached key) s)
      else refresh current_time key fetch_func s
  | _, _ => refresh current_time key fetch_func s
  end.

(** The entry of [key]: the stored value with its fetch time. *)
Definition entry (key : string) (s : State) : option (option V * Q) :=
  match data_cache s !! key, cache_timestamp s !! key with
  | Some v, Some ts => Some (v, ts)
  | _, _ => None
  end.

(** The test of lines 32-33 as a predicate on states. *)
Definition cache_valid (current_time : Q) (key : string) (s : State) : bool :=
  match entry key s with
  | Some (_, ts) => Qlt_bool (current_time - ts) CACHE_DURATION
  | None => false
  end.

(** The data-model invariant of the cache: no stored value is [None]. *)
Definition no_none_stored (s : State) : Prop :=
  forall k, data_cache s !! k <> Some None.

(** A fetch function that, when it returns, returns a proper object. *)
Definition never_returns_none (f : fetcher) : Prop :=
  forall w d w', f w = (Ok d, w') -> d <> None.
End Cache.
Arguments State : clear implicits.
Arguments fetcher : clear implicits.

(** ** Candles and pandas helpers *)

Record Candle : Type := mkCandle {
  c_timestamp : Z;      (* open time, ms since the epoch *)
  c_date : Z;           (* calendar day, as a day number *)
  c_open : Q;
  c_high : Q;
  c_low : Q;
  c_close : Q;
  c_volume : Q
}.

(** A [DataFrame] of candles, oldest first. The empty list is the frame
    [pd.DataFrame([])] that [fetch_binance_klines] returns for no rows: it
    has no columns, so selecting one raises [KeyError]. *)
Definition DataFrame : Type := list Candle.

Definition column {A : Type} (proj : Candle -> A) (df : DataFrame)
    : result (list A) :=
  match df with
  | [] => Raise KeyError
  | _ => Ok (map proj df)
  end.

(** [tail n]: the last [n] rows (all of them when there are fewer). *)
Definition tail {A : Type} (n : nat) (l : list A) : list A :=
  skipn (length l - n) l.

(** [s.iloc[-1]]: the last element, [IndexError] on an empty series. *)
Definition iloc_last {A : Type} (l : list A) : result A :=
  match last l with
  | Some x => Ok x
  | None => Raise IndexError
  end.

(** A pandas series of floats; [None] is [NaN]. *)
Definition Series : Type := list (option Q).

Fixpoint ffill_from (prev : option Q) (s : Series) : Series :=
  match s with
  | [] => []
  | Some x :: r => Some x :: ffill_from (Some x) r
  | None :: r => prev :: ffill_from prev r
  end.

Definition ffill (s : Series) : Series := ffill_from None s.
Definition bfill (s : Series) : Series := rev (ffill (rev s)).

Definition fillna_const (c : Q) (s : Series) : Series :=
  map (fun o => Some (default c o)) s.

(** [s.fillna(close)]: a missing entry takes the close of the same row. *)
Fixpoint fillna_series (close : list Q) (s : Series) : Series :=
  match s, close with
  | [], _ => []
  | o :: r, [] => o :: r
  | Some x :: r, _ :: cs => Some x :: fillna_series cs r
  | None :: r, c :: cs => Some c :: fillna_series cs r
  end.

(** The guard [not s.empty and not pd.isna(s.iloc[-1])]. *)
Definition last_valid (s : Series) : option Q :=
  match last s with
  | Some (Some x) => Some x
  | _ => None
  end.

(** ** The indicator library [ta] *)

Class TaLibrary : Type := {
  RSIIndicator_rsi : nat -> list Q -> Series;
  MACD_macd : list Q -> Series;
  MACD_macd_signal : list Q -> Series;
  SMAIndicator_sma_indicator : nat -> list Q -> Series;
  EMAIndicator_ema_indicator : nat -> list Q -> Series;
  BollingerBands_bollinger_hband : nat -> Q -> list Q -> Series;
  BollingerBands_bollinger_mavg : nat -> Q -> list Q -> Series;
  BollingerBands_bollinger_lband : nat -> Q -> list Q -> Series
}.

(** ** Technical analysis engine (app.py, lines 125-223) *)

Inductive Signal : Type := BUY | SELL | HOLD.

Definition Signal_eqb (a b : Signal) : bool :=
  match a, b with
  | BUY, BUY | SELL, SELL | HOLD, HOLD => true
  | _, _ => false
  end.

Record Reading : Type := mkReading { value : Q; signal : Signal }.

Record Oscillators : Type := mkOscillators { rsi : Reading; macd : Reading }.

Record MovingAverages : Type := mkMovingAverages {
  sma_20 : Reading; sma_50 : Reading; ema_12 : Reading; ema_26 : Reading
}.

Record Summary : Type := mkSummary { buy : Z; sell : Z; hold : Z }.

Record Details : Type := mkDetails {
  details_rsi : Signal; details_macd : Signal; details_moving_averages : Signal
}.

Record Signals : Type := mkSignals {
  overall_signal : Signal; summary : Summary; details : Details
}.

Record SeriesBlock : Type := mkSeriesBlock {
  series_rsi : Series; series_macd : Series; series_macd_signal : Series;
  series_sma_20 : Series; series_sma_50 : Series;
  series_bb_upper : Series; series_bb_middle : Series; series_bb_lower : Series
}.

Record TimeframeAnalysis : Type := mkTimeframeAnalysis {
  oscillators : Oscillators;
  moving_averages : MovingAverages;
  signals : Signals;
  series : SeriesBlock
}.

Record TechnicalAnalysis : Type := mkTechnicalAnalysis {
  technical_overall_signal : Signal;
  tf_1d : TimeframeAnalysis;
  tf_1w : TimeframeAnalysis;
  tf_1m : TimeframeAnalysis
}.

(** [sum(1 for s in signals if s == x)] *)
Definition count_signal (x : Signal) (signals : list Signal) : Z :=
  Z.of_nat (length (List.filter (fun s => Signal_eqb s x) signals)).

(** The [if]/[elif]/[else] of lines 163-168, repeated verbatim at lines
    211-216. *)
Definition pick_signal (buy sell hold : Z) : Signal :=
  if ((sell <? buy) && (hold <=? buy))%Z then BUY
  else if ((buy <? sell) && (hold <=? sell))%Z then SELL
  else HOLD.

(** A vote as both call sites perform it: three counts, then the choice. *)
Definition vote (signals : list Signal) : Summary * Signal :=
  let buy := count_signal BUY signals in
  let sell := count_signal SELL signals in
  let hold := count_signal HOLD signals in
  (mkSummary buy sell hold, pick_signal buy sell hold).

Section Engine.
Context {ta : TaLibrary}.

(** The expression
    [float(s.iloc[-1]) if not s.empty and not pd.isna(s.iloc[-1]) else float(close.iloc[-1])]:
    the fallback is only evaluated when needed. *)
Definition last_or_close (s : Series) (close : list Q) : result Q :=
  match last_valid s with
  | Some x => Ok x
  | None => iloc_last close
  end.

Definition compute_for_window (df_window : DataFrame)
    : result TimeframeAnalysis :=
  do close <- column c_close df_window;
  let rsi_series := RSIIndicator_rsi 14 close in
  let macd_series := MACD_macd close in
  let macd_signal_series := MACD_macd_signal close in
  let sma_20_series := SMAIndicator_sma_indicator 20 close in
  let sma_50_series := SMAIndicator_sma_indicator 50 close in
  let ema_12_series := EMAIndicator_ema_indicator 12 close in
  let ema_26_series := EMAIndicator_ema_indicator 26 close in
  let bb_upper := BollingerBands_bollinger_hband 20 2 close in
  let bb_middle := BollingerBands_bollinger_mavg 20 2 close in
  let bb_lower := BollingerBands_bollinger_lband 20 2 close in
  let rsi_last := default 50 (last_valid rsi_series) in
  let macd_last := default 0 (last_valid macd_series) in
  let macd_signal_last := default 0 (last_valid macd_signal_series) in
  let macd_hist_last := macd_last - macd_signal_last in
  do sma_20_last <- last_or_close sma_20_series close;
  do sma_50_last <- last_or_close sma_50_series close;
  do ema_12_last <- last_or_close ema_12_series close;
  do ema_26_last <- last_or_close ema_26_series close;
  let rsi_signal :=
    if Qlt_bool rsi_last 30 then BUY
    else if Qlt_bool 70 rsi_last then SELL else HOLD in
  let macd_signal :=
    if Qlt_bool 0 macd_hist_last then BUY
    else if Qlt_bool macd_hist_last 0 then SELL else HOLD in
  let ma_signal :=
    if Qlt_bool sma_50_last sma_20_last then BUY
    else if Qlt_bool sma_20_last sma_50_last then SELL else HOLD in
  let '(counts, overall) := vote [rsi_signal; macd_signal; ma_signal] in
  do close_last <- iloc_last close;
  let ema_cross := if Qlt_bool ema_26_last ema_12_last then BUY else SELL in
  Ok {|
    oscillators := {|
      rsi := mkReading rsi_last rsi_signal;
      macd := mkReading macd_last macd_signal |};
    moving_averages := {|
      sma_20 := mkReading sma_20_last
                  (if Qlt_bool sma_20_last close_last then BUY else SELL);
      sma_50 := mkReading sma_50_last ma_signal;
      ema_12 := mkReading ema_12_last ema_cross;
      ema_26 := mkReading ema_26_last ema_cross |};
    signals := {|
      overall_signal := overall;
      summary := counts;
      details := mkDetails rsi_signal macd_signal ma_signal |};
    series := {|
      series_rsi := tail 90 (fillna_const 50 (bfill (ffill rsi_series)));
      series_macd := tail 90 (fillna_const 0 (bfill (ffill macd_series)));
      series_macd_signal :=
        tail 90 (fillna_const 0 (bfill (ffill macd_signal_series)));
      series_sma_20 :=
        tail 90 (fillna_series close (bfill (ffill sma_20_series)));
      series_sma_50 :=
        tail 90 (fillna_series close (bfill (ffill sma_50_series)));
      series_bb_upper :=
        tail 90 (fillna_series close (bfill (ffill bb_upper)));
      series_bb_middle :=
        tail 90 (fillna_series close (bfill (ffill bb_middle)));
      series_bb_lower :=
        tail 90 (fillna_series close (bfill (ffill bb_lower))) |}
  |}.

Definition compute_technical_analysis (df : DataFrame)
    : result TechnicalAnalysis :=
  do tf_1d <- compute_for_window (tail 90 df);
  do tf_1w <- compute_for_window (tail 30 df);
  do tf_1m <- compute_for_window (tail 90 df);
  let '(_, overall) :=
    vote [overall_signal (signals tf_1d);
          overall_signal (signals tf_1w);
          overall_signal (signals tf_1m)] in
  Ok {|
    technical_overall_signal := overall;
    tf_1d := tf_1d;
    tf_1w := tf_1w;
    tf_1m := tf_1m
  |}.
End Engine.

(** ** The indicator formulas of the specification

    The package [ta] is not part of the sources. The definitions of this
    part follow section 4.2 of the specification and give one
    implementation of [TaLibrary]. *)

Fixpoint diffs (prev : Q) (l : list Q) : list Q :=
  match l with
  | [] => []
  | x :: r => (x - prev) :: diffs x r
  end.

(** The close-to-close price changes of a window. *)
Definition changes (close : list Q) : list Q :=
  match close with
  | [] => []
  | x :: r => diffs x r
  end.

Definition gain (d : Q) : Q := if Qlt_bool 0 d then d else 0.
Definition loss (d : Q) : Q := if Qlt_bool d 0 then - d else 0.

(** Modelled from the spec: Wilder's smoothing with window [w], the
    recurrence [avg_i = ((w - 1) * avg_(i-1) + x_i) / w]. *)
Definition wilder_step (w : nat) (avg x : Q) : Q :=
  (avg * (inject_Z (Z.of_nat w) - 1) + x) / inject_Z (Z.of_nat w).

Fixpoint wilder_smooth (w : nat) (avg : Q) (xs : list Q) : list Q :=
  match xs with
  | [] => []
  | x :: r => let a := wilder_step w avg x in a :: wilder_smooth w a r
  end.

(** The smoothed average per row of the window. The first row has no change,
    which counts as neither gain nor loss, and starts the recurrence at 0. *)
Definition wilder_average (w : nat) (pick : Q -> Q) (close : list Q) : list Q :=
  match close with
  | [] => []
  | _ :: _ => 0 :: wilder_smooth w 0 (map pick (changes close))
  end.

(** Modelled from the spec: [RSI = 100 - 100/(1+RS)], [RS = avgGain/avgLoss];
    if [avgLoss = 0], RSI = 100. *)
Definition rsi_value (avg_gain avg_loss : Q) : Q :=
  if Qeq_bool avg_loss 0 then 100
  else 100 - 100 / (1 + avg_gain / avg_loss).

(** Entries before index [k] are undefined. *)
Fixpoint mask (k : nat) (l : list Q) : Series :=
  match l with
  | [] => []
  | x :: r =>
      match k with
      | O => Some x :: mask O r
      | S k' => None :: mask k' r
      end
  end.

Fixpoint zip_with {A B C : Type} (f : A -> B -> C) (l1 : list A) (l2 : list B)
    : list C :=
  match l1, l2 with
  | a :: r1, b :: r2 => f a b :: zip_with f r1 r2
  | _, _ => []
  end.

(** Modelled from the spec: RSI(window) of section 4.2, the package's
    [RSIIndicator(close, window).rsi()] that is missing from the sources: the
    RSI of the Wilder-smoothed average gain and loss of each row, undefined
    until [window] rows of history have accumulated. *)
Definition spec_rsi (window : nat) (close : list Q) : Series :=
  mask (window - 1)
    (zip_with rsi_value (wilder_average window gain close)
                        (wilder_average window loss close)).

Definition Qsum (l : list Q) : Q := fold_right Qplus 0 l.

(** Modelled from the spec: the same RSI under the other usual start of
    Wilder's recurrence, where the first average is the plain mean of the
    first [window] changes. The specification leaves the start open; the
    current reading is given, [None] without [window] changes of history. *)
Definition seeded_rsi (window : nat) (close : list Q) : option Q :=
  let ch := changes close in
  if (length ch <? window)%nat then None
  else
    let n := inject_Z (Z.of_nat window) in
    let seed pick := Qsum (map pick (firstn window ch)) / n in
    let run pick :=
      fold_left (wilder_step window) (map pick (skipn window ch)) (seed pick) in
    Some (rsi_value (run gain) (run loss)).

(** Modelled from the spec: SMA(w), the arithmetic mean of the trailing [w]
    closes, undefined for indices below [w - 1]. *)
Definition spec_sma (w : nat) (close : list Q) : Series :=
  map (fun i =>
         if (S i <? w)%nat then None
         else Some (Qsum (firstn w (skipn (S i - w) close))
                    / inject_Z (Z.of_nat w)))
      (seq 0 (length close)).

Fixpoint ema_from (k prev : Q) (xs : list Q) : list Q :=
  match xs with
  | [] => []
  | x :: r => let e := x * k + prev * (1 - k) in e :: ema_from k e r
  end.

(** Modelled from the spec: EMA(w), seeded by SMA(w) at index [w - 1], then
    [ema[i] = c[i]*k + ema[i-1]*(1-k)] with [k = 2/(w+1)]. *)
Definition spec_ema (w : nat) (close : list Q) : Series :=
  if ((length close <? w)%nat || (w =? 0)%nat)%bool
  then map (fun _ => None) close
  else
    let k := 2 / (inject_Z (Z.of_nat w) + 1) in
    let seed := Qsum (firstn w close) / inject_Z (Z.of_nat w) in
    repeat None (w - 1) ++ map Some (seed :: ema_from k seed (skipn w close)).

(** The EMA of a series with undefined leading entries. *)
Fixpoint spec_ema_series (w : nat) (s : Series) : Series :=
  match s with
  | None :: r => None :: spec_ema_series w r
  | _ => spec_ema w (map (default 0) s)
  end.

(** Modelled from the spec: [macd = EMA(12) - EMA(26)] and
    [signal = EMA(9) of macd]. *)
Definition spec_macd (close : list Q) : Series :=
  zip_with (fun a b => match a, b with
                       | Some x, Some y => Some (x - y)
                       | _, _ => None
                       end)
           (spec_ema 12 close) (spec_ema 26 close).

Definition spec_macd_signal (close : list Q) : Series :=
  spec_ema_series 9 (spec_macd close).

(** Modelled from the spec: Bollinger bands, [middle = SMA(w)] and
    [upper/lower = middle ± k * (population std-dev of trailing w closes)];
    [sqrtf] stands for the float square root. *)
Definition spec_bollinger (sqrtf : Q -> Q) (side : Q) (w : nat) (k : Q)
    (close : list Q) : Series :=
  map (fun i =>
         if (S i <? w)%nat then None
         else
           let win := firstn w (skipn (S i - w) close) in
           let n := inject_Z (Z.of_nat w) in
           let m := Qsum win / n in
           let var := Qsum (map (fun c => (c - m) * (c - m)) win) / n in
           Some (m + side * k * sqrtf var))
      (seq 0 (length close)).

Definition spec_ta (sqrtf : Q -> Q) : TaLibrary := {|
  RSIIndicator_rsi := spec_rsi;
  MACD_macd := spec_macd;
  MACD_macd_signal := spec_macd_signal;
  SMAIndicator_sma_indicator := spec_sma;
  EMAIndicator_ema_indicator := spec_ema;
  BollingerBands_bollinger_hband := spec_bollinger sqrtf 1;
  BollingerBands_bollinger_mavg := spec_bollinger sqrtf 0;
  BollingerBands_bollinger_lband := spec_bollinger sqrtf (-1)
|}.

(** ** Numeric routines of [numpy] and Python builtins *)

Class NumpyLibrary : Type := {
  (** [np.sqrt] *)
  np_sqrt : Q -> Q;
  (** [np.polyfit(x, y, deg)]: coefficients, highest power first *)
  np_polyfit : list Q -> list Q -> nat -> list Q
}.

(** [np.polyval(coeffs, x)] at one point, by Horner's rule. *)
Definition polyval (coeffs : list Q) (x : Q) : Q :=
  fold_left (fun acc c => acc * x + c) coeffs 0.

(** [np.arange(a, b)] *)
Definition arange (a b : Z) : list Q :=
  map (fun i => inject_Z (a + Z.of_nat i)) (seq 0 (Z.to_nat (b - a))).

Fixpoint mapM {A B : Type} (f : A -> result B) (l : list A) : result (list B) :=
  match l with
  | [] => Ok []
  | a :: r => do b <- f a; do bs <- mapM f r; Ok (b :: bs)
  end.

Definition mean (l : list Q) : result Q :=
  checked_div (Qsum l) (inject_Z (Z.of_nat (length l))).

(** [[x] * days]: the empty list for a negative count. *)
Definition list_repeat {A : Type} (x : A) (days : Z) : list A :=
  repeat x (Z.to_nat days).

(** [pd.date_range(start, periods, freq='D')] on day numbers; a negative
    number of periods is rejected. *)
Definition date_range (start periods : Z) : result (list Z) :=
  if (periods <? 0)%Z then Raise ValueError
  else Ok (map (fun i => (start + Z.of_nat i)%Z) (seq 0 (Z.to_nat periods))).

(** [round(q, ndigits)] *)
Definition py_round (q : Q) (ndigits : nat) : Q :=
  let scale := inject_Z (10 ^ Z.of_nat ndigits) in
  inject_Z (round_half_even (q * scale)) / scale.

(** ** Forecast engine (app.py, lines 225-260) *)

Record ModelPerformance : Type := mkModelPerformance {
  RMSE : Q; MAPE : Q; R2 : Q
}.

Record FuturePredictions : Type := mkFuturePredictions {
  dates : list Z;
  predictions : list Q;
  current_price : Q
}.

Record LstmPrediction : Type := mkLstmPrediction {
  model_performance : ModelPerformance;
  future_predictions : FuturePredictions;
  model_trained : bool
}.

Section Forecast.
Context {np : NumpyLibrary}.

Definition compute_lstm_like_prediction (df : DataFrame) (days : Z)
    : result LstmPrediction :=
  do close <- column c_close df;
  let recent := tail 60 close in
  let y := recent in
  let n := Z.of_nat (length y) in
  let x := arange 0 n in
  do fit <-
    (if (n <? 10)%Z then
       do last_close <- iloc_last close;
       Ok (list_repeat last_close days, mkModelPerformance 0 0 0)
     else
       let coeffs := np_polyfit x y 1 in
       let y_hat := map (polyval coeffs) x in
       let residual := zip_with Qminus y y_hat in
       do mse <- mean (map (fun r => r * r) residual);
       let rmse := np_sqrt mse in
       do ratios <-
         mapM (fun p => checked_div (fst p) (Qmax (snd p) (1 # 1000000000)))
              (combine residual y);
       do mape_mean <- mean (map Qabs ratios);
       let mape := mape_mean * 100 in
       let ss_res := Qsum (map (fun r => r * r) residual) in
       do y_mean <- mean y;
       let ss_tot := Qsum (map (fun yi => (yi - y_mean) * (yi - y_mean)) y) in
       do r2 <-
         (if Qlt_bool 0 ss_tot
          then do q <- checked_div ss_res ss_tot; Ok (1 - q)
          else Ok 0);
       let future_x := arange n (n + days) in
       Ok (map (polyval coeffs) future_x, mkModelPerformance rmse mape r2));
  let preds := fst fit in
  do date <- column c_date df;
  do last_date <- iloc_last date;
  do future_dates <- date_range (last_date + 1) days;
  do close_last <- iloc_last close;
  Ok {|
    model_performance := snd fit;
    future_predictions := {|
      dates := future_dates;
      predictions := preds;
      current_price := close_last |};
    model_trained := true
  |}.
End Forecast.

(** ** Sentiment scorer (app.py, lines 262-299) *)

Inductive SentimentClass : Type := POSITIVE | NEGATIVE | NEUTRAL_CLASS.
Inductive SentimentLabel : Type := BULLISH | BEARISH | NEUTRAL.

Record OnchainMetrics : Type := mkOnchainMetrics {
  active_addresses : Z;
  transaction_count : Z;
  nvt_ratio : option Q;        (* [None] stands for the string 'N/A' *)
  mvrv : Q
}.

Record Sentiment : Type := mkSentiment {
  sentiment_symbol : string;
  combined_score : Q;
  combined_signal : Signal;
  sentiment : SentimentLabel;
  sentiment_class : SentimentClass;
  news_count : Z;
  onchain_metrics : OnchainMetrics
}.

(** The score (line 264), its comparison with the literals [0.15] and
    [-0.15] (lines 267, 271) and the NVT proxy (line 282) are computed in
    double precision; the float arguments are doubles. *)
Definition compute_sentiment (symbol : string) (price_change_percent : Q)
    (technical : TechnicalAnalysis) (trade_count_24h : Z)
    (quote_volume_24h : option Q) (mvrv : Q) : result Sentiment :=
  let rsi_val := value (rsi (oscillators (tf_1d technical))) in
  do a <- float_div price_change_percent 100;
  do b <- float_div (float_sub 50 rsi_val) 100;
  let score := float_add a b in
  let combined_score := Qmax (-1) (Qmin 1 score) in
  let '(combined_signal, sentiment_class, sentiment) :=
    if Qlt_bool (float_literal (15 # 100)) combined_score
    then (BUY, POSITIVE, BULLISH)
    else if Qlt_bool combined_score (- float_literal (15 # 100))
         then (SELL, NEGATIVE, BEARISH)
         else (HOLD, NEUTRAL_CLASS, NEUTRAL) in
  let tx_count := trade_count_24h in
  let active_addresses := Z.max 0 (tx_count / 120) in
  do nvt_ratio <-
    match quote_volume_24h with
    | Some qv =>
        do r <- float_div qv (float_of_int (Z.max tx_count 1));
        Ok (Some (float_round r 6))
    | None => Ok None
    end;
  Ok {|
    sentiment_symbol := symbol;
    combined_score := combined_score;
    combined_signal := combined_signal;
    sentiment := sentiment;
    sentiment_class := sentiment_class;
    news_count := 0;
    onchain_metrics := {|
      active_addresses := active_addresses;
      transaction_count := tx_count;
      nvt_ratio := nvt_ratio;
      mvrv := mvrv |}
  |}.

(** ** Request handler [get_analysis] (app.py, lines 428-484) *)

(** A JSON scalar of a ticker record. *)
Inductive jsval : Type :=
| JNull
| JStr (s : string)
| JInt (z : Z)
| JFloat (q : Q).

(** A ticker dictionary; a missing key is [None]. *)
Record Ticker : Type := mkTicker {
  ticker_symbol : option jsval;
  lastPrice : option jsval;
  priceChangePercent : option jsval;
  ticker_volume : option jsval;
  quoteVolume : option jsval;
  ticker_count : option jsval
}.

(** What the cache holds: a batch of tickers or a frame of candles. *)
Inductive payload : Type :=
| Tickers (l : list Ticker)
| Frame (df : DataFrame).

(** The builtin parsers [float(str)] and [int(str)]; [None] when the builtin
    raises [ValueError]. *)
Class PyBuiltins : Type := {
  float_of_str : string -> option Q;
  int_of_str : string -> option Z
}.

(** Truth value of [d.get(key)]. *)
Definition py_truthy (v : option jsval) : bool :=
  match v with
  | None | Some JNull => false
  | Some (JStr s) => negb (String.eqb s "")
  | Some (JInt z) => negb (z =? 0)%Z
  | Some (JFloat q) => negb (Qeq_bool q 0)
  end.

Definition ascii_lower (c : ascii) : ascii :=
  let n := nat_of_ascii c in
  if ((65 <=? n) && (n <=? 90))%nat then ascii_of_nat (n + 32) else c.

Definition ascii_upper (c : ascii) : ascii :=
  let n := nat_of_ascii c in
  if ((97 <=? n) && (n <=? 122))%nat then ascii_of_nat (n - 32) else c.

Fixpoint str_map (f : ascii -> ascii) (s : string) : string :=
  match s with
  | EmptyString => EmptyString
  | String c r => String (f c) (str_map f r)
  end.

Definition signal_name (x : Signal) : string :=
  match x with BUY => "BUY" | SELL => "SELL" | HOLD => "HOLD" end.

Definition exn_message (e : exn) : string :=
  match e with
  | KeyError => "KeyError"
  | IndexError => "IndexError"
  | ZeroDivisionError => "ZeroDivisionError"
  | ValueError => "ValueError"
  | TypeError => "TypeError"
  | AttributeError => "AttributeError"
  | RequestError => "RequestError"
  end.

Record FinalRecommendation : Type := mkFinalRecommendation {
  recommendation_signal : Signal;
  confidence : Z;
  reasoning : string
}.

Record AnalysisReport : Type := mkAnalysisReport {
  report_symbol : string;
  report_timestamp : Q;
  report_current_price : Q;
  report_price_change_percent : Q;
  volume_24h : Q;
  quote_volume_24h : Q;
  technical_analysis : TechnicalAnalysis;
  lstm_prediction : LstmPrediction;
  sentiment_analysis : Sentiment;
  final_recommendation : FinalRecommendation
}.

Inductive Body : Type :=
| ErrorBody (message : string)
| ReportBody (report : AnalysisReport).

Record Response : Type := mkResponse { body : Body; status : Z }.

Definition period_to_limit (period : string) : Z :=
  if String.eqb period "7d" then 7
  else if String.eqb period "30d" then 30
  else if String.eqb period "90d" then 90
  else 90.

(** What the handler reads off the ticker batch before it asks for candles. *)
Record TickerFacts : Type := mkTickerFacts {
  facts_ticker : option Ticker;
  facts_current_price : option Q;
  facts_price_change_percent : Q;
  facts_volume_24h : Q;
  facts_quote_volume_24h : Q
}.

Section Api.
Context {ta : TaLibrary} {np : NumpyLibrary} {py : PyBuiltins} {W : Type}.

(** The two upstream sources; their bodies perform network requests. *)
Variable fetch_binance_data : fetcher payload W.
Variable fetch_binance_klines : string -> string -> Z -> fetcher payload W.

Definition py_float (v : option jsval) : result Q :=
  match v with
  | Some (JStr s) =>
      match float_of_str s with Some q => Ok q | None => Raise ValueError end
  | Some (JInt z) => Ok (inject_Z z)
  | Some (JFloat q) => Ok q
  | Some JNull | None => Raise TypeError
  end.

Definition py_int (v : option jsval) : result Z :=
  match v with
  | Some (JStr s) =>
      match int_of_str s with Some z => Ok z | None => Raise ValueError end
  | Some (JInt z) => Ok z
  | Some (JFloat q) => Ok (Z.quot (Qnum q) (Z.pos (Qden q)))
  | Some JNull | None => Raise TypeError
  end.

(** [ticker.get(field)], with [None] when no ticker was found. *)
Definition ticker_get (ticker : option Ticker)
    (field : Ticker -> option jsval) : option jsval :=
  match ticker with
  | Some t => field t
  | None => None
  end.

(** [t.get('symbol') == symbol] *)
Definition symbol_is (symbol : string) (t : Ticker) : bool :=
  match ticker_symbol t with
  | Some (JStr s) => String.eqb s symbol
  | _ => false
  end.

(** Lines 435-440. *)
Definition read_ticker (symbol : string) (cached : option payload)
    : result TickerFacts :=
  do tickers <-
    match cached with
    | None => Ok []
    | Some (Tickers l) => Ok l
    | Some (Frame _) => Raise ValueError
    end;
  let ticker := find (symbol_is symbol) tickers in
  do current_price <-
    (if py_truthy (ticker_get ticker lastPrice)
     then do q <- py_float (ticker_get ticker lastPrice); Ok (Some q)
     else Ok None);
  do price_change_percent <-
    (if py_truthy (ticker_get ticker priceChangePercent)
     then py_float (ticker_get ticker priceChangePercent) else Ok 0);
  do volume_24h <-
    (if py_truthy (ticker_get ticker ticker_volume)
     then py_float (ticker_get ticker ticker_volume) else Ok 0);
  do quote_volume_24h <-
    (if py_truthy (ticker_get ticker quoteVolume)
     then py_float (ticker_get ticker quoteVolume) else Ok 0);
  Ok (mkTickerFacts ticker current_price price_change_percent
        volume_24h quote_volume_24h).

Definition no_history : Response :=
  mkResponse (ErrorBody "Unable to fetch historical data for analysis") 500.

(** Lines 453-454: the MVRV-like ratio of the current price to the mean
    close of the window. *)
Definition mvrv_of_window (current_price : Q) (df_period : DataFrame)
    : result Q :=
  do avg_close <-
    match df_period with
    | [] => Ok current_price
    | _ => do close <- column c_close df_period; mean close
    end;
  do ratio <- checked_div current_price (Qmax avg_close (1 # 1000000000000));
  Ok (py_round ratio 6).

(** Lines 446-480, for a non-empty frame [df]. *)
Definition build_report (symbol period : string) (limit : Z) (now : Q)
    (facts : TickerFacts) (df : DataFrame) : result Response :=
  let ticker := facts_ticker facts in
  let price_change_percent := facts_price_change_percent facts in
  let df_period := tail (Z.to_nat limit) df in
  do current_price <-
    match facts_current_price facts with
    | Some p => Ok p
    | None => do close <- column c_close df_period; iloc_last close
    end;
  do technical <- compute_technical_analysis df_period;
  do lstm_prediction <- compute_lstm_like_prediction df_period 7;
  do trade_count_24h <-
    (if py_truthy (ticker_get ticker ticker_count)
     then py_int (ticker_get ticker ticker_count) else Ok 0%Z);
  do mvrv <- mvrv_of_window current_price df_period;
  do sentiment <-
    compute_sentiment symbol price_change_percent technical trade_count_24h
      (Some (facts_quote_volume_24h facts)) mvrv;
  let final_signal := technical_overall_signal technical in
  let counts := summary (signals (tf_1d technical)) in
  let confidence :=
    Z.min 95 (Z.max 55 (70 + (buy counts - sell counts) * 10)) in
  Ok (mkResponse
        (ReportBody {|
           report_symbol := symbol;
           report_timestamp := now;
           report_current_price := current_price;
           report_price_change_percent := price_change_percent;
           volume_24h := facts_volume_24h facts;
           quote_volume_24h := facts_quote_volume_24h facts;
           technical_analysis := technical;
           lstm_prediction := lstm_prediction;
           sentiment_analysis := sentiment;
           final_recommendation := {|
             recommendation_signal := final_signal;
             confidence := confidence;
             reasoning :=
               ("Overall signal " ++ signal_name final_signal
                ++ " based on RSI/MACD/MA convergence on "
                ++ str_map ascii_upper period ++ " data.")%string |}
         |})
        200).

(** Lines 443-480: the guard on the candle window, then the report. The
    'charts' entry of the report is a reshaping of [technical] and
    [lstm_prediction] by [build_charts] and is left out. *)
Definition analyse_window (symbol period : string) (limit : Z) (now : Q)
    (facts : TickerFacts) (df : option payload) : result Response :=
  match df with
  | None => Ok no_history
  | Some (Tickers _) => Raise AttributeError
  | Some (Frame []) => Ok no_history
  | Some (Frame df) => build_report symbol period limit now facts df
  end.

Definition klines_key (symbol : string) : string :=
  ("klines_" ++ symbol ++ "_1d_90")%string.

(** The body of the [try] block. [t_tickers] and [t_klines] are the clock
    readings of the two cache calls, [now] the one of the report. *)
Definition get_analysis_try (symbol : string) (period_arg : option string)
    (t_tickers t_klines now : Q) (s : State payload W)
    : result Response * State payload W :=
  let period :=
    str_map ascii_lower
      (match period_arg with
       | Some p => if String.eqb p "" then "90d" else p
       | None => "90d"
       end)%string in
  let limit := period_to_limit period in
  let '(cached, s) :=
    get_cached_data t_tickers "binance_tickers" fetch_binance_data s in
  match read_ticker symbol cached with
  | Raise e => (Raise e, s)
  | Ok facts =>
      let '(df, s) :=
        get_cached_data t_klines (klines_key symbol)
          (fetch_binance_klines symbol "1d" 90%Z) s in
      (analyse_window symbol period limit now facts df, s)
  end.

(** The handler: any exception of the body becomes a 500 response. *)
Definition get_analysis (symbol : string) (period_arg : option string)
    (t_tickers t_klines now : Q) (s : State payload W)
    : Response * State payload W :=
  let '(r, s) :=
    get_analysis_try symbol period_arg t_tickers t_klines now s in
  match r with
  | Ok response => (response, s)
  | Raise e => (mkResponse (ErrorBody (exn_message e)) 500, s)
  end.

(** The state in which the handler asks the cache for candles. *)
Definition state_before_klines (t_tickers : Q) (s : State payload W)
    : State payload W :=
  snd (get_cached_data t_tickers "binance_tickers" fetch_binance_data s).

(** The candle window the cache hands to the handler. *)
Definition window_of (symbol : string) (t_tickers t_klines : Q)
    (s : State payload W) : option payload :=
  fst (get_cached_data t_klines (klines_key symbol)
         (fetch_binance_klines symbol "1d" 90%Z)
         (state_before_klines t_tickers s)).
End Api.

(** An error response: status 500 and an error message, no report. *)
Definition is_error (r : Response) : Prop :=
  exists message, r = mkResponse (ErrorBody message) 500.

(** ** Reference implementations of the library interfaces

    Exact-arithmetic stand-ins used to run the model on concrete data. *)

(** Square root to six decimals. *)
Definition Qsqrt_approx (q : Q) : Q :=
  inject_Z (Z.sqrt (Qfloor (q * 1000000000000))) / 1000000.

(** The least-squares line through the points [(x_i, y_i)]. *)
Definition lstsq_line (x y : list Q) : list Q :=
  let n := inject_Z (Z.of_nat (length x)) in
  let sx := Qsum x in
  let sy := Qsum y in
  let sxy := Qsum (zip_with Qmult x y) in
  let sxx := Qsum (zip_with Qmult x x) in
  let slope := (n * sxy - sx * sy) / (n * sxx - sx * sx) in
  let intercept := (sy - slope * sx) / n in
  [Qred slope; Qred intercept].

Definition exact_numpy : NumpyLibrary := {|
  np_sqrt := Qsqrt_approx;
  np_polyfit := fun x y deg =>
    match deg with
    | 1%nat => lstsq_line x y
    | _ => []
    end
|}.

Definition digit_of (c : ascii) : option Z :=
  let n := nat_of_ascii c in
  if ((48 <=? n) && (n <=? 57))%nat then Some (Z.of_nat (n - 48)) else None.

(** Reads an unsigned run of decimal digits: the number read so far and the
    count of digits consumed. *)
Fixpoint read_digits (acc : Z) (k : nat) (s : string) : option (Z * nat) :=
  match s with
  | EmptyString => Some (acc, k)
  | String c r =>
      match digit_of c with
      | Some d => read_digits (acc * 10 + d) (S k) r
      | None => None
      end
  end.

Fixpoint split_at_dot (s : string) : string * option string :=
  match s with
  | EmptyString => (EmptyString, None)
  | String c r =>
      if Ascii.eqb c "." then (EmptyString, Some r)
      else let '(a, b) := split_at_dot r in (String c a, b)
  end.

(** Plain decimal literals such as ["50000.00"] or ["-3.5"]. *)
Definition decimal_of_str (s : string) : option Q :=
  let '(neg, body) :=
    match s with
    | String c r => if Ascii.eqb c "-" then (true, r) else (false, s)
    | EmptyString => (false, s)
    end in
  let '(ip, fp) := split_at_dot body in
  match read_digits 0 0 ip, read_digits 0 0 (default EmptyString fp) with
  | Some (i, ki), Some (f, kf) =>
      if ((ki + kf)%nat =? 0)%nat then None
      else
        let q := Qred (inject_Z i + inject_Z f / inject_Z (10 ^ Z.of_nat kf)) in
        Some (if neg then - q else q)
  | _, _ => None
  end.

(** Plain integer literals such as ["50000"] or ["-7"]. *)
Definition integer_of_str (s : string) : option Z :=
  let '(neg, body) :=
    match s with
    | String c r => if Ascii.eqb c "-" then (true, r) else (false, s)
    | EmptyString => (false, s)
    end in
  match read_digits 0 0 body with
  | Some (i, S _) => Some (if neg then - i else i)%Z
  | _ => None
  end.

Definition decimal_builtins : PyBuiltins := {|
  float_of_str := fun s => option_map float_literal (decimal_of_str s);
  int_of_str := integer_of_str
|}.

(** ** Sample data *)

Definition sample_ta : TaLibrary := spec_ta Qsqrt_approx.

(** Daily candles with the given closes, on consecutive days from day 0. *)
Definition candles_of_closes (closes : list Q) : DataFrame :=
  zip_with (fun i c =>
              mkCandle (86400000 * Z.of_nat i) (Z.of_nat i) c c c c 1)
           (seq 0 (length closes)) closes.

(** Sixteen rising closes, 101 to 116. *)
Definition rising_closes : list Q :=
  map (fun i => inject_Z (101 + Z.of_nat i)) (seq 0 16).

(** One loss followed by fourteen gains. *)
Definition dip_then_rise : list Q :=
  100 :: map (fun i => inject_Z (90 + Z.of_nat i)) (seq 0 15).

Definition sample_frame : DataFrame := candles_of_closes rising_closes.

Definition short_frame : DataFrame := candles_of_closes [10; 11; 12].

Definition btc_ticker : Ticker := {|
  ticker_symbol := Some (JStr "BTCUSDT");
  lastPrice := Some (JStr "116.00");
  priceChangePercent := Some (JStr "2.04");
  ticker_volume := Some (JStr "1000.00");
  quoteVolume := Some (JStr "50000000.00");
  ticker_count := Some (JInt 50000)
|}.

(** Upstream sources that count the requests made: tickers are always
    served, candles exist for "BTCUSDT" only. *)
Definition sample_tickers : fetcher payload nat :=
  fun calls => (Ok (Some (Tickers [btc_ticker])), S calls).

Definition sample_klines (symbol interval : string) (limit : Z)
    : fetcher payload nat :=
  fun calls =>
    (Ok (Some (Frame (if String.eqb symbol "BTCUSDT"
                      then sample_frame else []))),
     S calls).

Definition sample_state : State payload nat := mkState ∅ ∅ 0%nat [].

Definition sample_response (symbol : string) : Response :=
  fst (@get_analysis sample_ta exact_numpy decimal_builtins nat
         sample_tickers sample_klines symbol None 1000 1001 1002 sample_state).

(** A timeframe analysis with a given RSI reading and neutral signals. *)
Definition flat_timeframe (rsi_value : Q) : TimeframeAnalysis := {|
  oscillators := mkOscillators (mkReading rsi_value HOLD) (mkReading 0 HOLD);
  moving_averages :=
    mkMovingAverages (mkReading 0 SELL) (mkReading 0 HOLD)
                     (mkReading 0 SELL) (mkReading 0 SELL);
  signals := mkSignals HOLD (mkSummary 0 0 3) (mkDetails HOLD HOLD HOLD);
  series := mkSeriesBlock [] [] [] [] [] [] [] []
|}.

Definition flat_technical (rsi_value : Q) : TechnicalAnalysis :=
  mkTechnicalAnalysis HOLD (flat_timeframe rsi_value)
    (flat_timeframe rsi_value) (flat_timeframe rsi_value).

(** The report of the sample request for "BTCUSDT", if one is produced. *)
Definition sample_report : option AnalysisReport := Eval vm_compute in
  match body (sample_response "BTCUSDT") with
  | ReportBody r => Some r
  | ErrorBody _ => None
  end.

From Stdlib Require Import Sorting.Sorted Sorting.Permutation.

(** ** Further predicates on the cache *)

Section CacheInvariants.
Context {V W : Type}.

(** Both dictionaries hold the same keys. *)
Definition same_keys (s : State V W) : Prop :=
  forall k, is_Some (data_cache s !! k) <-> is_Some (cache_timestamp s !! k).
End CacheInvariants.

(** ** Further predicates on requests *)

(** The period string the handler works with (line 431). *)
Definition normal_period (period_arg : option string) : string :=
  str_map ascii_lower
    (match period_arg with
     | Some p => if String.eqb p "" then "90d" else p
     | None => "90d"
     end)%string.

(** The cached ticker batch has no record for [symbol]. *)
Definition no_ticker_for (symbol : string) (cached : option payload) : Prop :=
  match cached with
  | None => True
  | Some (Tickers l) => find (symbol_is symbol) l = None
  | Some (Frame _) => False
  end.

(** The values the confidence of a recommendation can take. *)
Definition confidence_levels : list Z := [55; 60; 70; 80; 90; 95]%Z.

(** ** Upstream sources (app.py, lines 52-123) *)

(** What [requests.get] hands back: the status code and the body as
    [response.json()] reads it, which raises on a body that is not JSON. *)
Record HttpResponse (B : Type) : Type := mkHttpResponse {
  status_code : Z;
  json : result B
}.
Arguments mkHttpResponse {B} _ _.
Arguments status_code {B} _.
Arguments json {B} _.

Definition TICKER_URL : string := "https://api.binance.com/api/v3/ticker/24hr".
Definition TICKER_BACKUP_URL : string :=
  "https://api1.binance.com/api/v3/ticker/24hr".
Definition KLINES_URL : string := "https://api.binance.com/api/v3/klines".

Section TickerSource.
(** [T] is the type of ticker records, [wrap] makes a cached value of a
    batch and [mock] is the batch of [get_mock_tickers]. A JSON body is a
    list of records or [null] ([None]); other JSON shapes are not modelled. *)
Context {T V W : Type}.
Variable wrap : list T -> V.
Variable mock : list T.
Variable requests_get : string -> W -> result (HttpResponse (option (list T))) * W.

(** One [try] block of [fetch_binance_data]: the tickers of an answer with
    status 200, or nothing. Any exception is caught and logged: a failed
    request, a body that is not JSON, and the [TypeError] that
    [len(tickers)] raises on a [null] body. *)
Definition try_endpoint (url : string) (w : W) : option (list T) * W :=
  match requests_get url w with
  | (Raise _, w') => (None, w')
  | (Ok response, w') =>
      if (status_code response =? 200)%Z then
        match json response with
        | Ok (Some tickers) => (Some tickers, w')
        | Ok None => (None, w')
        | Raise _ => (None, w')
        end
      else (None, w')
  end.

Definition fetch_binance_data : fetcher V W :=
  fun w =>
    match try_endpoint TICKER_URL w with
    | (Some tickers, w1) => (Ok (Some (wrap tickers)), w1)
    | (None, w1) =>
        match try_endpoint TICKER_BACKUP_URL w1 with
        | (Some tickers, w2) => (Ok (Some (wrap tickers)), w2)
        | (None, w2) => (Ok (Some (wrap mock)), w2)
        end
    end.
End TickerSource.

(** The valid day numbers of [pd.to_datetime]: 1677-09-22 to 2262-04-11. *)
Definition MIN_DAY : Z := -106751.
Definition MAX_DAY : Z := 106751.

Fixpoint insert_by_date (c : Candle) (l : list Candle) : list Candle :=
  match l with
  | [] => [c]
  | d :: r =>
      if (c_date d <? c_date c)%Z then d :: insert_by_date c r
      else c :: d :: r
  end.

(** [df.sort_values('date')], as a stable insertion sort. pandas does not
    promise an order among rows of equal date; nothing below depends on
    it. *)
Definition sort_values_date (df : DataFrame) : DataFrame :=
  fold_right insert_by_date [] df.

Section KlinesSource.
Context {py : PyBuiltins} {W : Type}.
(** [requests.get(url, params={'symbol', 'interval', 'limit'}, timeout=10)];
    the body is a list of rows, each a list of scalars. *)
Variable requests_get :
  string -> string -> string -> Z -> W ->
  result (HttpResponse (list (list jsval))) * W.

(** [response.raise_for_status()] *)
Definition raise_for_status {B : Type} (response : HttpResponse B)
    : result unit :=
  if ((400 <=? status_code response) && (status_code response <? 600))%Z
  then Raise RequestError else Ok tt.

(** [k[i]] *)
Definition item (k : list jsval) (i : nat) : result jsval :=
  match nth_error k i with
  | Some v => Ok v
  | None => Raise IndexError
  end.

(** One pass of the loop of lines 107-117. The date is the UTC calendar day
    of the open time. *)
Definition parse_kline (k : list jsval) : result Candle :=
  do k0 <- item k 0;
  do open_time_ms <- py_int (Some k0);
  let date := (open_time_ms / 86400000)%Z in
  do k1 <- item k 1; do open <- py_float (Some k1);
  do k2 <- item k 2; do high <- py_float (Some k2);
  do k3 <- item k 3; do low <- py_float (Some k3);
  do k4 <- item k 4; do close <- py_float (Some k4);
  do k5 <- item k 5; do volume <- py_float (Some k5);
  Ok (mkCandle open_time_ms date open high low close volume).

(** [pd.to_datetime(df['date'])]: a day outside the range of pandas
    timestamps raises. (An open time outside the wider range of [datetime]
    raises already in the loop; either way the fetch raises.) *)
Definition to_datetime (rows : list Candle) : result (list Candle) :=
  if forallb (fun c => (MIN_DAY <=? c_date c) && (c_date c <=? MAX_DAY))%Z rows
  then Ok rows else Raise ValueError.

Definition fetch_binance_klines (symbol interval : string) (limit : Z)
    : fetcher payload W :=
  fun w =>
    match requests_get KLINES_URL symbol interval limit w with
    | (Raise e, w') => (Raise e, w')
    | (Ok response, w') =>
        (do _ <- raise_for_status response;
         do klines <- json response;
         do rows <- mapM parse_kline klines;
         match rows with
         | [] => Ok (Some (Frame []))
         | _ => do df <- to_datetime rows;
                Ok (Some (Frame (sort_values_date df)))
         end,
         w')
    end.
End KlinesSource.

(** ** Symbol listing [get_symbols] (app.py, lines 78-92 and 386-426) *)

(** A ticker dictionary as the listing reads it: the keys the analysis
    reads, and the three further price keys. *)
Record MarketTicker : Type := mkMarketTicker {
  core : Ticker;
  openPrice : option jsval;
  highPrice : option jsval;
  lowPrice : option jsval
}.

Inductive market_payload : Type :=
| MarketTickers (l : list MarketTicker)
| MarketFrame (df : DataFrame).

Definition mock_ticker (symbol last open high low volume quote count change
    : string) : MarketTicker := {|
  core := {|
    ticker_symbol := Some (JStr symbol);
    lastPrice := Some (JStr last);
    priceChangePercent := Some (JStr change);
    ticker_volume := Some (JStr volume);
    quoteVolume := Some (JStr quote);
    ticker_count := Some (JStr count) |};
  openPrice := Some (JStr open);
  highPrice := Some (JStr high);
  lowPrice := Some (JStr low)
|}.

Definition get_mock_tickers : list MarketTicker := [
  mock_ticker "BTCUSDT" "50000.00" "49000.00" "51000.00" "48000.00"
    "1000.00" "50000000.00" "50000" "2.04";
  mock_ticker "ETHUSDT" "3000.00" "2900.00" "3100.00" "2800.00"
    "5000.00" "15000000.00" "30000" "3.45";
  mock_ticker "SOLUSDT" "150.00" "145.00" "155.00" "140.00"
    "10000.00" "1500000.00" "25000" "3.45";
  mock_ticker "XRPUSDT" "0.60" "0.58" "0.62" "0.56"
    "50000.00" "30000.00" "40000" "3.45";
  mock_ticker "BNBUSDT" "400.00" "390.00" "410.00" "380.00"
    "2000.00" "800000.00" "20000" "2.56";
  mock_ticker "DOGEUSDT" "0.15" "0.14" "0.16" "0.13"
    "100000.00" "15000.00" "60000" "7.14";
  mock_ticker "LINKUSDT" "20.00" "19.50" "20.50" "19.00"
    "3000.00" "60000.00" "15000" "2.56";
  mock_ticker "ADAUSDT" "0.50" "0.48" "0.52" "0.46"
    "40000.00" "20000.00" "35000" "4.17";
  mock_ticker "LTCUSDT" "100.00" "95.00" "105.00" "90.00"
    "1500.00" "150000.00" "12000" "5.26";
  mock_ticker "AVAXUSDT" "40.00" "38.00" "42.00" "36.00"
    "2500.00" "100000.00" "18000" "5.26"
].

(** [s.endswith(suffix)] *)
Definition ends_with (s suffix : string) : bool :=
  let n := String.length s in
  let m := String.length suffix in
  ((m <=? n)%nat && String.eqb (substring (n - m) m s) suffix)%bool.

(** [str(t.get('symbol', '')).endswith('USDT')]: the text of a missing key,
    of [None] and of a number never ends in "USDT". *)
Definition is_usdt (t : MarketTicker) : bool :=
  match ticker_symbol (core t) with
  | Some (JStr s) => ends_with s "USDT"
  | _ => false
  end.

Record SymbolRow : Type := mkSymbolRow {
  row_symbol : jsval;
  row_close : Q;
  row_open : Q;
  row_high : Q;
  row_low : Q;
  row_volume : Q;
  row_quote_volume : Q;
  row_count : Z;
  row_number_of_trades : Z;
  row_price_change_percent : jsval;
  row_date : Z;
  row_timestamp : Z
}.

Inductive SymbolsBody : Type :=
| SymbolsError (message : string)
| SymbolsList (symbols : list SymbolRow).

Record SymbolsResponse : Type := mkSymbolsResponse {
  symbols_body : SymbolsBody;
  symbols_status : Z
}.

Section SortedDesc.
Context {T : Type}.

Fixpoint insert_desc (x : Q * T) (l : list (Q * T)) : list (Q * T) :=
  match l with
  | [] => [x]
  | y :: r =>
      if Qlt_bool (fst x) (fst y) then y :: insert_desc x r
      else x :: y :: r
  end.

(** [sorted(l, key=..., reverse=True)] on records paired with their keys:
    descending, records of equal key in their original order. *)
Definition sorted_desc (l : list (Q * T)) : list (Q * T) :=
  fold_right insert_desc [] l.

(** The order of a descending sort: the key of [b] is at most that of [a]. *)
Definition key_desc (a b : Q * T) : Prop := fst b <= fst a.
End SortedDesc.

Section Symbols.
Context {py : PyBuiltins} {W : Type}.
Variable fetch_binance_data : fetcher market_payload W.

(** [float(ticker.get(key, 0))] *)
Definition float_or_zero (v : option jsval) : result Q :=
  py_float (Some (default (JInt 0) v)).

(** [int(ticker.get(key, 0))] *)
Definition int_or_zero (v : option jsval) : result Z :=
  py_int (Some (default (JInt 0) v)).

(** The sort key of line 398. *)
Definition quote_volume_key (x : MarketTicker) : result Q :=
  float_or_zero (quoteVolume (core x)).

(** The dictionary of lines 403-416; [today] and [now] are the readings of
    [datetime.now()]. *)
Definition symbol_row (today now : Z) (ticker : MarketTicker)
    : result SymbolRow :=
  do symbol <-
    match ticker_symbol (core ticker) with
    | Some v => Ok v
    | None => Raise KeyError
    end;
  do close <- float_or_zero (lastPrice (core ticker));
  do open <- float_or_zero (openPrice ticker);
  do high <- float_or_zero (highPrice ticker);
  do low <- float_or_zero (lowPrice ticker);
  do volume <- float_or_zero (ticker_volume (core ticker));
  do quote_volume <- float_or_zero (quoteVolume (core ticker));
  do count <- int_or_zero (ticker_count (core ticker));
  do number_of_trades <- int_or_zero (ticker_count (core ticker));
  Ok {|
    row_symbol := symbol;
    row_close := close;
    row_open := open;
    row_high := high;
    row_low := low;
    row_volume := volume;
    row_quote_volume := quote_volume;
    row_count := count;
    row_number_of_trades := number_of_trades;
    row_price_change_percent :=
      default (JStr "0.00") (priceChangePercent (core ticker));
    row_date := today;
    row_timestamp := now
  |}.

(** The loop of lines 401-419: a record that raises [ValueError] or
    [TypeError] is logged and skipped, any other exception ends the loop. *)
Fixpoint collect_rows (today now : Z) (top_tickers : list MarketTicker)
    : result (list SymbolRow) :=
  match top_tickers with
  | [] => Ok []
  | ticker :: rest =>
      match symbol_row today now ticker with
      | Ok row => do rows <- collect_rows today now rest; Ok (row :: rows)
      | Raise ValueError | Raise TypeError => collect_rows today now rest
      | Raise e => Raise e
      end
  end.

Definition no_market_data : SymbolsResponse :=
  mkSymbolsResponse (SymbolsError "Unable to fetch market data") 500.

(** Lines 396-422, for the ticker batch [tickers]. *)
Definition list_symbols (today now : Z) (tickers : list MarketTicker)
    : result SymbolsResponse :=
  let usdt_tickers := List.filter is_usdt tickers in
  do keyed <-
    mapM (fun x => do k <- quote_volume_key x; Ok (k, x)) usdt_tickers;
  let top_tickers := firstn 15 (map snd (sorted_desc keyed)) in
  do symbols <- collect_rows today now top_tickers;
  Ok (mkSymbolsResponse (SymbolsList symbols) 200).

(** The handler: [current_time] is the clock reading of the cache call. *)
Definition get_symbols (current_time : Q) (today now : Z)
    (s : State market_payload W) : SymbolsResponse * State market_payload W :=
  let '(tickers, s) :=
    get_cached_data current_time "binance_tickers" fetch_binance_data s in
  let r :=
    match tickers with
    | None => Ok no_market_data
    | Some (MarketFrame _) => Raise ValueError
    | Some (MarketTickers []) => Ok no_market_data
    | Some (MarketTickers tickers) => list_symbols today now tickers
    end in
  match r with
  | Ok response => (response, s)
  | Raise e => (mkSymbolsResponse (SymbolsError (exn_message e)) 500, s)
  end.
End Symbols.

(** ** Chart payload [build_charts] (app.py, lines 301-354)

    The data of the four charts; the fixed captions and colours of the
    datasets are left out. Labels are dates, as day numbers. *)

Record PriceChart : Type := mkPriceChart {
  price_labels : list Z;
  price_close : list Q
}.

Record TechnicalChart : Type := mkTechnicalChart {
  technical_labels : list Z;
  technical_close : list Q;
  technical_sma_20 : Series;
  technical_sma_50 : Series;
  technical_bb_upper : Series;
  technical_bb_lower : Series
}.

Record LstmChart : Type := mkLstmChart {
  lstm_labels : list Z;
  lstm_historical : list (option Q);
  lstm_forecast : list (option Q)
}.

Record Charts : Type := mkCharts {
  chart_price : PriceChart;
  chart_technical : TechnicalChart;
  chart_lstm : LstmChart;
  signals_distribution : list Z
}.

(** [l[-len(s):] if s else l] *)
Definition trim_to {A B : Type} (s : list B) (l : list A) : list A :=
  match s with
  | [] => l
  | _ => tail (length s) l
  end.

Definition build_charts (df : DataFrame) (technical : TechnicalAnalysis)
    (lstm_prediction : LstmPrediction) : result Charts :=
  do labels <- column c_date df;
  do close <- column c_close df;
  let tech_series := series (tf_1d technical) in
  let sma_20 := series_sma_20 tech_series in
  let sma_50 := series_sma_50 tech_series in
  let bb_upper := series_bb_upper tech_series in
  let bb_lower := series_bb_lower tech_series in
  let fp := future_predictions lstm_prediction in
  let hist_prices := if (30 <? length close)%nat then tail 30 close else close in
  let hist_labels := if (30 <? length labels)%nat then tail 30 labels else labels in
  let signals_summary := summary (signals (tf_1d technical)) in
  Ok {|
    chart_price := mkPriceChart labels close;
    chart_technical := {|
      technical_labels := trim_to sma_20 labels;
      technical_close := trim_to sma_20 close;
      technical_sma_20 := sma_20;
      technical_sma_50 := sma_50;
      technical_bb_upper := bb_upper;
      technical_bb_lower := bb_lower |};
    chart_lstm := {|
      lstm_labels := hist_labels ++ dates fp;
      lstm_historical :=
        map Some hist_prices ++ repeat None (length (dates fp));
      lstm_forecast :=
        repeat None (length hist_labels) ++ map Some (predictions fp) |};
    signals_distribution :=
      [buy signals_summary; sell signals_summary; hold signals_summary]
  |}.

(** ** The handlers wired to the upstream sources

    In the source the two handlers call [fetch_binance_data] and
    [fetch_binance_klines] themselves. The analysis reads six keys of a
    ticker, so its batch is the [core] of each record. *)

Section Live.
Context {ta : TaLibrary} {np : NumpyLibrary} {py : PyBuiltins} {W : Type}.
Variable requests_get_tickers :
  string -> W -> result (HttpResponse (option (list MarketTicker))) * W.
Variable requests_get_klines :
  string -> string -> string -> Z -> W ->
  result (HttpResponse (list (list jsval))) * W.

(** The ticker request as the analysis sees its answer. *)
Definition requests_get_core (url : string) (w : W)
    : result (HttpResponse (option (list Ticker))) * W :=
  match requests_get_tickers url w with
  | (Ok response, w') =>
      (Ok (mkHttpResponse (status_code response)
             (match json response with
              | Ok body => Ok (option_map (map core) body)
              | Raise e => Raise e
              end)),
       w')
  | (Raise e, w') => (Raise e, w')
  end.

Definition get_analysis_live :=
  get_analysis
    (fetch_binance_data Tickers (map core get_mock_tickers) requests_get_core)
    (fetch_binance_klines requests_get_klines).

Definition get_symbols_live :=
  get_symbols
    (fetch_binance_data MarketTickers get_mock_tickers requests_get_tickers).
End Live.

(** ** Further sample data *)

(** A network on which every request fails; the world counts the requests. *)
Definition network_down {B : Type} (url : string) (calls : nat)
    : result (HttpResponse B) * nat :=
  (Raise RequestError, S calls).

Definition klines_down {B : Type} (url symbol interval : string) (limit : Z)
    (calls : nat) : result (HttpResponse B) * nat :=
  (Raise RequestError, S calls).

(** A ticker source that fails. *)
Definition failing_tickers : fetcher payload nat :=
  fun calls => (Raise RequestError, S calls).

(** A ticker batch whose record for "BTCUSDT" has an unreadable price. *)
Definition broken_ticker : Ticker := {|
  ticker_symbol := Some (JStr "BTCUSDT");
  lastPrice := Some (JStr "n/a");
  priceChangePercent := None;
  ticker_volume := None;
  quoteVolume := None;
  ticker_count := None
|}.

Definition broken_tickers : fetcher payload nat :=
  fun calls => (Ok (Some (Tickers [broken_ticker])), S calls).

(** Three rows of a klines answer, out of order. *)
Definition sample_klines_body : list (list jsval) := [
  [JInt 172800000; JStr "12.0"; JStr "13.0"; JStr "11.0"; JStr "12.5"; JStr "7"];
  [JInt 0; JStr "10.0"; JStr "11.0"; JStr "9.0"; JStr "10.5"; JStr "5"];
  [JInt 86400000; JStr "11.0"; JStr "12.0"; JStr "10.0"; JStr "11.5"; JStr "6"]
].

Definition klines_up (url symbol interval : string) (limit : Z) (calls : nat)
    : result (HttpResponse (list (list jsval))) * nat :=
  (Ok (mkHttpResponse 200 (Ok sample_klines_body)), S calls).

Definition empty_market : State market_payload nat := mkState ∅ ∅ 0%nat [].

(** The state after a first sample request for "BTCUSDT". *)
Definition warm_state : State payload nat :=
  snd (@get_analysis sample_ta exact_numpy decimal_builtins nat
         sample_tickers sample_klines "BTCUSDT" None 1000 1001 1002
         sample_state).

(** The report of the sample request for the period "7D". *)
Definition sample_week_report : option AnalysisReport := Eval vm_compute in
  match body (fst (@get_analysis sample_ta exact_numpy decimal_builtins nat
                     sample_tickers sample_klines "BTCUSDT" (Some "7D")
                     1000 1001 1002 sample_state)) with
  | ReportBody r => Some r
  | ErrorBody _ => None
  end.

(** What the candle source makes of the sample answer. *)
Definition sample_klines_result : option payload := Eval vm_compute in
  match @fetch_binance_klines decimal_builtins nat klines_up
          "BTCUSDT" "1d" 90 0%nat with
  | (Ok v, _) => v
  | (Raise _, _) => None
  end.

(** The listing of the mock batch. *)
Definition mock_listing : SymbolsResponse := Eval vm_compute in
  match @list_symbols decimal_builtins 19000 1641600000 get_mock_tickers with
  | Ok response => response
  | Raise _ => no_market_data
  end.

(** A forecast without predictions. *)
Definition empty_forecast : LstmPrediction :=
  mkLstmPrediction (mkModelPerformance 0 0 0) (mkFuturePredictions [] [] 0) true.

(** * Properties *)

(** ** Rational helpers *)

Lemma Qlt_bool_iff (x y : Q) : Qlt_bool x y = true <-> x < y.
Proof.
  unfold Qlt_bool. rewrite negb_true_iff.
  destruct (Qle_bool y x) eqn:E.
  - apply Qle_bool_iff in E. split; [discriminate | intros H; exfalso; lra].
  - split; [intros _ | reflexivity].
    apply Qnot_le_lt. intros H. apply Qle_bool_iff in H. congruence.
Qed.

Lemma Qlt_bool_false_iff (x y : Q) : Qlt_bool x y = false <-> ~ x < y.
Proof.
  rewrite <- Qlt_bool_iff. destruct (Qlt_bool x y); split; congruence.
Qed.

(** ** Freshness cache *)

Section CacheProperties.
Context {V W : Type}.
Implicit Types (s : State V W) (f : fetcher V W) (key : string).

Lemma entry_Some key s v ts :
  entry key s = Some (v, ts) <->
  data_cache s !! key = Some v /\ cache_timestamp s !! key = Some ts.
Proof.
  unfold entry.
  destruct (data_cache s !! key), (cache_timestamp s !! key);
    split; [intros [= -> ->]; auto | intros [[= ->] [= ->]]; auto | ..];
    try discriminate; intros [? ?]; discriminate.
Qed.

Lemma get_cached_data_invalid t key f s :
  cache_valid t key s = false ->
  get_cached_data t key f s = refresh t key f s.
Proof.
  unfold cache_valid, get_cached_data, entry.
  destruct (data_cache s !! key) as [v|]; [|reflexivity].
  destruct (cache_timestamp s !! key) as [ts|]; [|reflexivity].
  intros ->. reflexivity.
Qed.

Lemma refresh_Ok t key f s d w :
  f (world s) = (Ok d, w) ->
  refresh t key f s
  = (d, store key d t (set_world w (logger (Fetching_fresh key) s))).
Proof. unfold refresh. cbn. intros ->. reflexivity. Qed.

Lemma refresh_Raise t key f s e w :
  f (world s) = (Raise e, w) ->
  refresh t key f s
  = let s' := logger (Error_fetching key e)
                (set_world w (logger (Fetching_fresh key) s)) in
    match data_cache s !! key with
    | Some v => (v, logger (Returning_expired key) s')
    | None => (None, s')
    end.
Proof. unfold refresh. cbn. intros ->. cbn. reflexivity. Qed.

Lemma entry_store key d t s : entry key (store key d t s) = Some (d, t).
Proof. unfold entry, store. cbn. by rewrite !lookup_insert_eq. Qed.

(** A call never touches the entries of the other keys. *)
Lemma get_cached_data_other t key key' f s :
  key <> key' ->
  entry key' (snd (get_cached_data t key f s)) = entry key' s.
Proof.
  intros Hne. unfold get_cached_data, refresh, entry.
  destruct (data_cache s !! key) as [v|] eqn:Hd;
    [destruct (cache_timestamp s !! key) as [ts|] eqn:Ht;
     [destruct (Qlt_bool (t - ts) CACHE_DURATION); [reflexivity|]|]|];
    cbn; destruct (f (world s)) as [[d|e] w]; cbn;
    rewrite ?Hd; cbn; rewrite ?lookup_insert_ne by done; reflexivity.
Qed.

(** No call ever removes a key from [data_cache]. *)
Lemma get_cached_data_keeps t key key' f s :
  is_Some (data_cache s !! key') ->
  is_Some (data_cache (snd (get_cached_data t key f s)) !! key').
Proof.
  intros Hk. unfold get_cached_data, refresh.
  destruct (data_cache s !! key) as [v|] eqn:Hd;
    [destruct (cache_timestamp s !! key) as [ts|] eqn:Ht;
     [destruct (Qlt_bool (t - ts) CACHE_DURATION); [exact Hk|]|]|];
    cbn; destruct (f (world s)) as [[d|e] w]; cbn;
    rewrite ?Hd; cbn; try exact Hk;
    (destruct (decide (key = key')) as [->|Hne];
     [rewrite lookup_insert_eq; eauto | by rewrite lookup_insert_ne]).
Qed.

(** What a hit within the TTL does, for a state holding the entry. *)
Lemma get_cached_data_hit t key f s v ts :
  entry key s = Some (v, ts) ->
  t - ts < CACHE_DURATION ->
  get_cached_data t key f s = (v, logger (Returning_cached key) s).
Proof.
  intros He Hlt. apply entry_Some in He as [Hd Ht].
  unfold get_cached_data. rewrite Hd, Ht.
  apply Qlt_bool_iff in Hlt. by rewrite Hlt.
Qed.

(** What a failing refresh does, for a state holding the entry. *)
Lemma get_cached_data_stale t key f s v ts e w :
  entry key s = Some (v, ts) ->
  ~ t - ts < CACHE_DURATION ->
  f (world s) = (Raise e, w) ->
  get_cached_data t key f s
  = (v, logger (Returning_expired key)
          (logger (Error_fetching key e)
             (set_world w (logger (Fetching_fresh key) s)))).
Proof.
  intros He Hge Hf. apply entry_Some in He as [Hd Ht].
  unfold get_cached_data. rewrite Hd, Ht.
  apply Qlt_bool_false_iff in Hge. rewrite Hge.
  rewrite (refresh_Raise _ _ _ _ _ _ Hf). cbn. by rewrite Hd.
Qed.

Lemma fetch_count_app key (l1 l2 : list LogEvent) :
  fetch_count key (l1 ++ l2) = (fetch_count key l1 + fetch_count key l2)%nat.
Proof. unfold fetch_count. by rewrite List.filter_app, length_app. Qed.

(** C1. A call within the 300-second TTL of a successful fetch returns the
    stored value without invoking the fetch function (the result does not
    depend on it, the world is untouched and no fetch is logged); a call
    after expiry whose fetch function raises returns the stored value and
    leaves the stored value and timestamp of the key as they were. *)
Theorem get_cached_data_ttl_and_stale_fallback
    key (f0 f1 : fetcher V W) s (t0 t1 : Q) (v : option V) (w0 : W) :
  cache_valid t0 key s = false ->
  f0 (world s) = (Ok v, w0) ->
  let s1 := snd (get_cached_data t0 key f0 s) in
  fst (get_cached_data t0 key f0 s) = v /\
  entry key s1 = Some (v, t0) /\
  (t1 - t0 < CACHE_DURATION ->
     get_cached_data t1 key f1 s1 = (v, logger (Returning_cached key) s1) /\
     world (snd (get_cached_data t1 key f1 s1)) = world s1 /\
     fetch_count key (log (snd (get_cached_data t1 key f1 s1)))
     = fetch_count key (log s1)) /\
  (~ t1 - t0 < CACHE_DURATION ->
     forall e w1, f1 (world s1) = (Raise e, w1) ->
     fst (get_cached_data t1 key f1 s1) = v /\
     data_cache (snd (get_cached_data t1 key f1 s1)) = data_cache s1 /\
     cache_timestamp (snd (get_cached_data t1 key f1 s1))
     = cache_timestamp s1 /\
     entry key (snd (get_cached_data t1 key f1 s1)) = Some (v, t0)).
Proof.
  intros Hinv Hf0 s1. subst s1.
  rewrite (get_cached_data_invalid _ _ _ _ Hinv).
  rewrite (refresh_Ok _ _ _ _ _ _ Hf0). cbn [fst snd].
  set (s1 := store key v t0 _).
  assert (He : entry key s1 = Some (v, t0)) by apply entry_store.
  split; [reflexivity|]. split; [exact He|]. split.
  - intros Hlt. rewrite (get_cached_data_hit _ _ f1 _ _ _ He Hlt).
    split; [reflexivity|]. split; [reflexivity|].
    unfold logger; cbn [snd log]. rewrite fetch_count_app. cbn. lia.
  - intros Hge e w1 Hf1.
    rewrite (get_cached_data_stale _ _ _ _ _ _ _ _ He Hge Hf1).
    cbn [fst snd]. repeat split; try reflexivity. exact He.
Qed.

Lemma get_cached_data_no_none t key f s :
  no_none_stored s -> never_returns_none f ->
  no_none_stored (snd (get_cached_data t key f s)).
Proof.
  intros Hs Hf k. unfold get_cached_data, refresh.
  destruct (data_cache s !! key) as [v|] eqn:Hd;
    [destruct (cache_timestamp s !! key) as [ts|] eqn:Ht;
     [destruct (Qlt_bool (t - ts) CACHE_DURATION); [apply Hs|]|]|];
    cbn; destruct (f (world s)) as [[d|e] w] eqn:Hfw; cbn;
    rewrite ?Hd; cbn; try apply Hs;
    (destruct (decide (key = k)) as [->|Hne];
     [rewrite lookup_insert_eq; intros [= ->]; by eapply Hf
     | rewrite lookup_insert_ne by done; apply Hs]).
Qed.

(** C2 (amended). For a fetch function that never returns [None] and a
    cache that stores no [None]: the call returns [None] exactly when the
    fetch function raises and [data_cache] has no entry for the key; a
    raising fetch function with an entry present, expired or not, yields
    the stored value; and the invariant on the cache is kept. *)
Theorem get_cached_data_none_iff t key f s :
  no_none_stored s ->
  never_returns_none f ->
  (fst (get_cached_data t key f s) = None <->
   (exists e, fst (f (world s)) = Raise e) /\ data_cache s !! key = None) /\
  (forall e v, fst (f (world s)) = Raise e ->
     data_cache s !! key = Some v ->
     fst (get_cached_data t key f s) = v /\ v <> None) /\
  no_none_stored (snd (get_cached_data t key f s)).
Proof.
  intros Hs Hf. split; [|split].
  - unfold get_cached_data, refresh.
    destruct (data_cache s !! key) as [v|] eqn:Hd.
    + assert (Hv : v <> None) by (intros ->; by apply (Hs key)).
      split; [|intros [_ ?]; discriminate].
      destruct (cache_timestamp s !! key) as [ts|];
        [destruct (Qlt_bool (t - ts) CACHE_DURATION); [done|]|];
        cbn; destruct (f (world s)) as [[d|e] w] eqn:Hfw; cbn;
        rewrite ?Hd; cbn; try done; intros ->; by apply Hf in Hfw.
    + cbn. destruct (f (world s)) as [[d|e] w] eqn:Hfw; cbn; rewrite ?Hd.
      * split; [intros ->; by apply Hf in Hfw | intros [[e ?] _]; done].
      * split; eauto.
  - intros e v Hfw Hd.
    assert (Hv : v <> None) by (intros ->; by apply (Hs key)).
    split; [|exact Hv].
    unfold get_cached_data, refresh. rewrite Hd.
    destruct (cache_timestamp s !! key) as [ts|];
      [destruct (Qlt_bool (t - ts) CACHE_DURATION); [done|]|];
      cbn; destruct (f (world s)) as [[d|e'] w]; cbn in *;
      try discriminate; by rewrite Hd.
  - by apply get_cached_data_no_none.
Qed.
End CacheProperties.

(** *** Concrete runs of the cache *)

Definition empty_cache {V : Type} (w : nat) : State V nat :=
  mkState ∅ ∅ w [].

(** A fetch function that counts its invocations in the world. *)
Definition counting_fetch (r : result (option nat)) : fetcher nat nat :=
  fun calls => (r, S calls).

Lemma get_cached_data_ttl_and_stale_fallback_witness :
  let s := empty_cache 0%nat in
  let f0 := counting_fetch (Ok (Some 7%nat)) in
  let f1 := counting_fetch (Raise RequestError) in
  let s1 := snd (get_cached_data 0 "k" f0 s) in
  fst (get_cached_data 0 "k" f0 s) = Some 7%nat /\
  entry "k" s1 = Some (Some 7%nat, 0) /\
  (100 - 0 < CACHE_DURATION ->
     get_cached_data 100 "k" f1 s1
     = (Some 7%nat, logger (Returning_cached "k") s1) /\
     world (snd (get_cached_data 100 "k" f1 s1)) = world s1 /\
     fetch_count "k" (log (snd (get_cached_data 100 "k" f1 s1)))
     = fetch_count "k" (log s1)) /\
  (~ 100 - 0 < CACHE_DURATION ->
     forall e w1, f1 (world s1) = (Raise e, w1) ->
     fst (get_cached_data 100 "k" f1 s1) = Some 7%nat /\
     data_cache (snd (get_cached_data 100 "k" f1 s1)) = data_cache s1 /\
     cache_timestamp (snd (get_cached_data 100 "k" f1 s1))
     = cache_timestamp s1 /\
     entry "k" (snd (get_cached_data 100 "k" f1 s1)) = Some (Some 7%nat, 0)).
Proof.
  apply (get_cached_data_ttl_and_stale_fallback
           "k" (counting_fetch (Ok (Some 7%nat)))
           (counting_fetch (Raise RequestError))
           (empty_cache 0%nat) 0 100 (Some 7%nat) 1%nat);
    reflexivity.
Defined.

(** The first call fetches once; the second, 100 seconds later, does not
    fetch; the third, after expiry with a failing source, fetches again and
    serves the stale value. *)
Example cache_run :
  let ok := counting_fetch (Ok (Some 7%nat)) in
  let ko := counting_fetch (Raise RequestError) in
  let '(r0, s0) := get_cached_data 0 "k" ok (empty_cache 0%nat) in
  let '(r1, s1) := get_cached_data 100 "k" ko s0 in
  let '(r2, s2) := get_cached_data 400 "k" ko s1 in
  (r0, world s0, r1, world s1, r2, world s2, entry "k" s2)
  = (Some 7%nat, 1%nat, Some 7%nat, 1%nat, Some 7%nat, 2%nat,
     Some (Some 7%nat, 0)).
Proof. vm_compute. reflexivity. Qed.

(** C2 as stated fails when the fetch function returns [None] without
    raising: the call returns [None] although nothing failed. *)
Lemma get_cached_data_none_without_failure :
  let f : fetcher nat nat := counting_fetch (Ok None) in
  let s : State nat nat := empty_cache 0%nat in
  ~ (fst (get_cached_data 0 "k" f s) = None <->
     (exists e, fst (f (world s)) = Raise e) /\ data_cache s !! "k" = None).
Proof.
  intros f s [H _]. destruct (H eq_refl) as [[e He] _]. discriminate He.
Qed.

Lemma get_cached_data_none_iff_witness :
  let f : fetcher nat nat := counting_fetch (Raise RequestError) in
  let s : State nat nat := empty_cache 0%nat in
  (fst (get_cached_data 0 "k" f s) = None <->
   (exists e, fst (f (world s)) = Raise e) /\ data_cache s !! "k" = None) /\
  (forall e v, fst (f (world s)) = Raise e ->
     data_cache s !! "k" = Some v ->
     fst (get_cached_data 0 "k" f s) = v /\ v <> None) /\
  no_none_stored (snd (get_cached_data 0 "k" f s)).
Proof.
  apply (get_cached_data_none_iff 0 "k"
           (counting_fetch (Raise RequestError)) (empty_cache 0%nat)).
  - intros k. cbn. rewrite lookup_empty. discriminate.
  - intros w d w'. unfold counting_fetch. intros [=].
Defined.

(** ** The error monad *)

Lemma rbind_Ok {A B : Type} (m : result A) (k : A -> result B) (b : B) :
  rbind m k = Ok b <-> exists a, m = Ok a /\ k a = Ok b.
Proof.
  destruct m as [a|e]; cbn.
  - split; [eauto | intros (a' & [= <-] & H); exact H].
  - split; [discriminate | intros (a' & [=] & _)].
Qed.

(** Peels the binds of a computation known to have returned. *)
Ltac invert_binds H :=
  repeat match type of H with
  | rbind _ _ = Ok _ =>
      let a := fresh "a" in
      let Ha := fresh "Ha" in
      apply rbind_Ok in H as (a & Ha & H)
  end.

(** ** pandas helpers *)

Lemma tail_length {A : Type} (n : nat) (l : list A) :
  length (tail n l) = Nat.min n (length l).
Proof. unfold tail. rewrite length_skipn. lia. Qed.

Lemma tail_nonempty {A : Type} (n : nat) (l : list A) :
  (0 < n)%nat -> l <> [] -> tail n l <> [].
Proof.
  intros Hn Hl Habs. apply (f_equal length) in Habs.
  rewrite tail_length in Habs. destruct l; [congruence | cbn in Habs; lia].
Qed.

Lemma column_Ok {A : Type} (proj : Candle -> A) (df : DataFrame) :
  df <> [] -> column proj df = Ok (map proj df).
Proof. destruct df; [congruence | reflexivity]. Qed.

Lemma column_Ok_inv {A : Type} (proj : Candle -> A) df (l : list A) :
  column proj df = Ok l -> df <> [] /\ l = map proj df.
Proof. destruct df; [discriminate | intros [= <-]; split; [discriminate | reflexivity]]. Qed.

Lemma last_is_Some {A : Type} (l : list A) : l <> [] -> is_Some (last l).
Proof.
  induction l as [|x [|y r] IH]; [congruence | cbn; eauto |].
  intros _. apply IH. discriminate.
Qed.

Lemma iloc_last_Ok {A : Type} (l : list A) :
  l <> [] -> exists x, iloc_last l = Ok x /\ last l = Some x.
Proof.
  intros Hl. unfold iloc_last. destruct (last_is_Some l Hl) as [x ->]. eauto.
Qed.

(** ** Technical analysis engine *)

(** The eighty-one cases of a three-signal vote against a candidate. *)
Lemma vote_strict_majority (a b c x : Signal) :
  (forall y, y <> x ->
     (count_signal y [a; b; c] < count_signal x [a; b; c])%Z) ->
  snd (vote [a; b; c]) = x.
Proof.
  intros H.
  pose proof (H BUY) as HB. pose proof (H SELL) as HS.
  pose proof (H HOLD) as HH. clear H.
  destruct a, b, c, x; try reflexivity; exfalso; vm_compute in HB, HS, HH;
    first [ by specialize (HB ltac:(discriminate))
          | by specialize (HS ltac:(discriminate))
          | by specialize (HH ltac:(discriminate)) ].
Qed.

Lemma vote_three_way_split (a b c : Signal) :
  count_signal BUY [a; b; c] = 1%Z ->
  count_signal SELL [a; b; c] = 1%Z ->
  count_signal HOLD [a; b; c] = 1%Z ->
  snd (vote [a; b; c]) = HOLD.
Proof. destruct a, b, c; vm_compute; congruence. Qed.

Section EngineProperties.
Context {ta : TaLibrary}.

Lemma last_or_close_Ok (s : Series) (close : list Q) :
  close <> [] -> exists x, last_or_close s close = Ok x.
Proof.
  intros Hc. unfold last_or_close. destruct (last_valid s); [eauto|].
  destruct (iloc_last_Ok close Hc) as (x & -> & _). eauto.
Qed.

(** The per-window function returns on every non-empty window. *)
Lemma compute_for_window_total (df_window : DataFrame) :
  df_window <> [] -> exists r, compute_for_window df_window = Ok r.
Proof.
  intros Hdf. unfold compute_for_window.
  rewrite (column_Ok _ _ Hdf). cbn [rbind].
  assert (Hc : map c_close df_window <> [])
    by (destruct df_window; [congruence | discriminate]).
  repeat match goal with
  | |- context [last_or_close ?s ?c] =>
      let x := fresh "x" in
      destruct (last_or_close_Ok s c Hc) as [x ->]; cbn [rbind]
  end.
  cbn [rbind]. unfold vote.
  destruct (iloc_last_Ok _ Hc) as (x5 & -> & _). cbn [rbind]. eauto.
Qed.

Lemma compute_for_window_vote (df_window : DataFrame) r :
  compute_for_window df_window = Ok r ->
  (summary (signals r), overall_signal (signals r))
  = vote [details_rsi (details (signals r));
          details_macd (details (signals r));
          details_moving_averages (details (signals r))].
Proof.
  unfold compute_for_window. intros H. invert_binds H.
  unfold vote in H. invert_binds H. injection H as <-. reflexivity.
Qed.

Lemma compute_technical_analysis_inv (df : DataFrame) r :
  compute_technical_analysis df = Ok r ->
  compute_for_window (tail 90 df) = Ok (tf_1d r) /\
  compute_for_window (tail 30 df) = Ok (tf_1w r) /\
  compute_for_window (tail 90 df) = Ok (tf_1m r) /\
  technical_overall_signal r
  = snd (vote [overall_signal (signals (tf_1d r));
               overall_signal (signals (tf_1w r));
               overall_signal (signals (tf_1m r))]).
Proof.
  unfold compute_technical_analysis. intros H. invert_binds H.
  unfold vote in H. injection H as <-. cbn. auto.
Qed.

Lemma compute_technical_analysis_total (df : DataFrame) :
  df <> [] -> exists r, compute_technical_analysis df = Ok r.
Proof.
  intros Hdf. unfold compute_technical_analysis.
  destruct (compute_for_window_total (tail 90 df)) as [d ->];
    [apply tail_nonempty; [lia | exact Hdf]|].
  destruct (compute_for_window_total (tail 30 df)) as [w ->];
    [apply tail_nonempty; [lia | exact Hdf]|].
  cbn [rbind]. unfold vote. eauto.
Qed.

(** C3. In a vote over three signals, a signal that occurs strictly more
    often than each of the other two is the overall signal, and a split of
    one vote each gives HOLD; the per-timeframe overall signal is that vote
    over the RSI, MACD and moving-average signals, and the report-level
    overall signal is that vote over the three timeframes' overall
    signals. *)
Theorem majority_vote_aggregation :
  (forall a b c x : Signal,
     (forall y, y <> x ->
        (count_signal y [a; b; c] < count_signal x [a; b; c])%Z) ->
     snd (vote [a; b; c]) = x) /\
  (forall a b c : Signal,
     count_signal BUY [a; b; c] = 1%Z ->
     count_signal SELL [a; b; c] = 1%Z ->
     count_signal HOLD [a; b; c] = 1%Z ->
     snd (vote [a; b; c]) = HOLD) /\
  (forall df_window r,
     compute_for_window df_window = Ok r ->
     overall_signal (signals r)
     = snd (vote [details_rsi (details (signals r));
                  details_macd (details (signals r));
                  details_moving_averages (details (signals r))])) /\
  (forall df r,
     compute_technical_analysis df = Ok r ->
     technical_overall_signal r
     = snd (vote [overall_signal (signals (tf_1d r));
                  overall_signal (signals (tf_1w r));
                  overall_signal (signals (tf_1m r))])).
Proof.
  split; [exact vote_strict_majority|].
  split; [exact vote_three_way_split|].
  split.
  - intros df_window r H. apply compute_for_window_vote in H.
    by rewrite <- H.
  - intros df r H.
    apply compute_technical_analysis_inv in H as (_ & _ & _ & H). exact H.
Qed.

(** C7. Whenever the engine returns, its "1d" and "1m" analyses are the
    same record: oscillators, moving averages, signals and series; and it
    returns on every non-empty candle window. *)
Theorem tf_1d_equals_tf_1m (df : DataFrame) :
  (forall r, compute_technical_analysis df = Ok r ->
     tf_1d r = tf_1m r /\
     oscillators (tf_1d r) = oscillators (tf_1m r) /\
     moving_averages (tf_1d r) = moving_averages (tf_1m r) /\
     signals (tf_1d r) = signals (tf_1m r) /\
     series (tf_1d r) = series (tf_1m r)) /\
  (df <> [] -> exists r, compute_technical_analysis df = Ok r).
Proof.
  split; [|apply compute_technical_analysis_total].
  intros r H. apply compute_technical_analysis_inv in H as (Hd & _ & Hm & _).
  assert (E : tf_1d r = tf_1m r) by congruence.
  rewrite E. auto.
Qed.
End EngineProperties.

(** ** Relative strength index *)

Lemma gain_nonneg (d : Q) : 0 <= gain d.
Proof.
  unfold gain. destruct (Qlt_bool 0 d) eqn:E; [|lra].
  apply Qlt_bool_iff in E. lra.
Qed.

Lemma loss_nonneg (d : Q) : 0 <= loss d.
Proof.
  unfold loss. destruct (Qlt_bool d 0) eqn:E; [|lra].
  apply Qlt_bool_iff in E. lra.
Qed.

Lemma loss_of_gain (d : Q) : 0 < d -> loss d = 0.
Proof.
  intros Hd. unfold loss. destruct (Qlt_bool d 0) eqn:E; [|reflexivity].
  apply Qlt_bool_iff in E. lra.
Qed.

Lemma inject_nat_pos (w : nat) : (1 <= w)%nat -> 1 <= inject_Z (Z.of_nat w).
Proof.
  intros Hw. change 1 with (inject_Z 1). rewrite <- Zle_Qle. lia.
Qed.

Lemma wilder_step_nonneg (w : nat) (avg x : Q) :
  (1 <= w)%nat -> 0 <= avg -> 0 <= x -> 0 <= wilder_step w avg x.
Proof.
  intros Hw Ha Hx. unfold wilder_step.
  pose proof (inject_nat_pos w Hw) as Hn.
  apply Qle_shift_div_l; [lra|]. nra.
Qed.

Lemma wilder_step_zero (w : nat) (avg x : Q) :
  (1 <= w)%nat -> avg == 0 -> x == 0 -> wilder_step w avg x == 0.
Proof.
  intros Hw Ha Hx. unfold wilder_step.
  pose proof (inject_nat_pos w Hw) as Hn.
  rewrite Ha, Hx. field. lra.
Qed.

Lemma wilder_smooth_nonneg (w : nat) (xs : list Q) : forall avg,
  (1 <= w)%nat -> 0 <= avg -> Forall (fun x => 0 <= x) xs ->
  Forall (fun a => 0 <= a) (wilder_smooth w avg xs).
Proof.
  induction xs as [|x r IH]; intros avg Hw Ha Hxs; cbn; [constructor|].
  inversion Hxs as [|? ? Hx Hr]; subst.
  pose proof (wilder_step_nonneg w avg x Hw Ha Hx) as Hs.
  constructor; [exact Hs | by apply IH].
Qed.

Lemma wilder_smooth_zero (w : nat) (xs : list Q) : forall avg,
  (1 <= w)%nat -> avg == 0 -> Forall (fun x => x == 0) xs ->
  Forall (fun a => a == 0) (wilder_smooth w avg xs).
Proof.
  induction xs as [|x r IH]; intros avg Hw Ha Hxs; cbn; [constructor|].
  inversion Hxs as [|? ? Hx Hr]; subst.
  pose proof (wilder_step_zero w avg x Hw Ha Hx) as Hs.
  constructor; [exact Hs | by apply IH].
Qed.

Lemma wilder_average_nonneg (w : nat) (pick : Q -> Q) (close : list Q) :
  (1 <= w)%nat -> (forall d, 0 <= pick d) ->
  Forall (fun a => 0 <= a) (wilder_average w pick close).
Proof.
  intros Hw Hp. unfold wilder_average. destruct close as [|c r]; constructor.
  - lra.
  - apply wilder_smooth_nonneg; [exact Hw | lra |].
    apply List.Forall_forall. intros x Hx. apply List.in_map_iff in Hx as (d & <- & _).
    apply Hp.
Qed.

Lemma wilder_average_length (w : nat) (pick : Q -> Q) (close : list Q) :
  length (wilder_average w pick close) = length close.
Proof.
  unfold wilder_average, changes. destruct close as [|c r]; [reflexivity|].
  cbn. f_equal.
  assert (Hs : forall xs avg, length (wilder_smooth w avg xs) = length xs)
    by (induction xs; intros; cbn; auto).
  rewrite Hs, length_map. clear Hs. revert c.
  induction r as [|x r IH]; intros c; cbn; auto.
Qed.

(** The RSI of any pair of non-negative averages lies in [0, 100]. *)
Lemma rsi_value_bounds (g l : Q) :
  0 <= g -> 0 <= l -> 0 <= rsi_value g l <= 100.
Proof.
  intros Hg Hl. unfold rsi_value.
  destruct (Qeq_bool l 0) eqn:E; [lra|].
  apply Qeq_bool_neq in E.
  assert (Hlpos : 0 < l) by (destruct (Qlt_le_dec 0 l); [assumption|]; exfalso; apply E; lra).
  assert (Hrs : 0 <= g / l) by (apply Qle_shift_div_l; [exact Hlpos | lra]).
  set (rs := g / l) in *.
  assert (H0 : 0 <= 100 / (1 + rs)) by (apply Qle_shift_div_l; lra).
  assert (H1 : 100 / (1 + rs) <= 100) by (apply Qle_shift_div_r; lra).
  set (q := 100 / (1 + rs)) in *. lra.
Qed.

Lemma rsi_value_no_loss (g l : Q) : l == 0 -> rsi_value g l = 100.
Proof.
  intros Hl. unfold rsi_value. apply Qeq_bool_iff in Hl. by rewrite Hl.
Qed.

Lemma In_mask (k : nat) (l : list Q) (r : Q) :
  In (Some r) (mask k l) -> In r l.
Proof.
  revert k. induction l as [|x t IH]; intros k; cbn; [tauto|].
  destruct k; cbn.
  - intros [[= ->]|H]; [auto | right; exact (IH _ H)].
  - intros [[=]|H]. right. exact (IH _ H).
Qed.

Lemma In_zip_with {A B C : Type} (f : A -> B -> C) (l1 : list A) (l2 : list B) c :
  In c (zip_with f l1 l2) -> exists a b, In a l1 /\ In b l2 /\ c = f a b.
Proof.
  revert l2. induction l1 as [|a r1 IH]; intros [|b r2]; cbn; try tauto.
  intros [<-|H].
  - exists a, b. auto.
  - destruct (IH _ H) as (a' & b' & ? & ? & ?). exists a', b'. auto.
Qed.

Lemma zip_with_length {A B C : Type} (f : A -> B -> C) (l1 : list A) (l2 : list B) :
  length l1 = length l2 -> length (zip_with f l1 l2) = length l1.
Proof.
  revert l2. induction l1 as [|a r1 IH]; intros [|b r2]; cbn; try congruence.
  intros [= H]. f_equal. auto.
Qed.

Lemma last_cons_cons {A : Type} (x y : A) (l : list A) :
  last (x :: y :: l) = last (y :: l).
Proof. reflexivity. Qed.

(** With [k < length l] the last entry of [mask k l] is defined. *)
Lemma last_valid_mask (k : nat) (l : list Q) :
  (k < length l)%nat -> exists r, last_valid (mask k l) = Some r /\ In r l.
Proof.
  revert k. induction l as [|x t IH]; intros k Hk; cbn in Hk; [lia|].
  destruct t as [|y t'].
  - destruct k; [|cbn in Hk; lia]. exists x. cbn. auto.
  - destruct k as [|k'].
    + destruct (IH 0%nat) as (r & Hr & Hin); [cbn; lia|].
      exists r. split; [|right; exact Hin].
      unfold last_valid in *. cbn [mask] in *. by rewrite last_cons_cons.
    + destruct (IH k') as (r & Hr & Hin); [cbn in *; lia|].
      exists r. split; [|right; exact Hin].
      unfold last_valid in *. cbn [mask] in *.
      destruct k'; by rewrite last_cons_cons.
Qed.

Lemma spec_rsi_In (w : nat) (close : list Q) (r : Q) :
  In r (zip_with rsi_value (wilder_average w gain close)
                           (wilder_average w loss close)) ->
  (1 <= w)%nat -> 0 <= r <= 100.
Proof.
  intros Hin Hw. apply In_zip_with in Hin as (g & l & Hg & Hl & ->).
  pose proof (wilder_average_nonneg w gain close Hw gain_nonneg) as HG.
  pose proof (wilder_average_nonneg w loss close Hw loss_nonneg) as HL.
  rewrite List.Forall_forall in HG, HL. apply rsi_value_bounds; auto.
Qed.

Lemma wilder_average_loss_zero (w : nat) (close : list Q) :
  (1 <= w)%nat -> Forall (fun d => 0 < d) (changes close) ->
  Forall (fun a => a == 0) (wilder_average w loss close).
Proof.
  intros Hw Hg. unfold wilder_average. destruct close as [|c r]; constructor.
  - reflexivity.
  - apply wilder_smooth_zero; [exact Hw | reflexivity |].
    apply List.Forall_forall. intros x Hx. apply List.in_map_iff in Hx as (d & <- & Hd).
    rewrite List.Forall_forall in Hg. rewrite (loss_of_gain d); [reflexivity | auto].
Qed.

Lemma Qsum_nonneg (l : list Q) : Forall (fun x => 0 <= x) l -> 0 <= Qsum l.
Proof.
  induction 1 as [|x r Hx _ IH]; cbn; [lra|].
  change (fold_right Qplus 0 r) with (Qsum r). lra.
Qed.

Lemma Qsum_zero (l : list Q) : Forall (fun x => x == 0) l -> Qsum l == 0.
Proof.
  induction 1 as [|x r Hx _ IH]; cbn; [reflexivity|].
  change (fold_right Qplus 0 r) with (Qsum r). lra.
Qed.

Lemma fold_wilder_nonneg (w : nat) (xs : list Q) : forall avg,
  (1 <= w)%nat -> 0 <= avg -> Forall (fun x => 0 <= x) xs ->
  0 <= fold_left (wilder_step w) xs avg.
Proof.
  induction xs as [|x r IH]; intros avg Hw Ha Hxs; cbn; [exact Ha|].
  inversion Hxs as [|? ? Hx Hr]; subst.
  apply IH; [exact Hw | by apply wilder_step_nonneg | exact Hr].
Qed.

Lemma fold_wilder_zero (w : nat) (xs : list Q) : forall avg,
  (1 <= w)%nat -> avg == 0 -> Forall (fun x => x == 0) xs ->
  fold_left (wilder_step w) xs avg == 0.
Proof.
  induction xs as [|x r IH]; intros avg Hw Ha Hxs; cbn; [exact Ha|].
  inversion Hxs as [|? ? Hx Hr]; subst.
  apply IH; [exact Hw | by apply wilder_step_zero | exact Hr].
Qed.

Lemma In_firstn_skipn {A : Type} (n : nat) (l : list A) (x : A) :
  In x (firstn n l) \/ In x (skipn n l) -> In x l.
Proof.
  intros H. rewrite <- (firstn_skipn n l). apply in_or_app. exact H.
Qed.

Lemma Forall_map_pick (pick : Q -> Q) (P : Q -> Prop) (l : list Q) :
  (forall d, In d l -> P (pick d)) -> Forall P (map pick l).
Proof.
  intros H. apply List.Forall_forall. intros x Hx.
  apply List.in_map_iff in Hx as (d & <- & Hd). auto.
Qed.

(** The range and the all-gains value do not depend on how the recurrence
    is started: they also hold for the mean-seeded variant. *)
Lemma seeded_rsi_range_and_all_gains (w : nat) (close : list Q) (r : Q) :
  (1 <= w)%nat ->
  seeded_rsi w close = Some r ->
  0 <= r <= 100 /\
  (Forall (fun d => 0 < d) (changes close) -> r = 100).
Proof.
  intros Hw. unfold seeded_rsi.
  destruct (length (changes close) <? w)%nat; [discriminate|].
  intros [= <-].
  pose proof (inject_nat_pos w Hw) as Hn.
  split.
  - apply rsi_value_bounds; apply fold_wilder_nonneg; try exact Hw;
      try (apply Forall_map_pick; intros; first [apply gain_nonneg | apply loss_nonneg]);
      (apply Qle_shift_div_l; [lra|]; rewrite Qmult_0_l; apply Qsum_nonneg;
       apply Forall_map_pick; intros;
       first [apply gain_nonneg | apply loss_nonneg]).
  - intros Hg. apply rsi_value_no_loss.
    rewrite List.Forall_forall in Hg.
    apply fold_wilder_zero; [exact Hw | |].
    + rewrite Qsum_zero; [field; lra|].
      apply Forall_map_pick. intros d Hd.
      rewrite loss_of_gain; [reflexivity|].
      apply Hg. apply (In_firstn_skipn w). left. exact Hd.
    + apply Forall_map_pick. intros d Hd.
      rewrite loss_of_gain; [reflexivity|].
      apply Hg. apply (In_firstn_skipn w). right. exact Hd.
Qed.

(** C8 (amended). RSI(14) of the specification: every defined entry of the
    series lies in [0, 100]; with at least 14 rows of history the current
    reading is defined and in range; it is exactly 100 when every price
    change of the whole close sequence the indicator is run over is a gain;
    and the RSI reading that the engine reports on this indicator lies in
    [0, 100]. *)
Theorem spec_rsi_range_and_all_gains (close : list Q) :
  (forall r, In (Some r) (spec_rsi 14 close) -> 0 <= r <= 100) /\
  ((14 <= length close)%nat ->
     exists r, last_valid (spec_rsi 14 close) = Some r /\ 0 <= r <= 100) /\
  ((14 <= length close)%nat ->
     Forall (fun d => 0 < d) (changes close) ->
     last_valid (spec_rsi 14 close) = Some 100) /\
  (forall sqrtf df_window r,
     @compute_for_window (spec_ta sqrtf) df_window = Ok r ->
     0 <= value (rsi (oscillators r)) <= 100).
Proof.
  assert (Hrange : forall cl r, In (Some r) (spec_rsi 14 cl) -> 0 <= r <= 100).
  { intros cl r Hin. unfold spec_rsi in Hin. apply In_mask in Hin.
    apply (spec_rsi_In 14 cl r Hin). lia. }
  assert (Hlen : forall cl, length (zip_with rsi_value (wilder_average 14 gain cl)
                           (wilder_average 14 loss cl)) = length cl).
  { intros cl. rewrite zip_with_length; rewrite !wilder_average_length; reflexivity. }
  split; [apply Hrange|]. split; [|split].
  - intros Hn. unfold spec_rsi.
    destruct (last_valid_mask (14 - 1)
                (zip_with rsi_value (wilder_average 14 gain close)
                                    (wilder_average 14 loss close)))
      as (r & Hr & Hin); [rewrite Hlen; lia|].
    exists r. split; [exact Hr|]. apply (spec_rsi_In 14 close r Hin). lia.
  - intros Hn Hg. unfold spec_rsi.
    destruct (last_valid_mask (14 - 1)
                (zip_with rsi_value (wilder_average 14 gain close)
                                    (wilder_average 14 loss close)))
      as (r & Hr & Hin); [rewrite Hlen; lia|].
    rewrite Hr. f_equal.
    apply In_zip_with in Hin as (g & l & _ & Hl & ->).
    apply rsi_value_no_loss.
    pose proof (wilder_average_loss_zero 14 close ltac:(lia) Hg) as HL.
    rewrite List.Forall_forall in HL. auto.
  - intros sqrtf df_window r H. unfold compute_for_window in H.
    invert_binds H. unfold vote in H. invert_binds H. injection H as <-.
    cbn [oscillators rsi value RSIIndicator_rsi spec_ta].
    destruct (last_valid (spec_rsi 14 a)) as [x|] eqn:E; cbn [default]; [|lra].
    apply (Hrange a). unfold last_valid in E.
    destruct (last (spec_rsi 14 a)) as [[y|]|] eqn:El; try discriminate.
    injection E as ->.
    apply list_elem_of_In. eapply last_Some_elem_of. exact El.
Qed.

(** ** Guarded divisions *)

Lemma checked_div_Ok (a b : Q) : ~ b == 0 -> checked_div a b = Ok (a / b).
Proof.
  intros Hb. unfold checked_div.
  destruct (Qeq_bool b 0) eqn:E; [|reflexivity].
  apply Qeq_bool_iff in E. contradiction.
Qed.

Lemma Qmax_ge_r (x y : Q) : y <= Qmax x y.
Proof.
  unfold Qmax. destruct (Qle_bool x y) eqn:E; [lra|].
  destruct (Qlt_le_dec y x) as [H|H]; [lra|].
  apply Qle_bool_iff in H. congruence.
Qed.

Lemma inject_length_nonzero {A : Type} (l : list A) :
  l <> [] -> ~ inject_Z (Z.of_nat (length l)) == 0.
Proof.
  intros Hl H. destruct l as [|a r]; [congruence|].
  unfold Qeq in H. cbn in H. lia.
Qed.

Lemma mean_Ok (l : list Q) : l <> [] -> exists m, mean l = Ok m.
Proof.
  intros Hl. unfold mean. rewrite checked_div_Ok; [eauto|].
  by apply inject_length_nonzero.
Qed.

Lemma mapM_Ok {A B : Type} (f : A -> result B) (l : list A) :
  (forall a, In a l -> exists b, f a = Ok b) ->
  exists bs, mapM f l = Ok bs /\ length bs = length l.
Proof.
  induction l as [|a r IH]; intros Hf; cbn; [eauto|].
  destruct (Hf a) as [b ->]; [by left|]. cbn.
  destruct IH as (bs & -> & Hlen); [intros; apply Hf; by right|].
  cbn. exists (b :: bs). cbn. auto.
Qed.

(** ** Forecast engine *)

Lemma arange_length (a b : Z) : length (arange a b) = Z.to_nat (b - a).
Proof. unfold arange. by rewrite length_map, length_seq. Qed.

Lemma date_range_Ok (start periods : Z) :
  (0 <= periods)%Z -> exists ds, date_range start periods = Ok ds.
Proof.
  intros Hp. unfold date_range.
  destruct (periods <? 0)%Z eqn:E; [lia | eauto].
Qed.

Lemma date_range_Ok_inv (start periods : Z) ds :
  date_range start periods = Ok ds ->
  (0 <= periods)%Z /\ length ds = Z.to_nat periods.
Proof.
  unfold date_range. destruct (periods <? 0)%Z eqn:E; [discriminate|].
  intros [= <-]. rewrite length_map, length_seq. lia.
Qed.

Lemma list_repeat_length {A : Type} (x : A) (days : Z) :
  length (list_repeat x days) = Z.to_nat days.
Proof. unfold list_repeat. apply repeat_length. Qed.

Section ForecastProperties.
Context {np : NumpyLibrary}.

(** The forecast returns on every non-empty frame and non-negative
    horizon: no division of the fit raises. *)
Lemma compute_lstm_like_prediction_total (df : DataFrame) (days : Z) :
  df <> [] -> (0 <= days)%Z ->
  exists r, compute_lstm_like_prediction df days = Ok r.
Proof.
  intros Hdf Hdays. unfold compute_lstm_like_prediction.
  rewrite !(column_Ok _ _ Hdf). cbn [rbind].
  assert (Hc : map c_close df <> [])
    by (destruct df; [congruence | discriminate]).
  assert (Hd : map c_date df <> [])
    by (destruct df; [congruence | discriminate]).
  destruct (iloc_last_Ok _ Hc) as (cl & Hcl & _).
  destruct (iloc_last_Ok _ Hd) as (dl & Hdl & _).
  destruct (date_range_Ok (dl + 1) days Hdays) as [ds Hds].
  set (y := tail 60 (map c_close df)).
  assert (Hy : y <> []) by (apply tail_nonempty; [lia | exact Hc]).
  destruct (Z.of_nat (length y) <? 10)%Z eqn:En.
  - rewrite Hcl. cbn [rbind]. rewrite Hdl. cbn [rbind].
    rewrite Hds. cbn [rbind]. eauto.
  - set (x := arange 0 (Z.of_nat (length y))).
    set (coeffs := np_polyfit x y 1).
    set (residual := zip_with Qminus y (map (polyval coeffs) x)).
    assert (Hres : residual <> []).
    { intros Habs. apply (f_equal length) in Habs.
      unfold residual in Habs. rewrite zip_with_length in Habs.
      - destruct y; [congruence | discriminate].
      - unfold x. rewrite length_map, arange_length. lia. }
    destruct (mean_Ok (map (fun r => r * r) residual)) as [mse ->];
      [destruct residual; [congruence | discriminate]|].
    cbn [rbind].
    destruct (mapM_Ok
                (fun p => checked_div (fst p) (Qmax (snd p) (1 # 1000000000)))
                (combine residual y)) as (ratios & -> & Hlen).
    { intros p _. rewrite checked_div_Ok; [eauto|].
      pose proof (Qmax_ge_r (snd p) (1 # 1000000000)). lra. }
    cbn [rbind].
    destruct (mean_Ok (map Qabs ratios)) as [mm ->].
    { intros Habs. apply (f_equal length) in Habs.
      rewrite length_map, Hlen, length_combine in Habs. cbn in Habs.
      destruct residual; [congruence|]. destruct y; [congruence|].
      cbn in Habs. lia. }
    cbn [rbind].
    destruct (mean_Ok y Hy) as [ym ->]. cbn [rbind].
    set (ss_tot := Qsum _).
    destruct (Qlt_bool 0 ss_tot) eqn:Ess.
    + apply Qlt_bool_iff in Ess.
      rewrite checked_div_Ok by lra. cbn [rbind].
      rewrite Hdl. cbn [rbind]. rewrite Hds. cbn [rbind].
      rewrite Hcl. cbn [rbind]. eauto.
    + cbn [rbind]. rewrite Hdl. cbn [rbind]. rewrite Hds. cbn [rbind].
      rewrite Hcl. cbn [rbind]. eauto.
Qed.

Lemma compute_lstm_like_prediction_length (df : DataFrame) (days : Z) r :
  compute_lstm_like_prediction df days = Ok r ->
  (0 <= days)%Z /\
  length (predictions (future_predictions r)) = Z.to_nat days /\
  length (dates (future_predictions r)) = Z.to_nat days.
Proof.
  unfold compute_lstm_like_prediction. intros H.
  apply rbind_Ok in H as (close & Hclose & H).
  apply rbind_Ok in H as (fit & Hfit & H).
  apply rbind_Ok in H as (date & Hdate & H).
  apply rbind_Ok in H as (last_date & Hlast & H).
  apply rbind_Ok in H as (future_dates & Hfd & H).
  apply rbind_Ok in H as (close_last & Hcl & H).
  injection H as <-. cbn.
  apply date_range_Ok_inv in Hfd as [Hdays Hlen].
  split; [exact Hdays|]. split; [|exact Hlen].
  destruct (Z.of_nat (length (tail 60 close)) <? 10)%Z.
  - apply rbind_Ok in Hfit as (lc & _ & [= <-]). cbn.
    apply list_repeat_length.
  - invert_binds Hfit. injection Hfit as <-. cbn.
    rewrite length_map, arange_length. f_equal. lia.
Qed.

Lemma compute_lstm_like_prediction_short (df : DataFrame) (days : Z) r :
  compute_lstm_like_prediction df days = Ok r ->
  (length (tail 60 (map c_close df)) < 10)%nat ->
  exists last_close,
    last (map c_close df) = Some last_close /\
    predictions (future_predictions r) = repeat last_close (Z.to_nat days) /\
    RMSE (model_performance r) = 0 /\
    MAPE (model_performance r) = 0 /\
    R2 (model_performance r) = 0.
Proof.
  unfold compute_lstm_like_prediction. intros H Hshort.
  apply rbind_Ok in H as (close & Hclose & H).
  apply column_Ok_inv in Hclose as [_ ->].
  apply rbind_Ok in H as (fit & Hfit & H).
  destruct (Z.of_nat (length (tail 60 (map c_close df))) <? 10)%Z eqn:E;
    [|lia].
  apply rbind_Ok in Hfit as (lc & Hlc & [= <-]).
  invert_binds H. injection H as <-. cbn.
  exists lc. split; [|auto].
  unfold iloc_last in Hlc. destruct (last (map c_close df)); congruence.
Qed.

(** C4. Whenever the forecast returns: with fewer than 10 points in the
    trailing window of at most 60 closes the predictions are the last close
    repeated [days] times and RMSE, MAPE and R2 are 0; and in every case the
    predictions list has exactly [days] entries. It returns for every
    non-empty frame and every horizon [days >= 0]. *)
Theorem forecast_short_window_and_length (df : DataFrame) (days : Z) :
  (forall r, compute_lstm_like_prediction df days = Ok r ->
     Z.of_nat (length (predictions (future_predictions r))) = days /\
     ((length (tail 60 (map c_close df)) < 10)%nat ->
        exists last_close,
          last (map c_close df) = Some last_close /\
          predictions (future_predictions r)
          = repeat last_close (Z.to_nat days) /\
          RMSE (model_performance r) = 0 /\
          MAPE (model_performance r) = 0 /\
          R2 (model_performance r) = 0)) /\
  (df <> [] -> (0 <= days)%Z ->
     exists r, compute_lstm_like_prediction df days = Ok r).
Proof.
  split.
  - intros r H. split.
    + apply compute_lstm_like_prediction_length in H as (Hd & Hl & _).
      rewrite Hl. lia.
    + by apply compute_lstm_like_prediction_short.
  - apply compute_lstm_like_prediction_total.
Qed.
End ForecastProperties.


(** ** Double-precision arithmetic *)

(** *** Rounding to an integer *)

Lemma round_half_even_floor (q : Q) :
  round_half_even q = Qfloor q \/
  (round_half_even q = (Qfloor q + 1)%Z /\ inject_Z (Qfloor q) < q).
Proof.
  unfold round_half_even.
  destruct (Qlt_bool (q - inject_Z (Qfloor q)) (1 # 2)) eqn:E1; [by left|].
  destruct (Qlt_bool (1 # 2) (q - inject_Z (Qfloor q))) eqn:E2.
  - right. split; [reflexivity|]. apply Qlt_bool_iff in E2. lra.
  - destruct (Z.even (Qfloor q)); [by left|].
    right. split; [reflexivity|].
    assert (H : ~ q - inject_Z (Qfloor q) < 1 # 2).
    { intros H. apply Qlt_bool_iff in H. congruence. }
    lra.
Qed.

Lemma round_half_even_ge (q : Q) (a : Z) :
  inject_Z a <= q -> (a <= round_half_even q)%Z.
Proof.
  intros H.
  assert (Hf : (a <= Qfloor q)%Z).
  { rewrite <- (Qfloor_Z a). by apply Qfloor_resp_le. }
  destruct (round_half_even_floor q) as [-> | [-> _]]; lia.
Qed.

Lemma round_half_even_le (q : Q) (b : Z) :
  q <= inject_Z b -> (round_half_even q <= b)%Z.
Proof.
  intros H.
  pose proof (Qfloor_le q) as Hf.
  destruct (round_half_even_floor q) as [-> | [-> Hlt]].
  - rewrite Zle_Qle. lra.
  - assert (Hz : (Qfloor q < b)%Z) by (rewrite Zlt_Qlt; lra). lia.
Qed.

(** *** Powers of two *)

Lemma Qpow2_pos (k : Z) : 0 < 2 ^ k.
Proof. by apply Qpower_0_lt. Qed.

Lemma Qpow2_succ (k : Z) : 2 ^ (k + 1) == 2 * 2 ^ k.
Proof. rewrite Qpower_plus by discriminate. rewrite Qpower_1_r. ring. Qed.

Lemma Qpow2_log2 (n : Z) :
  (0 < n)%Z -> 2 ^ Z.log2 n <= inject_Z n /\ inject_Z n < 2 * 2 ^ Z.log2 n.
Proof.
  intros Hn. destruct (Z.log2_spec n Hn) as [H1 H2].
  pose proof (Z.log2_nonneg n) as H0.
  rewrite <- Qpow2_succ.
  change 2 with (inject_Z 2).
  rewrite <- !Zpower_Qpower by lia.
  rewrite <- Zle_Qle, <- Zlt_Qlt. replace (Z.log2 n + 1)%Z with (Z.succ (Z.log2 n)) by lia.
  auto.
Qed.

Lemma Qabs_num_den (q : Q) :
  Qabs q == inject_Z (Z.abs (Qnum q)) / inject_Z (Z.pos (Qden q)).
Proof.
  destruct q as [n d]. unfold Qabs. cbn [Qnum Qden].
  rewrite (Qmake_Qdiv (Z.abs n) d). reflexivity.
Qed.

(** [Qlog2_floor q] is the binade of [q]. *)
Lemma Qlog2_floor_spec (q : Q) :
  ~ q == 0 ->
  2 ^ Qlog2_floor q <= Qabs q /\ Qabs q < 2 ^ (Qlog2_floor q + 1).
Proof.
  intros Hq.
  assert (Hn : (0 < Z.abs (Qnum q))%Z).
  { destruct q as [n d]. unfold Qeq in Hq. cbn in *. lia. }
  destruct (Qpow2_log2 _ Hn) as [Hn1 Hn2].
  destruct (Qpow2_log2 (Z.pos (Qden q)) eq_refl) as [Hd1 Hd2].
  pose proof (Qabs_num_den q) as Habs.
  unfold Qlog2_floor.
  set (ln := Z.log2 (Z.abs (Qnum q))) in *.
  set (ld := Z.log2 (Z.pos (Qden q))) in *.
  set (N := inject_Z (Z.abs (Qnum q))) in *.
  set (D := inject_Z (Z.pos (Qden q))) in *.
  pose proof (Qpow2_pos ln) as HA. pose proof (Qpow2_pos ld) as HB.
  assert (HD : 0 < D) by lra.
  assert (He : 2 ^ (ln - ld) == 2 ^ ln / 2 ^ ld)
    by (apply Qpower_minus; discriminate).
  set (X := 2 ^ ln / 2 ^ ld) in *.
  assert (HX : X * 2 ^ ld == 2 ^ ln) by (unfold X; field; lra).
  assert (HX0 : 0 < X) by (apply Qlt_shift_div_l; lra).
  assert (Hup : Qabs q < 2 * 2 ^ (ln - ld)).
  { rewrite Habs, He. apply Qlt_shift_div_r; [exact HD|]. nra. }
  assert (Hlo : 2 ^ (ln - ld) < 2 * Qabs q).
  { rewrite Habs, He.
    assert (HY : N / D * D == N) by (field; lra).
    assert (HY0 : 0 < N / D) by (apply Qlt_shift_div_l; lra).
    nra. }
  destruct (Qle_bool (2 ^ (ln - ld)) (Qabs q)) eqn:E.
  - apply Qle_bool_iff in E. rewrite Qpow2_succ. split; [exact E | exact Hup].
  - assert (E' : Qabs q < 2 ^ (ln - ld)).
    { apply Qnot_le_lt. intros H. apply Qle_bool_iff in H. congruence. }
    replace (ln - ld - 1 + 1)%Z with (ln - ld)%Z by lia.
    split; [|exact E'].
    assert (Hs : 2 ^ (ln - ld) == 2 * 2 ^ (ln - ld - 1)).
    { rewrite <- Qpow2_succ. by replace (ln - ld - 1 + 1)%Z with (ln - ld)%Z by lia. }
    lra.
Qed.

(** *** Rounding depends on the value only *)




(** *** The grid of doubles *)

(** A rounded value is [m * 2^k], [2^k] the spacing of its binade, with a
    significand of at most 53 bits, and of exactly 53 bits above the
    subnormal range. *)
Lemma fl_grid (x : Q) :
  ~ x == 0 ->
  let k := Z.max (Qlog2_floor x - 52) (-1074) in
  exists m : Z,
    fl x == inject_Z m * 2 ^ k /\
    (Z.abs m <= 2 ^ 53)%Z /\
    (k = (Qlog2_floor x - 52)%Z -> (2 ^ 52 <= Z.abs m)%Z).
Proof.
  intros Hx k.
  destruct (Qlog2_floor_spec x Hx) as [Hlo Hup].
  unfold fl.
  destruct (Qeq_bool x 0) eqn:E; [apply Qeq_bool_iff in E; contradiction|].
  set (e := Qlog2_floor x) in *. fold k.
  set (m := round_half_even (x / 2 ^ k)).
  exists m. split; [apply Qred_correct|].
  pose proof (Qpow2_pos k) as HP.
  assert (Hdiv : x / 2 ^ k * 2 ^ k == x) by (field; lra).
  assert (H53 : 2 ^ (e + 1) <= inject_Z (2 ^ 53) * 2 ^ k).
  { assert (H : 2 ^ (k + 53) == inject_Z (2 ^ 53) * 2 ^ k).
    { rewrite Qpower_plus by discriminate. rewrite Qmult_comm. reflexivity. }
    rewrite <- H. apply Qpower_le_compat_l; [lia | lra]. }
  assert (H52 : k = (e - 52)%Z -> inject_Z (2 ^ 52) * 2 ^ k <= 2 ^ e).
  { intros ->.
    assert (H : 2 ^ e == inject_Z (2 ^ 52) * 2 ^ (e - 52)).
    { replace e with ((e - 52) + 52)%Z at 1 by lia.
      rewrite Qpower_plus by discriminate. rewrite Qmult_comm. reflexivity. }
    rewrite H. lra. }
  set (T53 := inject_Z (2 ^ 53)) in *. set (T52 := inject_Z (2 ^ 52)) in *.
  assert (HT53 : 0 < T53) by reflexivity.
  assert (HT52 : 0 < T52) by reflexivity.
  set (y := x / 2 ^ k) in *.
  destruct (Qlt_le_dec x 0) as [Hneg | Hpos].
  - rewrite Qabs_neg in Hlo, Hup by lra.
    assert (Hy : y <= 0).
    { apply Qnot_lt_le. intros Hc. nra. }
    assert (Hm0 : (m <= 0)%Z) by (apply round_half_even_le; exact Hy).
    assert (Hm1 : (- 2 ^ 53 <= m)%Z).
    { apply round_half_even_ge. rewrite inject_Z_opp. fold T53.
      apply Qnot_lt_le. intros Hc. nra. }
    split; [lia|]. intros Hk. specialize (H52 Hk).
    assert (Hm2 : (m <= - 2 ^ 52)%Z).
    { apply round_half_even_le. rewrite inject_Z_opp. fold T52.
      apply Qnot_lt_le. intros Hc. nra. }
    lia.
  - rewrite Qabs_pos in Hlo, Hup by lra.
    assert (Hy : 0 <= y).
    { apply Qnot_lt_le. intros Hc. nra. }
    assert (Hm0 : (0 <= m)%Z) by (apply round_half_even_ge; exact Hy).
    assert (Hm1 : (m <= 2 ^ 53)%Z).
    { apply round_half_even_le. fold T53.
      apply Qnot_lt_le. intros Hc. nra. }
    split; [lia|]. intros Hk. specialize (H52 Hk).
    assert (Hm2 : (2 ^ 52 <= m)%Z).
    { apply round_half_even_ge. fold T52.
      apply Qnot_lt_le. intros Hc. nra. }
    lia.
Qed.



(** Rounding does not take a number of magnitude at least one to zero. *)
Lemma fl_nonzero (x : Q) : 1 <= Qabs x -> ~ fl x == 0.
Proof.
  intros H1.
  assert (Hx : ~ x == 0).
  { intros Hc. rewrite Hc in H1. apply H1. reflexivity. }
  destruct (Qlog2_floor_spec x Hx) as [_ Hup].
  assert (He : (0 <= Qlog2_floor x)%Z).
  { assert (H : 2 ^ 0 < 2 ^ (Qlog2_floor x + 1)) by (change (2 ^ 0) with 1; lra).
    apply (Qpower_lt_compat_l_inv 2 0 (Qlog2_floor x + 1)) in H;
      [lia | reflexivity]. }
  destruct (fl_grid x Hx) as (m & Hv & _ & Hm).
  rewrite Hv. intros Hc.
  pose proof (Qpow2_pos (Z.max (Qlog2_floor x - 52) (-1074))) as HP.
  assert (Hm0 : (2 ^ 52 <= Z.abs m)%Z) by (apply Hm; lia).
  assert (Hz : inject_Z m == 0).
  { destruct (Qmult_integral _ _ Hc) as [Hz | Hz]; [exact Hz | lra]. }
  unfold Qeq in Hz. cbn in Hz. lia.
Qed.

Lemma float_of_int_nonzero (n : Z) : (1 <= n)%Z -> ~ float_of_int n == 0.
Proof.
  intros Hn. apply fl_nonzero. rewrite Qabs_pos.
  - change 1 with (inject_Z 1). by rewrite <- Zle_Qle.
  - change 0 with (inject_Z 0). rewrite <- Zle_Qle. lia.
Qed.



Lemma float_div_Ok (a b : Q) : ~ b == 0 -> float_div a b = Ok (fl (a / b)).
Proof. intros H. unfold float_div. by rewrite checked_div_Ok. Qed.

Lemma float_div_inv (a b q : Q) :
  float_div a b = Ok q -> q = fl (a / b) /\ ~ b == 0.
Proof.
  unfold float_div, checked_div. destruct (Qeq_bool b 0) eqn:E; [discriminate|].
  intros [= <-]. split; [reflexivity|].
  intros H. apply Qeq_bool_iff in H. congruence.
Qed.

(** ** Sentiment scorer *)







(** The value [compute_sentiment] returns, field by field. *)
Lemma compute_sentiment_Ok symbol p technical tc qv mvrv_in :
  exists s,
    compute_sentiment symbol p technical tc qv mvrv_in = Ok s /\
    combined_score s
    = Qmax (-1) (Qmin 1
        (float_add (fl (p / 100))
           (fl (float_sub 50 (value (rsi (oscillators (tf_1d technical))))
                / 100)))) /\
    (combined_signal s, sentiment_class s, sentiment s)
    = (if Qlt_bool (float_literal (15 # 100)) (combined_score s)
       then (BUY, POSITIVE, BULLISH)
       else if Qlt_bool (combined_score s) (- float_literal (15 # 100))
            then (SELL, NEGATIVE, BEARISH)
            else (HOLD, NEUTRAL_CLASS, NEUTRAL)) /\
    active_addresses (onchain_metrics s) = Z.max 0 (tc / 120) /\
    mvrv (onchain_metrics s) = mvrv_in.
Proof.
  unfold compute_sentiment.
  rewrite !float_div_Ok by (intros H; discriminate H). cbn [rbind].
  set (score := Qmax _ _).
  assert (Hn : exists n,
    match qv with
    | Some qv0 =>
        do r <- float_div qv0 (float_of_int (Z.max tc 1));
        Ok (Some (float_round r 6))
    | None => Ok None
    end = Ok n).
  { destruct qv as [qv0|]; [|eauto].
    rewrite float_div_Ok by (apply float_of_int_nonzero; lia). cbn. eauto. }
  destruct Hn as [n ->].
  destruct (Qlt_bool (float_literal (15 # 100)) score) eqn:E1;
    [|destruct (Qlt_bool score (- float_literal (15 # 100))) eqn:E2];
    cbn [rbind]; eexists; (split; [reflexivity|]); cbn;
    rewrite ?E1, ?E2; auto.
Qed.




(** ** Request handler *)

Section ApiProperties.
Context {ta : TaLibrary} {np : NumpyLibrary} {py : PyBuiltins} {W : Type}.
Variable fetch_binance_data : fetcher payload W.
Variable fetch_binance_klines : string -> string -> Z -> fetcher payload W.

Local Abbreviation get_analysis' :=
  (get_analysis fetch_binance_data fetch_binance_klines).
Local Abbreviation window_of' :=
  (window_of fetch_binance_data fetch_binance_klines).
Local Abbreviation state_before_klines' :=
  (state_before_klines fetch_binance_data).

Lemma mvrv_of_window_total (current_price : Q) (df_period : DataFrame) :
  exists m, mvrv_of_window current_price df_period = Ok m.
Proof.
  unfold mvrv_of_window.
  assert (Ha : exists a,
    match df_period with
    | [] => Ok current_price
    | _ :: _ => do close <- column c_close df_period; mean close
    end = Ok a).
  { destruct df_period as [|c r]; [eauto|].
    rewrite column_Ok by discriminate. cbn [rbind].
    apply mean_Ok. discriminate. }
  destruct Ha as [a ->]. cbn [rbind].
  rewrite checked_div_Ok; [cbn; eauto|].
  pose proof (Qmax_ge_r a (1 # 1000000000000)). lra.
Qed.

Lemma build_report_inv symbol period limit now facts df resp :
  build_report symbol period limit now facts df = Ok resp ->
  exists report,
    resp = mkResponse (ReportBody report) 200 /\
    compute_technical_analysis (tail (Z.to_nat limit) df)
    = Ok (technical_analysis report) /\
    compute_lstm_like_prediction (tail (Z.to_nat limit) df) 7
    = Ok (lstm_prediction report) /\
    recommendation_signal (final_recommendation report)
    = technical_overall_signal (technical_analysis report) /\
    confidence (final_recommendation report)
    = Z.min 95 (Z.max 55
        (70 + (buy (summary (signals (tf_1d (technical_analysis report))))
               - sell (summary (signals (tf_1d (technical_analysis report)))))
              * 10))%Z.
Proof.
  unfold build_report. intros H.
  apply rbind_Ok in H as (current_price & _ & H).
  apply rbind_Ok in H as (technical & Htech & H).
  apply rbind_Ok in H as (lstm & Hlstm & H).
  apply rbind_Ok in H as (trade_count & _ & H).
  apply rbind_Ok in H as (mvrv0 & _ & H).
  apply rbind_Ok in H as (sent & _ & H).
  injection H as <-. eexists. split; [reflexivity|]. cbn. auto.
Qed.

(** What the handler answers, by the candle window it obtained. *)
Lemma get_analysis_cases symbol period_arg t_tickers t_klines now s :
  let response := fst (get_analysis' symbol period_arg t_tickers t_klines now s) in
  is_error response \/
  exists df period limit facts,
    window_of' symbol t_tickers t_klines s = Some (Frame df) /\
    df <> [] /\
    build_report symbol period limit now facts df = Ok response.
Proof.
  unfold window_of, state_before_klines.
  unfold get_analysis, get_analysis_try.
  destruct (get_cached_data t_tickers "binance_tickers" _ s) as [cached s1].
  cbn [snd].
  destruct (read_ticker symbol cached) as [facts|e];
    [|left; cbn; unfold is_error; eauto].
  destruct (get_cached_data t_klines _ _ s1) as [df s2]. cbn [fst].
  destruct df as [[l|[|c r]]|]; cbn [analyse_window].
  - left. cbn. unfold is_error. eauto.
  - left. cbn. unfold is_error, no_history. eauto.
  - destruct (build_report _ _ _ _ _ (c :: r)) as [resp|e] eqn:E.
    + right. cbn [fst]. do 4 eexists.
      split; [reflexivity|]. split; [discriminate | exact E].
    + left. cbn. unfold is_error. eauto.
  - left. cbn. unfold is_error, no_history. eauto.
Qed.

(** C6. If the candle window the handler obtains is empty (or absent), the
    response is an error response with status 500 and carries no report;
    so it is when the candle source is consulted and yields an empty
    window; and a report is only ever built from a non-empty window. *)
Theorem empty_window_fails_request
    symbol period_arg (t_tickers t_klines now : Q) (s : State payload W) :
  let response :=
    fst (get_analysis' symbol period_arg t_tickers t_klines now s) in
  (window_of' symbol t_tickers t_klines s = Some (Frame []) \/
   window_of' symbol t_tickers t_klines s = None ->
   is_error response) /\
  (forall w,
     cache_valid t_klines (klines_key symbol)
       (state_before_klines' t_tickers s) = false ->
     fetch_binance_klines symbol "1d" 90%Z
       (world (state_before_klines' t_tickers s))
     = (Ok (Some (Frame [])), w) ->
     is_error response) /\
  (forall report, body response = ReportBody report ->
     exists df, window_of' symbol t_tickers t_klines s = Some (Frame df) /\
                df <> []).
Proof.
  intros response.
  pose proof (get_analysis_cases symbol period_arg t_tickers t_klines now s)
    as Hcases. cbn zeta in Hcases. fold response in Hcases.
  assert (Hempty :
    window_of' symbol t_tickers t_klines s = Some (Frame []) \/
    window_of' symbol t_tickers t_klines s = None -> is_error response).
  { intros Hw. destruct Hcases as [He|(df & ? & ? & ? & Hdf & Hne & _)];
      [exact He|].
    destruct Hw as [Hw|Hw]; rewrite Hw in Hdf; congruence. }
  split; [exact Hempty|]. split.
  - intros w Hinv Hfetch. apply Hempty. left. unfold window_of.
    rewrite (get_cached_data_invalid _ _ _ _ Hinv).
    by rewrite (refresh_Ok _ _ _ _ _ _ Hfetch).
  - intros report Hbody.
    destruct Hcases as [[msg He]|(df & ? & ? & ? & Hdf & Hne & _)];
      [rewrite He in Hbody; discriminate | eauto].
Qed.

(** C10. In every report the handler produces, the confidence of the final
    recommendation is [70 + 10 * (buy - sell)] of the 1d vote summary,
    clamped to the integers 55..95. *)
Theorem confidence_is_clamped_vote_margin
    symbol period_arg (t_tickers t_klines now : Q) (s : State payload W)
    report :
  body (fst (get_analysis' symbol period_arg t_tickers t_klines now s))
  = ReportBody report ->
  let counts := summary (signals (tf_1d (technical_analysis report))) in
  confidence (final_recommendation report)
  = Z.min 95 (Z.max 55 (70 + 10 * (buy counts - sell counts)))%Z /\
  (55 <= confidence (final_recommendation report) <= 95)%Z.
Proof.
  intros Hbody counts.
  destruct (get_analysis_cases symbol period_arg t_tickers t_klines now s)
    as [[msg He]|(df & period & limit & facts & _ & _ & Hbuild)].
  - rewrite He in Hbody. discriminate.
  - apply build_report_inv in Hbuild as (report' & Hresp & _ & _ & _ & Hconf).
    rewrite Hresp in Hbody. injection Hbody as ->.
    fold counts in Hconf. rewrite Hconf. lia.
Qed.

End ApiProperties.

(** ** Concrete runs *)

Lemma majority_vote_aggregation_witness :
  snd (vote [BUY; SELL; BUY]) = BUY.
Proof.
  apply (proj1 (@majority_vote_aggregation sample_ta)).
  intros y Hy. destruct y; [congruence | reflexivity | reflexivity].
Defined.

Example vote_split : vote [BUY; SELL; HOLD] = (mkSummary 1 1 1, HOLD).
Proof. reflexivity. Qed.

Example vote_hold_plurality : vote [HOLD; BUY; HOLD] = (mkSummary 1 0 2, HOLD).
Proof. reflexivity. Qed.

(** A tie between BUY and HOLD with no SELL goes to BUY: the tie-break
    [buy >= hold] only needs BUY to beat SELL strictly. *)
Example pick_signal_tie : pick_signal 1 0 1 = BUY.
Proof. reflexivity. Qed.

Lemma forecast_short_window_and_length_witness :
  exists r,
    @compute_lstm_like_prediction exact_numpy short_frame 7 = Ok r /\
    Z.of_nat (length (predictions (future_predictions r))) = 7%Z /\
    predictions (future_predictions r) = repeat 12 7 /\
    R2 (model_performance r) = 0.
Proof.
  destruct (@forecast_short_window_and_length exact_numpy short_frame 7)
    as [Hret Htotal].
  destruct Htotal as [r Hr]; [discriminate | lia |].
  exists r. split; [exact Hr|].
  destruct (Hret r Hr) as [Hlen Hshort]. split; [exact Hlen|].
  destruct Hshort as (lc & Hlc & Hp & _ & _ & Hr2); [vm_compute; lia|].
  split; [|exact Hr2].
  vm_compute in Hlc. injection Hlc as <-. exact Hp.
Defined.

Example forecast_long_window :
  option_map (fun r => predictions (future_predictions r))
    (match @compute_lstm_like_prediction exact_numpy sample_frame 3 with
     | Ok r => Some r
     | Raise _ => None
     end)
  = Some [117; 118; 119].
Proof. vm_compute. reflexivity. Qed.

Example forecast_negative_horizon :
  @compute_lstm_like_prediction exact_numpy sample_frame (-1) = Raise ValueError.
Proof. vm_compute. reflexivity. Qed.

Example forecast_empty_frame :
  @compute_lstm_like_prediction exact_numpy [] 7 = Raise KeyError.
Proof. reflexivity. Qed.


(** The exact sum [5/100 + (50 - 40)/100] is 0.15; the sum of the two
    doubles rounds to the next double above, and the classification is
    BUY. *)
Example sentiment_rounding_at_threshold :
  5 / 100 + (50 - 40) / 100 == (15 # 100) /\
  option_map (fun s => (combined_score s, combined_signal s))
    (match compute_sentiment "X" 5 (flat_technical 40) 0 None 1 with
     | Ok s => Some s
     | Raise _ => None
     end)
  = Some (1351079888211149 # 9007199254740992, BUY) /\
  option_map (fun s => (combined_score s, combined_signal s))
    (match compute_sentiment "X" (-5) (flat_technical 60) 0 None 1 with
     | Ok s => Some s
     | Raise _ => None
     end)
  = Some (-1351079888211149 # 9007199254740992, SELL).
Proof. split; [reflexivity|]. split; vm_compute; reflexivity. Qed.

Example sentiment_clamped :
  option_map combined_score
    (match compute_sentiment "X" (-200) (flat_technical 90) 0 None 1 with
     | Ok s => Some s
     | Raise _ => None
     end)
  = Some (-1).
Proof. vm_compute. reflexivity. Qed.

Lemma empty_window_fails_request_witness :
  is_error (sample_response "FOOUSDT").
Proof.
  apply (proj1 (proj2
    (@empty_window_fails_request sample_ta exact_numpy decimal_builtins nat
       sample_tickers sample_klines "FOOUSDT" None 1000 1001 1002
       sample_state)) 2%nat).
  - vm_compute. reflexivity.
  - vm_compute. reflexivity.
Defined.

Example no_candles_response :
  sample_response "FOOUSDT"
  = mkResponse (ErrorBody "Unable to fetch historical data for analysis") 500.
Proof. vm_compute. reflexivity. Qed.

Lemma tf_1d_equals_tf_1m_witness :
  exists r,
    @compute_technical_analysis sample_ta sample_frame = Ok r /\
    tf_1d r = tf_1m r.
Proof.
  destruct (@tf_1d_equals_tf_1m sample_ta sample_frame) as [Heq Htotal].
  destruct Htotal as [r Hr]; [discriminate|].
  exists r. split; [exact Hr|]. exact (proj1 (Heq r Hr)).
Defined.

Lemma spec_rsi_range_and_all_gains_witness :
  last_valid (spec_rsi 14 rising_closes) = Some 100.
Proof.
  apply (proj1 (proj2 (proj2 (spec_rsi_range_and_all_gains rising_closes)))).
  - vm_compute. lia.
  - vm_compute. repeat constructor.
Defined.

(** C8 as stated fails: Wilder's smoothing has memory, so after one loss
    fourteen gains in a row, a whole trailing window of gains, leave the
    reading below 100. *)
Lemma spec_rsi_trailing_gains_insufficient :
  ~ (forall close : list Q,
       (14 <= length close)%nat ->
       Forall (fun d => 0 < d) (tail 14 (changes close)) ->
       exists r, last_valid (spec_rsi 14 close) = Some r /\ r == 100).
Proof.
  intros H. destruct (H dip_then_rise) as (r & Hr & H100).
  - vm_compute. lia.
  - vm_compute. repeat constructor.
  - vm_compute in Hr. injection Hr as <-. vm_compute in H100. discriminate.
Qed.

(** The same holds when the recurrence is started from the mean of the
    first fourteen changes. *)
Example seeded_rsi_after_a_loss :
  Forall (fun d => 0 < d) (tail 14 (changes dip_then_rise)) /\
  exists r, seeded_rsi 14 dip_then_rise = Some r /\ r < 100.
Proof.
  split; [vm_compute; repeat constructor|].
  eexists. split; [vm_compute; reflexivity | reflexivity].
Qed.


(** A window of identical closes: the total sum of squares is 0 and the
    forecast still returns, with R2 = 0. *)
Example forecast_constant_window :
  option_map (fun r => R2 (model_performance r))
    (match @compute_lstm_like_prediction exact_numpy
             (candles_of_closes (repeat 100 12)) 2 with
     | Ok r => Some r
     | Raise _ => None
     end)
  = Some 0.
Proof. vm_compute. reflexivity. Qed.

Lemma confidence_is_clamped_vote_margin_witness :
  exists report,
    sample_report = Some report /\
    confidence (final_recommendation report) = 60%Z /\
    (55 <= confidence (final_recommendation report) <= 95)%Z.
Proof.
  eexists. split; [reflexivity|].
  match goal with
  | |- confidence (final_recommendation ?r) = _ /\ _ =>
      destruct (@confidence_is_clamped_vote_margin
                  sample_ta exact_numpy decimal_builtins nat
                  sample_tickers sample_klines "BTCUSDT" None 1000 1001 1002
                  sample_state r) as [Hc Hb]
  end.
  - vm_compute. reflexivity.
  - split; [|exact Hb]. rewrite Hc. vm_compute. reflexivity.
Defined.

(** * Further properties *)

(** ** Freshness cache: frame, key sets, fetch counts, retries *)

Section CacheFurther.
Context {V W : Type}.
Implicit Types (s : State V W) (f : fetcher V W) (key : string).

(** The final state of a call, by the path taken. *)
Lemma get_cached_data_paths t key f s :
  let s' := snd (get_cached_data t key f s) in
  (cache_valid t key s = true /\
   s' = logger (Returning_cached key) s) \/
  (cache_valid t key s = false /\
   exists d w, f (world s) = (Ok d, w) /\
     s' = store key d t (set_world w (logger (Fetching_fresh key) s))) \/
  (cache_valid t key s = false /\
   exists e w, f (world s) = (Raise e, w) /\
     data_cache s' = data_cache s /\
     cache_timestamp s' = cache_timestamp s /\
     world s' = w /\
     exists tl, log s' = log s ++ Fetching_fresh key :: Error_fetching key e :: tl /\
                fetch_count key tl = 0%nat /\
                forall k, fetch_count k tl = 0%nat).
Proof.
  cbn zeta. destruct (cache_valid t key s) eqn:Hv.
  - left. split; [reflexivity|].
    unfold cache_valid, entry in Hv. unfold get_cached_data.
    destruct (data_cache s !! key) as [v|]; [|discriminate].
    destruct (cache_timestamp s !! key) as [ts|]; [|discriminate].
    by rewrite Hv.
  - right. rewrite (get_cached_data_invalid _ _ _ _ Hv).
    destruct (f (world s)) as [[d|e] w] eqn:Hf.
    + left. split; [reflexivity|]. exists d, w. split; [reflexivity|].
      by rewrite (refresh_Ok _ _ _ _ _ _ Hf).
    + right. split; [reflexivity|]. exists e, w. split; [reflexivity|].
      rewrite (refresh_Raise _ _ _ _ _ _ Hf). cbn zeta.
      destruct (data_cache s !! key) as [v|]; cbn;
        repeat split; try reflexivity.
      * exists [Returning_expired key]. rewrite <- !app_assoc. cbn. auto.
      * exists []. rewrite <- !app_assoc. cbn. auto.
Qed.

Lemma get_cached_data_lookup_other t key f s k :
  k <> key ->
  data_cache (snd (get_cached_data t key f s)) !! k = data_cache s !! k /\
  cache_timestamp (snd (get_cached_data t key f s)) !! k
  = cache_timestamp s !! k.
Proof.
  intros Hk.
  destruct (get_cached_data_paths t key f s)
    as [[_ ->] | [(_ & d & w & _ & ->) | (_ & e & w & _ & Hd & Ht & _)]];
    cbn; rewrite ?Hd, ?Ht; [auto | | auto].
  by rewrite !lookup_insert_ne.
Qed.

(** X1. A call for one key leaves the value and the timestamp stored under
    every other key as they were, and removes no key from either
    dictionary. *)
Theorem get_cached_data_frame t key f s :
  let s' := snd (get_cached_data t key f s) in
  (forall k, k <> key ->
     data_cache s' !! k = data_cache s !! k /\
     cache_timestamp s' !! k = cache_timestamp s !! k) /\
  (forall k, is_Some (data_cache s !! k) -> is_Some (data_cache s' !! k)) /\
  (forall k, is_Some (cache_timestamp s !! k) ->
     is_Some (cache_timestamp s' !! k)).
Proof.
  cbn zeta. split; [intros k Hk; by apply get_cached_data_lookup_other|].
  destruct (get_cached_data_paths t key f s)
    as [[_ ->] | [(_ & d & w & _ & ->) | (_ & e & w & _ & Hd & Ht & _)]];
    cbn; rewrite ?Hd, ?Ht; [auto | | auto].
  split; intros k Hk;
    (destruct (decide (key = k)) as [->|Hne];
     [rewrite lookup_insert_eq; eauto | by rewrite lookup_insert_ne]).
Qed.

(** X2. If both dictionaries hold the same keys before a call, they do so
    after it: a value is never stored without its timestamp. *)
Theorem get_cached_data_same_keys t key f s :
  same_keys s -> same_keys (snd (get_cached_data t key f s)).
Proof.
  intros Hs.
  destruct (get_cached_data_paths t key f s)
    as [[_ ->] | [(_ & d & w & _ & ->) | (_ & e & w & _ & Hd & Ht & _)]].
  - exact Hs.
  - intros k. cbn. destruct (decide (key = k)) as [->|Hne].
    + rewrite !lookup_insert_eq. split; eauto.
    + rewrite !lookup_insert_ne by done. apply Hs.
  - intros k. rewrite Hd, Ht. apply Hs.
Qed.

(** X3. A call enters the fetch function for its key exactly once when the
    key has no entry younger than 300 seconds and not at all otherwise; it
    never fetches for another key. *)
Theorem get_cached_data_fetch_count t key f s :
  let s' := snd (get_cached_data t key f s) in
  fetch_count key (log s')
  = (fetch_count key (log s) + if cache_valid t key s then 0 else 1)%nat /\
  (forall k, k <> key -> fetch_count k (log s') = fetch_count k (log s)).
Proof.
  cbn zeta.
  assert (Hself : fetch_count key [Fetching_fresh key] = 1%nat).
  { unfold fetch_count. cbn. by rewrite bool_decide_eq_true_2. }
  assert (Hother : forall k, k <> key ->
            fetch_count k [Fetching_fresh key] = 0%nat).
  { intros k Hk. unfold fetch_count. cbn.
    by rewrite bool_decide_eq_false_2. }
  destruct (get_cached_data_paths t key f s)
    as [[-> ->] | [(-> & d & w & _ & ->) |
                   (-> & e & w & _ & _ & _ & _ & tl & -> & _ & Htl)]].
  - unfold logger; cbn [log]. split; [|intros k Hk];
      rewrite fetch_count_app; cbn; lia.
  - unfold store, set_world, logger; cbn [log]. split; [|intros k Hk];
      rewrite fetch_count_app; rewrite ?Hself, ?(Hother k Hk); lia.
  - assert (Hcons : forall k ev l,
              fetch_count k (ev :: l)
              = (fetch_count k [ev] + fetch_count k l)%nat)
      by (intros k ev l; apply (fetch_count_app k [ev] l)).
    split; [|intros k Hk];
      rewrite fetch_count_app, Hcons, (Hcons _ (Error_fetching key e)), Htl;
      rewrite ?Hself, ?(Hother k Hk); cbn; lia.
Qed.

(** X4. A refresh that fails does not renew anything: at every later clock
    reading the key is still without a valid entry, so the next call tries
    the fetch function again. *)
Theorem get_cached_data_failure_not_cached t t' key f s e w :
  cache_valid t key s = false ->
  f (world s) = (Raise e, w) ->
  t <= t' ->
  cache_valid t' key (snd (get_cached_data t key f s)) = false.
Proof.
  intros Hv Hf Hle.
  destruct (get_cached_data_paths t key f s)
    as [[Hv' _] | [(_ & d & w' & Hf' & _) | (_ & e' & w' & _ & Hd & Ht & _)]];
    [congruence | congruence |].
  unfold cache_valid, entry in *. rewrite Hd, Ht.
  destruct (data_cache s !! key) as [v|]; [|reflexivity].
  destruct (cache_timestamp s !! key) as [ts|]; [|reflexivity].
  apply Qlt_bool_false_iff in Hv. apply Qlt_bool_false_iff.
  intros Hlt. apply Hv. lra.
Qed.
End CacheFurther.

(** ** Technical analysis engine: counts, fallbacks, series *)

Lemma Qlt_bool_irrefl (x : Q) : Qlt_bool x x = false.
Proof. apply Qlt_bool_false_iff. lra. Qed.

(** Facts about a vote over three signals, by enumeration. *)
Lemma vote_three_facts (a b c : Signal) :
  let counts := fst (vote [a; b; c]) in
  let overall := snd (vote [a; b; c]) in
  (0 <= buy counts /\ 0 <= sell counts /\ 0 <= hold counts)%Z /\
  (buy counts + sell counts + hold counts = 3)%Z /\
  ((2 <= buy counts - sell counts)%Z -> overall = BUY) /\
  ((buy counts - sell counts <= -2)%Z -> overall = SELL) /\
  (a = c -> overall = a).
Proof.
  destruct a, b, c; vm_compute; repeat split; try congruence; intros H;
    try reflexivity; exfalso; apply H; reflexivity.
Qed.

Section EngineFurther.
Context {ta : TaLibrary}.

(** X5. The vote summary of a timeframe counts each of the three indicator
    signals once: the counts are non-negative and add up to 3. *)
Theorem compute_for_window_counts (df_window : DataFrame) r :
  compute_for_window df_window = Ok r ->
  (0 <= buy (summary (signals r)) /\
   0 <= sell (summary (signals r)) /\
   0 <= hold (summary (signals r)))%Z /\
  (buy (summary (signals r)) + sell (summary (signals r))
   + hold (summary (signals r)) = 3)%Z.
Proof.
  intros H. apply compute_for_window_vote in H.
  pose proof (vote_three_facts (details_rsi (details (signals r)))
                (details_macd (details (signals r)))
                (details_moving_averages (details (signals r))))
    as (H0 & H3 & _).
  cbn zeta in H0, H3. rewrite <- H in H0, H3. cbn [fst] in H0, H3. auto.
Qed.

(** X6. The overall signal of the technical analysis is always the overall
    signal of the "1d" timeframe: the "1d" and "1m" analyses agree and
    outvote the "1w" analysis. *)
Theorem technical_overall_is_1d (df : DataFrame) r :
  compute_technical_analysis df = Ok r ->
  technical_overall_signal r = overall_signal (signals (tf_1d r)).
Proof.
  intros H. apply compute_technical_analysis_inv in H as (Hd & _ & Hm & Ho).
  rewrite Ho.
  assert (E : tf_1m r = tf_1d r) by congruence. rewrite E.
  apply vote_three_facts. reflexivity.
Qed.

(** X7. With too little history, when the library's RSI, MACD, MACD signal,
    SMA(20) and SMA(50) series end in NaN, the readings fall back to 50, 0
    and the last close, every indicator signal is HOLD, the summary is 0 buy,
    0 sell, 3 hold and the timeframe's overall signal is HOLD. *)
Theorem compute_for_window_insufficient_history (df_window : DataFrame) r :
  let close := map c_close df_window in
  last_valid (RSIIndicator_rsi 14 close) = None ->
  last_valid (MACD_macd close) = None ->
  last_valid (MACD_macd_signal close) = None ->
  last_valid (SMAIndicator_sma_indicator 20 close) = None ->
  last_valid (SMAIndicator_sma_indicator 50 close) = None ->
  compute_for_window df_window = Ok r ->
  value (rsi (oscillators r)) = 50 /\
  value (macd (oscillators r)) = 0 /\
  Some (value (sma_20 (moving_averages r))) = last close /\
  Some (value (sma_50 (moving_averages r))) = last close /\
  details (signals r) = mkDetails HOLD HOLD HOLD /\
  summary (signals r) = mkSummary 0 0 3 /\
  overall_signal (signals r) = HOLD.
Proof.
  intros close Hrsi Hmacd Hsig H20 H50 H.
  unfold compute_for_window in H.
  apply rbind_Ok in H as (close' & Hclose & H).
  apply column_Ok_inv in Hclose as [_ ->]. fold close in H.
  unfold last_or_close in H. rewrite Hrsi, Hmacd, Hsig, H20, H50 in H.
  cbn [default] in H.
  apply rbind_Ok in H as (s20 & Hs20 & H).
  apply rbind_Ok in H as (s50 & Hs50 & H).
  apply rbind_Ok in H as (e12 & _ & H).
  apply rbind_Ok in H as (e26 & _ & H).
  assert (Hlast : last close = Some s20 /\ s50 = s20).
  { unfold iloc_last in Hs20, Hs50.
    destruct (last close); [|discriminate]. split; congruence. }
  destruct Hlast as [Hlast ->].
  rewrite !Qlt_bool_irrefl in H.
  change (Qlt_bool 50 30) with false in H.
  change (Qlt_bool 70 50) with false in H.
  change (Qlt_bool 0 (0 - 0)) with false in H.
  change (Qlt_bool (0 - 0) 0) with false in H.
  cbn [vote] in H. apply rbind_Ok in H as (cl & _ & H).
  injection H as <-. cbn. auto 10.
Qed.

(** X8. The RSI, MACD and MACD-signal series of a timeframe hold at most 90
    points and no NaN. *)
Theorem compute_for_window_series_filled (df_window : DataFrame) r :
  compute_for_window df_window = Ok r ->
  Forall (fun l => (length l <= 90)%nat /\ Forall is_Some l)
    [series_rsi (series r); series_macd (series r);
     series_macd_signal (series r)].
Proof.
  assert (Hfill : forall c s,
    (length (tail 90 (fillna_const c s)) <= 90)%nat /\
    Forall is_Some (tail 90 (fillna_const c s))).
  { intros c s. split; [rewrite tail_length; lia|].
    unfold tail. apply Forall_drop. unfold fillna_const.
    apply List.Forall_forall. intros x Hx.
    apply List.in_map_iff in Hx as (o & <- & _). eauto. }
  unfold compute_for_window. intros H. invert_binds H.
  unfold vote in H. invert_binds H. injection H as <-. cbn.
  do 3 (constructor; [apply Hfill|]). constructor.
Qed.
End EngineFurther.

(** ** Forecast engine: dates and metric bounds *)

Lemma last_map {A B : Type} (f : A -> B) (l : list A) :
  last (map f l) = option_map f (last l).
Proof.
  induction l as [|x [|y r] IH]; [reflexivity | reflexivity |].
  change (map f (x :: y :: r)) with (f x :: f y :: map f r).
  rewrite !last_cons_cons. exact IH.
Qed.

Lemma checked_div_inv (a b q : Q) :
  checked_div a b = Ok q -> q = a / b /\ ~ b == 0.
Proof.
  unfold checked_div. destruct (Qeq_bool b 0) eqn:E; [discriminate|].
  intros [= <-]. split; [reflexivity|]. by apply Qeq_bool_neq.
Qed.

Lemma mean_nonneg (l : list Q) (m : Q) :
  mean l = Ok m -> Forall (fun x => 0 <= x) l -> 0 <= m.
Proof.
  unfold mean. intros H Hl. apply checked_div_inv in H as [-> Hn].
  assert (Hpos : 0 < inject_Z (Z.of_nat (length l))).
  { assert (0 <= inject_Z (Z.of_nat (length l)))
      by (change 0 with (inject_Z 0); rewrite <- Zle_Qle; lia).
    destruct (Qlt_le_dec 0 (inject_Z (Z.of_nat (length l)))); [assumption|].
    exfalso. apply Hn. lra. }
  apply Qle_shift_div_l; [exact Hpos|]. rewrite Qmult_0_l.
  by apply Qsum_nonneg.
Qed.

Section ForecastFurther.
Context {np : NumpyLibrary}.

Lemma compute_lstm_like_prediction_current_price (df : DataFrame) days r :
  compute_lstm_like_prediction df days = Ok r ->
  last (map c_close df) = Some (current_price (future_predictions r)).
Proof.
  unfold compute_lstm_like_prediction. intros H.
  apply rbind_Ok in H as (close & Hclose & H).
  apply column_Ok_inv in Hclose as [_ ->].
  apply rbind_Ok in H as (fit & _ & H).
  apply rbind_Ok in H as (date & _ & H).
  apply rbind_Ok in H as (last_date & _ & H).
  apply rbind_Ok in H as (future_dates & _ & H).
  apply rbind_Ok in H as (close_last & Hcl & H).
  injection H as <-. cbn.
  unfold iloc_last in Hcl. destruct (last (map c_close df)); congruence.
Qed.

(** X9. The forecast is dated on the [days] consecutive calendar days that
    follow the last candle, and its current price is the close of that
    candle. *)
Theorem forecast_dates_follow_last_candle (df : DataFrame) (days : Z) r :
  compute_lstm_like_prediction df days = Ok r ->
  exists c,
    last df = Some c /\
    current_price (future_predictions r) = c_close c /\
    dates (future_predictions r)
    = map (fun i => (c_date c + 1 + Z.of_nat i)%Z) (seq 0 (Z.to_nat days)).
Proof.
  unfold compute_lstm_like_prediction. intros H.
  apply rbind_Ok in H as (close & Hclose & H).
  apply column_Ok_inv in Hclose as [_ ->].
  apply rbind_Ok in H as (fit & _ & H).
  apply rbind_Ok in H as (date & Hdate & H).
  apply column_Ok_inv in Hdate as [_ ->].
  apply rbind_Ok in H as (last_date & Hlast & H).
  apply rbind_Ok in H as (future_dates & Hfd & H).
  apply rbind_Ok in H as (close_last & Hcl & H).
  injection H as <-. cbn.
  unfold iloc_last in Hlast, Hcl. rewrite last_map in Hlast.
  rewrite last_map in Hcl.
  destruct (last df) as [c|]; [|discriminate]. cbn in Hlast, Hcl.
  injection Hlast as <-. injection Hcl as <-.
  exists c. split; [reflexivity|]. split; [reflexivity|].
  unfold date_range in Hfd. destruct (days <? 0)%Z; [discriminate|].
  by injection Hfd as <-.
Qed.

(** X10. Whatever the fit, the reported MAPE is never negative and the
    reported R2 never exceeds 1. *)
Theorem forecast_metric_bounds (df : DataFrame) (days : Z) r :
  compute_lstm_like_prediction df days = Ok r ->
  0 <= MAPE (model_performance r) /\ R2 (model_performance r) <= 1.
Proof.
  unfold compute_lstm_like_prediction. intros H.
  apply rbind_Ok in H as (close & _ & H).
  apply rbind_Ok in H as (fit & Hfit & H).
  invert_binds H. injection H as <-. cbn.
  destruct (Z.of_nat (length (tail 60 close)) <? 10)%Z.
  - apply rbind_Ok in Hfit as (lc & _ & [= <-]). cbn. lra.
  - apply rbind_Ok in Hfit as (mse & _ & Hfit).
    apply rbind_Ok in Hfit as (ratios & _ & Hfit).
    apply rbind_Ok in Hfit as (mm & Hmm & Hfit).
    apply rbind_Ok in Hfit as (ym & _ & Hfit).
    apply rbind_Ok in Hfit as (r2 & Hr2 & [= <-]). cbn.
    split.
    + assert (0 <= mm); [|lra].
      apply (mean_nonneg _ _ Hmm). apply Forall_map_pick.
      intros d _. apply Qabs_nonneg.
    + destruct (Qlt_bool 0 _) eqn:E in Hr2.
      * apply Qlt_bool_iff in E.
        apply rbind_Ok in Hr2 as (q & Hq & [= <-]).
        apply checked_div_inv in Hq as [-> _].
        match type of E with
        | 0 < ?t => set (ss_tot := t) in *
        end.
        match goal with
        | |- 1 - ?n / ss_tot <= 1 => set (ss_res := n)
        end.
        assert (Hres : 0 <= ss_res).
        { apply Qsum_nonneg. apply Forall_map_pick. intros d _. nra. }
        assert (0 <= ss_res / ss_tot)
          by (apply Qle_shift_div_l; [exact E | lra]).
        lra.
      * injection Hr2 as <-. lra.
Qed.
End ForecastFurther.

(** ** Sentiment scorer: the on-chain proxies *)

Lemma compute_sentiment_count symbol p technical tc qv mvrv_in s :
  compute_sentiment symbol p technical tc qv mvrv_in = Ok s ->
  transaction_count (onchain_metrics s) = tc.
Proof.
  unfold compute_sentiment. intros H.
  apply rbind_Ok in H as (a & _ & H).
  apply rbind_Ok in H as (b & _ & H).
  destruct (Qlt_bool (float_literal (15 # 100)) _);
    [|destruct (Qlt_bool _ (- float_literal (15 # 100)))];
    apply rbind_Ok in H as (n & _ & [= <-]); reflexivity.
Qed.

(** X11. The active-address proxy is never negative: it is the trade count
    divided by 120 and rounded down for a non-negative count, and 0 for a
    negative one. The NVT proxy is the double-precision quotient of the
    quote volume by the trade count floored at 1 (converted to a double),
    rounded to six decimals as [round] does on a double; with at most one
    trade the divisor is 1. The trade count and the MVRV ratio are passed
    through. *)
Theorem sentiment_onchain_proxies symbol p technical tc qv mvrv_in s :
  compute_sentiment symbol p technical tc qv mvrv_in = Ok s ->
  let m := onchain_metrics s in
  (0 <= active_addresses m)%Z /\
  ((0 <= tc)%Z ->
     (120 * active_addresses m <= tc < 120 * active_addresses m + 120)%Z) /\
  ((tc < 0)%Z -> active_addresses m = 0%Z) /\
  transaction_count m = tc /\
  mvrv m = mvrv_in /\
  nvt_ratio m
  = option_map
      (fun v => float_round (fl (v / float_of_int (Z.max tc 1))) 6) qv /\
  ((tc <= 1)%Z ->
   nvt_ratio m = option_map (fun v => float_round (fl (v / 1)) 6) qv).
Proof.
  unfold compute_sentiment. intros H.
  apply rbind_Ok in H as (a & _ & H).
  apply rbind_Ok in H as (b & _ & H).
  assert (Hn : forall n,
    match qv with
    | Some qv0 =>
        do r <- float_div qv0 (float_of_int (Z.max tc 1));
        Ok (Some (float_round r 6))
    | None => Ok None
    end = Ok n ->
    n = option_map
          (fun v => float_round (fl (v / float_of_int (Z.max tc 1))) 6) qv).
  { intros n Hn. destruct qv as [v|]; [|by injection Hn as <-].
    apply rbind_Ok in Hn as (q & Hq & [= <-]).
    apply float_div_inv in Hq as [-> _]. reflexivity. }
  destruct (Qlt_bool (float_literal (15 # 100)) _);
    [|destruct (Qlt_bool _ (- float_literal (15 # 100)))];
    apply rbind_Ok in H as (n & Hnv & [= <-]); apply Hn in Hnv; cbn;
    (split; [lia|]); (split; [intros; split;
       [rewrite Z.max_r by (apply Z.div_pos; lia);
        apply Z.mul_div_le; lia
       |rewrite Z.max_r by (apply Z.div_pos; lia);
        pose proof (Z.mul_succ_div_gt tc 120 ltac:(lia)); lia]|]);
    (split; [intros; apply Z.max_l;
             pose proof (Z.div_lt_upper_bound tc 120 0 ltac:(lia) ltac:(lia));
             lia|]);
    (split; [reflexivity|]); (split; [reflexivity|]);
    (split; [exact Hnv|]);
    intros Htc; rewrite Hnv; rewrite Z.max_r by lia; reflexivity.
Qed.

(** ** Request handler: recommendation, fallbacks, errors, caching *)

Lemma last_skipn {A : Type} (k : nat) (l : list A) :
  (k < length l)%nat -> last (skipn k l) = last l.
Proof.
  revert k. induction l as [|x r IH]; intros k Hk; [cbn in Hk; lia|].
  destruct k as [|k']; [reflexivity|].
  change (skipn (S k') (x :: r)) with (skipn k' r).
  cbn in Hk. rewrite IH by lia.
  destruct r; [cbn in Hk; lia | reflexivity].
Qed.

Lemma last_tail {A : Type} (n : nat) (l : list A) :
  (0 < n)%nat -> last (tail n l) = last l.
Proof.
  intros Hn. unfold tail. destruct l as [|x r]; [reflexivity|].
  apply last_skipn. cbn. lia.
Qed.

Lemma klines_key_not_tickers (symbol : string) :
  klines_key symbol <> "binance_tickers"%string.
Proof. unfold klines_key. cbn. discriminate. Qed.

Section ApiFurther.
Context {ta : TaLibrary} {np : NumpyLibrary} {py : PyBuiltins} {W : Type}.
Variable fetch_binance_data : fetcher payload W.
Variable fetch_binance_klines : string -> string -> Z -> fetcher payload W.

Local Abbreviation get_analysis' :=
  (get_analysis fetch_binance_data fetch_binance_klines).
Local Abbreviation window_of' :=
  (window_of fetch_binance_data fetch_binance_klines).
Local Abbreviation state_before_klines' :=
  (state_before_klines fetch_binance_data).
Local Abbreviation tickers_of' :=
  (fun t_tickers s =>
     fst (get_cached_data t_tickers "binance_tickers" fetch_binance_data s)).

(** The handler, step by step. *)
Lemma get_analysis_steps symbol period_arg t_tickers t_klines now s :
  get_analysis' symbol period_arg t_tickers t_klines now s
  = match read_ticker symbol (tickers_of' t_tickers s) with
    | Raise e =>
        (mkResponse (ErrorBody (exn_message e)) 500,
         state_before_klines' t_tickers s)
    | Ok facts =>
        (match analyse_window symbol (normal_period period_arg)
                 (period_to_limit (normal_period period_arg)) now facts
                 (window_of' symbol t_tickers t_klines s) with
         | Ok response => response
         | Raise e => mkResponse (ErrorBody (exn_message e)) 500
         end,
         snd (get_cached_data t_klines (klines_key symbol)
                (fetch_binance_klines symbol "1d" 90%Z)
                (state_before_klines' t_tickers s)))
    end.
Proof.
  unfold get_analysis, get_analysis_try, window_of, state_before_klines.
  fold (normal_period period_arg).
  destruct (get_cached_data t_tickers "binance_tickers" _ s) as [cached s1].
  cbn [fst snd].
  destruct (read_ticker symbol cached) as [facts|e]; [|reflexivity].
  destruct (get_cached_data t_klines _ _ s1) as [df s2]. cbn [fst snd].
  destruct (analyse_window _ _ _ _ _ df); reflexivity.
Qed.

(** A report comes from [build_report] on a non-empty frame cut to the
    period's limit. *)
Lemma get_analysis_report_inv symbol period_arg t_tickers t_klines now s report :
  body (fst (get_analysis' symbol period_arg t_tickers t_klines now s))
  = ReportBody report ->
  exists facts df,
    read_ticker symbol (tickers_of' t_tickers s) = Ok facts /\
    window_of' symbol t_tickers t_klines s = Some (Frame df) /\
    df <> [] /\
    build_report symbol (normal_period period_arg)
      (period_to_limit (normal_period period_arg)) now facts df
    = Ok (mkResponse (ReportBody report) 200).
Proof.
  rewrite get_analysis_steps.
  destruct (read_ticker _ _) as [facts|e]; [|discriminate].
  cbn [fst].
  destruct (window_of' symbol t_tickers t_klines s) as [[l|[|c df]]|];
    cbn [analyse_window]; try discriminate.
  destruct (build_report _ _ _ _ _ (c :: df)) as [resp|e] eqn:E;
    [|discriminate].
  intros Hbody. exists facts, (c :: df).
  split; [reflexivity|]. split; [reflexivity|]. split; [discriminate|].
  destruct (build_report_inv _ _ _ _ _ _ _ E) as (report' & -> & _).
  cbn in Hbody. by injection Hbody as ->.
Qed.

(** X12. The recommended signal of a report is the overall signal of its
    "1d" timeframe. Its confidence is one of 55, 60, 70, 80, 90 and 95; a
    confidence of 90 or more only comes with BUY and a confidence of 55 only
    with SELL. *)
Theorem recommendation_follows_1d
    symbol period_arg (t_tickers t_klines now : Q) (s : State payload W)
    report :
  body (fst (get_analysis' symbol period_arg t_tickers t_klines now s))
  = ReportBody report ->
  let rec := final_recommendation report in
  recommendation_signal rec
  = overall_signal (signals (tf_1d (technical_analysis report))) /\
  In (confidence rec) confidence_levels /\
  ((90 <= confidence rec)%Z -> recommendation_signal rec = BUY) /\
  (confidence rec = 55%Z -> recommendation_signal rec = SELL).
Proof.
  intros Hbody. cbn zeta.
  apply get_analysis_report_inv in Hbody as (facts & df & _ & _ & _ & Hb).
  apply build_report_inv in Hb as (report' & [= <-] & Htech & _ & Hsig & Hconf).
  apply compute_technical_analysis_inv in Htech as (Hd & _ & Hm & Ho).
  assert (H1d : technical_overall_signal (technical_analysis report)
                = overall_signal (signals (tf_1d (technical_analysis report)))).
  { assert (E : tf_1m (technical_analysis report)
                = tf_1d (technical_analysis report)) by congruence.
    rewrite Ho, E. apply vote_three_facts. reflexivity. }
  pose proof (compute_for_window_vote _ _ Hd) as Hvote.
  pose proof (vote_three_facts
                (details_rsi (details (signals (tf_1d (technical_analysis report)))))
                (details_macd (details (signals (tf_1d (technical_analysis report)))))
                (details_moving_averages
                   (details (signals (tf_1d (technical_analysis report))))))
    as (H0 & H3 & Hbuy & Hsell & _).
  cbn zeta in H0, H3, Hbuy, Hsell.
  rewrite <- Hvote in H0, H3, Hbuy, Hsell. cbn [fst snd] in *.
  rewrite Hsig, H1d, Hconf.
  set (b := buy _) in *. set (sl := sell _) in *. set (h := hold _) in *.
  split; [reflexivity|]. split; [|split].
  - unfold confidence_levels. cbn [In].
    assert (Hd7 : (b - sl = -3 \/ b - sl = -2 \/ b - sl = -1 \/ b - sl = 0
                   \/ b - sl = 1 \/ b - sl = 2 \/ b - sl = 3)%Z) by lia.
    destruct Hd7 as [E|[E|[E|[E|[E|[E|E]]]]]]; rewrite E; cbn; auto 10.
  - intros Hc. apply Hbuy. lia.
  - intros Hc. apply Hsell. lia.
Qed.

(** X13. Every answer of the handler is either a report with status 200 or
    an error message with status 500. *)
Theorem get_analysis_status
    symbol period_arg (t_tickers t_klines now : Q) (s : State payload W) :
  let response :=
    fst (get_analysis' symbol period_arg t_tickers t_klines now s) in
  (status response = 200%Z /\ exists report, body response = ReportBody report)
  \/ (status response = 500%Z /\ exists message, body response = ErrorBody message).
Proof.
  cbn zeta.
  destruct (get_analysis_cases fetch_binance_data fetch_binance_klines
              symbol period_arg t_tickers t_klines now s)
    as [[msg ->]|(df & period & limit & facts & _ & _ & Hb)].
  - right. cbn. eauto.
  - apply build_report_inv in Hb as (report & -> & _). left. cbn. eauto.
Qed.

(** X14. When the ticker batch has no record for the symbol (or there is no
    batch) and the candle window is not empty, a report is still produced:
    its current price is the close of the last candle of the period and the
    price change, both volumes and the trade count are 0. *)
Theorem get_analysis_without_ticker
    symbol period_arg (t_tickers t_klines now : Q) (s : State payload W) df :
  no_ticker_for symbol (tickers_of' t_tickers s) ->
  window_of' symbol t_tickers t_klines s = Some (Frame df) ->
  df <> [] ->
  exists report c,
    fst (get_analysis' symbol period_arg t_tickers t_klines now s)
    = mkResponse (ReportBody report) 200 /\
    last df = Some c /\
    report_current_price report = c_close c /\
    report_price_change_percent report = 0 /\
    volume_24h report = 0 /\
    quote_volume_24h report = 0 /\
    transaction_count (onchain_metrics (sentiment_analysis report)) = 0%Z.
Proof.
  intros Hno Hwin Hdf.
  rewrite get_analysis_steps, Hwin.
  assert (Hfacts : read_ticker symbol (tickers_of' t_tickers s)
                   = Ok (mkTickerFacts None None 0 0 0)).
  { unfold read_ticker, no_ticker_for in *.
    destruct (tickers_of' t_tickers s) as [[l|fr]|]; [|contradiction|];
      cbn [rbind]; rewrite ?Hno; reflexivity. }
  rewrite Hfacts. cbn [fst].
  destruct df as [|c0 df0]; [congruence|]. cbn [analyse_window].
  set (df := c0 :: df0) in *.
  set (limit := period_to_limit (normal_period period_arg)).
  assert (Hlimit : (0 < Z.to_nat limit)%nat).
  { unfold limit, period_to_limit.
    repeat match goal with |- context [String.eqb ?a ?b] =>
      destruct (String.eqb a b) end; lia. }
  pose proof (tail_nonempty (Z.to_nat limit) df Hlimit Hdf) as Hper.
  unfold build_report. cbn [facts_ticker facts_current_price
    facts_price_change_percent facts_volume_24h facts_quote_volume_24h].
  fold limit. set (df_period := tail (Z.to_nat limit) df) in *.
  rewrite (column_Ok _ _ Hper). cbn [rbind].
  assert (Hc : map c_close df_period <> [])
    by (destruct df_period; [congruence | discriminate]).
  destruct (iloc_last_Ok _ Hc) as (cp & -> & Hcp). cbn [rbind].
  destruct (compute_technical_analysis_total df_period Hper) as [tech ->].
  cbn [rbind].
  destruct (compute_lstm_like_prediction_total df_period 7 Hper ltac:(lia))
    as [lstm ->]. cbn [rbind ticker_get py_truthy].
  destruct (mvrv_of_window_total cp df_period) as [m ->]. cbn [rbind].
  destruct (compute_sentiment_Ok symbol 0 tech 0 (Some 0) m)
    as (sent & Hsent & _).
  pose proof (compute_sentiment_count _ _ _ _ _ _ _ Hsent) as Htx.
  rewrite Hsent. cbn [rbind].
  rewrite last_map in Hcp.
  assert (Hlast : last df_period = last df).
  { unfold df_period. by apply last_tail. }
  rewrite Hlast in Hcp. destruct (last df) as [c|]; [|discriminate].
  injection Hcp as <-.
  eexists. exists c. split; [reflexivity|]. cbn. auto 10.
Qed.
(** X15. For the period "7d", in any letter case, the forecast of a report
    is flat: the window then has at most 7 candles, fewer than the 10 a fit
    needs, so the seven predictions all equal the last close and RMSE, MAPE
    and R2 are 0. *)
Theorem get_analysis_week_forecast_flat
    symbol period_arg (t_tickers t_klines now : Q) (s : State payload W)
    report :
  normal_period period_arg = "7d"%string ->
  body (fst (get_analysis' symbol period_arg t_tickers t_klines now s))
  = ReportBody report ->
  let fp := future_predictions (lstm_prediction report) in
  predictions fp = repeat (current_price fp) 7 /\
  model_performance (lstm_prediction report) = mkModelPerformance 0 0 0.
Proof.
  intros Hperiod Hbody. cbn zeta.
  apply get_analysis_report_inv in Hbody as (facts & df & _ & _ & _ & Hb).
  rewrite Hperiod in Hb.
  apply build_report_inv in Hb as (report' & [= <-] & _ & Hlstm & _).
  change (Z.to_nat (period_to_limit "7d")) with 7%nat in Hlstm.
  destruct (compute_lstm_like_prediction_short _ _ _ Hlstm)
    as (lc & Hlc & Hp & Hrmse & Hmape & Hr2).
  { rewrite !tail_length, length_map, tail_length. lia. }
  pose proof (compute_lstm_like_prediction_current_price _ _ _ Hlstm) as Hcur.
  rewrite Hlc in Hcur. injection Hcur as <-.
  rewrite Hp. split; [reflexivity|].
  destruct (model_performance (lstm_prediction report)) as [a b c0].
  cbn in *. congruence.
Qed.

(** X16. A ticker record for the symbol whose last price is a non-empty
    string that is not a number fails the whole request with status 500, and
    the candles are not even asked for. *)
Theorem get_analysis_malformed_price
    symbol period_arg (t_tickers t_klines now : Q) (s : State payload W)
    l t p :
  tickers_of' t_tickers s = Some (Tickers l) ->
  find (symbol_is symbol) l = Some t ->
  lastPrice t = Some (JStr p) ->
  p <> ""%string ->
  float_of_str p = None ->
  get_analysis' symbol period_arg t_tickers t_klines now s
  = (mkResponse (ErrorBody (exn_message ValueError)) 500,
     state_before_klines' t_tickers s).
Proof.
  intros Hl Hfind Hprice Hne Hparse.
  rewrite get_analysis_steps.
  assert (Hread : read_ticker symbol (tickers_of' t_tickers s)
                  = Raise ValueError).
  { unfold read_ticker. rewrite Hl. cbn [rbind]. rewrite Hfind.
    cbn [ticker_get]. rewrite Hprice. cbn [py_truthy py_float].
    apply String.eqb_neq in Hne. rewrite Hne, Hparse. reflexivity. }
  by rewrite Hread.
Qed.

(** X17. A request that finds entries younger than 300 seconds for the
    ticker batch and for the symbol's candles is answered from the cache
    alone: no fetch function is entered, the outside world is untouched and
    both dictionaries are unchanged. *)
Theorem get_analysis_served_from_cache
    symbol period_arg (t_tickers t_klines now : Q) (s : State payload W) :
  cache_valid t_tickers "binance_tickers" s = true ->
  cache_valid t_klines (klines_key symbol) s = true ->
  let s' := snd (get_analysis' symbol period_arg t_tickers t_klines now s) in
  world s' = world s /\
  data_cache s' = data_cache s /\
  cache_timestamp s' = cache_timestamp s /\
  (forall k, fetch_count k (log s') = fetch_count k (log s)).
Proof.
  intros Hv1 Hv2. cbn zeta. rewrite get_analysis_steps.
  assert (H1 : state_before_klines' t_tickers s
               = logger (Returning_cached "binance_tickers") s).
  { unfold state_before_klines.
    destruct (get_cached_data_paths t_tickers "binance_tickers"
                fetch_binance_data s)
      as [[_ H]|[(Habs & _)|(Habs & _)]]; [exact H | congruence | congruence]. }
  rewrite H1.
  assert (Hlog : forall k ev1 ev2,
            match ev1, ev2 with
            | Fetching_fresh _, _ | _, Fetching_fresh _ => False
            | _, _ => True
            end ->
            fetch_count k ((log s ++ [ev1]) ++ [ev2]) = fetch_count k (log s)
            /\ fetch_count k (log s ++ [ev1]) = fetch_count k (log s)).
  { intros k ev1 ev2 Hev. rewrite !fetch_count_app.
    destruct ev1, ev2; try contradiction; cbn; lia. }
  destruct (read_ticker _ _) as [facts|e]; cbn [snd].
  - set (s1 := logger (Returning_cached "binance_tickers") s).
    assert (Hv2' : cache_valid t_klines (klines_key symbol) s1 = true)
      by exact Hv2.
    destruct (get_cached_data_paths t_klines (klines_key symbol)
                (fetch_binance_klines symbol "1d" 90%Z) s1)
      as [[_ H]|[(Habs & _)|(Habs & _)]]; [|congruence|congruence].
    rewrite H. unfold s1, logger. cbn. repeat split.
    intros k. apply (Hlog k (Returning_cached "binance_tickers")
                       (Returning_cached (klines_key symbol)) I).
  - unfold logger. cbn. repeat split.
    intros k. apply (Hlog k (Returning_cached "binance_tickers")
                       (Returning_cached "x") I).
Qed.
End ApiFurther.

(** ** Upstream sources *)

Section TickerSourceProperties.
Context {T V W : Type}.
Variable wrap : list T -> V.
Variable mock : list T.
Variable requests_get : string -> W -> result (HttpResponse (option (list T))) * W.

Local Abbreviation fetch_binance_data' :=
  (fetch_binance_data wrap mock requests_get).


Lemma fetch_binance_data_returns (w : W) :
  exists tickers w', fetch_binance_data' w = (Ok (Some (wrap tickers)), w').
Proof.
  unfold fetch_binance_data.
  destruct (try_endpoint requests_get TICKER_URL w) as [[l|] w1]; [eauto|].
  destruct (try_endpoint requests_get TICKER_BACKUP_URL w1) as [[l|] w2];
    eauto.
Qed.


(** X19. Because the ticker source never raises, the cache never serves an
    expired ticker batch: a call that finds no valid entry stores what the
    source returned, mock data included, under the current time and returns
    it. *)
Theorem tickers_never_served_stale (t : Q) (key : string) (s : State V W) :
  cache_valid t key s = false ->
  let r := get_cached_data t key fetch_binance_data' s in
  exists tickers,
    fst r = Some (wrap tickers) /\
    entry key (snd r) = Some (Some (wrap tickers), t).
Proof.
  intros Hv. cbn zeta. rewrite (get_cached_data_invalid _ _ _ _ Hv).
  destruct (fetch_binance_data_returns (world s)) as (tickers & w' & Hf).
  rewrite (refresh_Ok _ _ _ _ _ _ Hf). cbn [fst snd].
  exists tickers. split; [reflexivity | apply entry_store].
Qed.
End TickerSourceProperties.

Lemma mapM_Raise {A B : Type} (f : A -> result B) (l : list A) a e :
  In a l -> f a = Raise e -> exists e', mapM f l = Raise e'.
Proof.
  induction l as [|x r IH]; intros Hin Hf; [contradiction|].
  cbn. destruct Hin as [->|Hin].
  - rewrite Hf. cbn. eauto.
  - destruct (f x); cbn; [|eauto].
    destruct (IH Hin Hf) as [e' ->]. cbn. eauto.
Qed.

Lemma mapM_Ok_inv {A B : Type} (f : A -> result B) (l : list A) bs :
  mapM f l = Ok bs -> Forall2 (fun a b => f a = Ok b) l bs.
Proof.
  revert bs. induction l as [|x r IH]; intros bs H; cbn in H.
  - injection H as <-. constructor.
  - apply rbind_Ok in H as (b & Hb & H).
    apply rbind_Ok in H as (bs' & Hbs & [= <-]).
    constructor; auto.
Qed.

Lemma insert_by_date_perm (c : Candle) (l : list Candle) :
  Permutation (c :: l) (insert_by_date c l).
Proof.
  induction l as [|d r IH]; cbn; [reflexivity|].
  destruct (c_date d <? c_date c)%Z; [|reflexivity].
  rewrite perm_swap. by constructor.
Qed.

Lemma sort_values_date_perm (df : DataFrame) :
  Permutation df (sort_values_date df).
Proof.
  induction df as [|c r IH]; cbn; [reflexivity|].
  rewrite <- insert_by_date_perm. by constructor.
Qed.

Lemma insert_by_date_sorted (c : Candle) (l : list Candle) :
  Sorted (fun a b => (c_date a <= c_date b)%Z) l ->
  Sorted (fun a b => (c_date a <= c_date b)%Z) (insert_by_date c l).
Proof.
  induction l as [|d r IH]; intros Hs; cbn.
  - repeat constructor.
  - destruct (c_date d <? c_date c)%Z eqn:E.
    + inversion Hs as [|? ? Hr Hd]; subst.
      constructor; [by apply IH|].
      destruct r as [|d' r']; cbn.
      * constructor. lia.
      * destruct (c_date d' <? c_date c)%Z; constructor;
          [by inversion Hd | lia].
    + constructor; [exact Hs|]. constructor. lia.
Qed.

Lemma sort_values_date_sorted (df : DataFrame) :
  Sorted (fun a b => (c_date a <= c_date b)%Z) (sort_values_date df).
Proof.
  induction df as [|c r IH]; cbn; [constructor|].
  by apply insert_by_date_sorted.
Qed.

Section KlinesSourceProperties.
Context {py : PyBuiltins} {W : Type}.
Variable requests_get :
  string -> string -> string -> Z -> W ->
  result (HttpResponse (list (list jsval))) * W.

Local Abbreviation fetch_binance_klines' :=
  (fetch_binance_klines requests_get).

(** X20. The candle source raises when the request itself raises, when the
    answer has a 4xx or 5xx status, and when a single row of the answer
    cannot be read: one bad row loses the whole batch. *)
Theorem fetch_binance_klines_failures symbol interval limit (w : W) :
  (forall e w',
     requests_get KLINES_URL symbol interval limit w = (Raise e, w') ->
     fetch_binance_klines' symbol interval limit w = (Raise e, w')) /\
  (forall response w',
     requests_get KLINES_URL symbol interval limit w = (Ok response, w') ->
     (400 <= status_code response < 600)%Z ->
     fetch_binance_klines' symbol interval limit w = (Raise RequestError, w')) /\
  (forall response w' klines k e,
     requests_get KLINES_URL symbol interval limit w = (Ok response, w') ->
     json response = Ok klines ->
     In k klines ->
     parse_kline k = Raise e ->
     exists e',
       fetch_binance_klines' symbol interval limit w = (Raise e', w')).
Proof.
  unfold fetch_binance_klines. split; [|split].
  - intros e w' ->. reflexivity.
  - intros response w' -> Hs. unfold raise_for_status.
    destruct (400 <=? status_code response)%Z eqn:E1; [|lia].
    destruct (status_code response <? 600)%Z eqn:E2; [|lia].
    reflexivity.
  - intros response w' klines k e -> Hj Hin Hk.
    destruct (raise_for_status response); cbn [rbind]; [|eauto].
    rewrite Hj. cbn [rbind].
    destruct (mapM_Raise parse_kline klines k e Hin Hk) as [e' ->].
    cbn. eauto.
Qed.

Lemma fetch_binance_klines_returns_frame symbol interval limit (w : W) v w' :
  fetch_binance_klines' symbol interval limit w = (Ok v, w') ->
  exists df, v = Some (Frame df).
Proof.
  unfold fetch_binance_klines.
  destruct (requests_get KLINES_URL symbol interval limit w)
    as [[response|e] w1]; [|discriminate].
  intros [= H <-].
  apply rbind_Ok in H as ([] & _ & H).
  apply rbind_Ok in H as (klines & _ & H).
  apply rbind_Ok in H as (rows & _ & H).
  destruct rows; [injection H as <-; eauto|].
  apply rbind_Ok in H as (df & _ & [= <-]). eauto.
Qed.

(** X21. When the candle source returns, it returns a frame, never [None]:
    the candles read from the rows of the answer, all of them and each once,
    in ascending order of date; each candle's date is the UTC day of its open
    time. An answer without rows gives the empty frame. *)
Theorem fetch_binance_klines_result symbol interval limit (w : W) v w' :
  fetch_binance_klines' symbol interval limit w = (Ok v, w') ->
  exists response klines rows df,
    requests_get KLINES_URL symbol interval limit w = (Ok response, w') /\
    json response = Ok klines /\
    Forall2 (fun k c => parse_kline k = Ok c) klines rows /\
    v = Some (Frame df) /\
    Permutation rows df /\
    Sorted (fun a b => (c_date a <= c_date b)%Z) df /\
    Forall (fun c => c_date c = (c_timestamp c / 86400000)%Z) df /\
    (klines = [] <-> df = []).
Proof.
  unfold fetch_binance_klines.
  destruct (requests_get KLINES_URL symbol interval limit w)
    as [[response|e] w1]; [|discriminate].
  intros [= H <-].
  apply rbind_Ok in H as ([] & _ & H).
  apply rbind_Ok in H as (klines & Hj & H).
  apply rbind_Ok in H as (rows & Hrows & H).
  apply mapM_Ok_inv in Hrows.
  assert (Hdates : Forall (fun c => c_date c = (c_timestamp c / 86400000)%Z) rows).
  { clear H Hj. induction Hrows as [|k c ks cs Hk _ IH]; [apply Forall_nil_2|].
    apply Forall_cons_2; [|exact IH].
    unfold parse_kline in Hk. invert_binds Hk. by injection Hk as <-. }
  assert (Hlen : length klines = length rows)
    by (eapply Forall2_length; exact Hrows).
  destruct rows as [|c0 rows0].
  - injection H as <-. destruct klines; [|discriminate].
    exists response, [], [], [].
    split; [reflexivity|]. split; [exact Hj|]. split; [constructor|].
    split; [reflexivity|]. split; [constructor|]. split; [constructor|].
    split; [constructor|]. split; reflexivity.
  - apply rbind_Ok in H as (df & Hdf & [= <-]).
    unfold to_datetime in Hdf.
    destruct (forallb _ _); [|discriminate]. injection Hdf as <-.
    exists response, klines, (c0 :: rows0), (sort_values_date (c0 :: rows0)).
    split; [reflexivity|]. split; [exact Hj|]. split; [exact Hrows|].
    split; [reflexivity|]. split; [apply sort_values_date_perm|].
    split; [apply sort_values_date_sorted|]. split.
    + eapply Permutation_Forall; [apply sort_values_date_perm | exact Hdates].
    + split.
      * intros ->. discriminate.
      * intros Hnil. pose proof (sort_values_date_perm (c0 :: rows0)) as Hp.
        rewrite Hnil in Hp. apply Permutation_nil_r in Hp. discriminate.
Qed.
End KlinesSourceProperties.

(** ** Symbol listing *)

Lemma In_firstn_In {A : Type} (n : nat) (l : list A) (x : A) :
  In x (firstn n l) -> In x l.
Proof. intros H. apply (In_firstn_skipn n). by left. Qed.

Section SortedDescProperties.
Context {T : Type}.
Implicit Types (x : Q * T) (l : list (Q * T)).

Lemma insert_desc_perm x l : Permutation (x :: l) (insert_desc x l).
Proof.
  induction l as [|y r IH]; cbn; [reflexivity|].
  destruct (Qlt_bool (fst x) (fst y)); [|reflexivity].
  rewrite perm_swap. by constructor.
Qed.

Lemma sorted_desc_perm l : Permutation l (sorted_desc l).
Proof.
  induction l as [|x r IH]; cbn; [reflexivity|].
  rewrite <- insert_desc_perm. by constructor.
Qed.

Lemma insert_desc_sorted x l :
  StronglySorted key_desc l -> StronglySorted key_desc (insert_desc x l).
Proof.
  induction l as [|y r IH]; intros Hs; cbn.
  - repeat constructor.
  - inversion Hs as [|? ? Hr Hy]; subst.
    destruct (Qlt_bool (fst x) (fst y)) eqn:E.
    + apply Qlt_bool_iff in E. constructor; [by apply IH|].
      eapply Permutation_Forall; [apply insert_desc_perm|].
      constructor; [unfold key_desc; lra | exact Hy].
    + apply Qlt_bool_false_iff in E. constructor; [exact Hs|].
      constructor; [unfold key_desc; lra|].
      eapply Forall_impl; [exact Hy|]. unfold key_desc. intros z Hz. cbn in *. lra.
Qed.

Lemma sorted_desc_sorted l : StronglySorted key_desc (sorted_desc l).
Proof.
  induction l as [|x r IH]; cbn; [constructor|]. by apply insert_desc_sorted.
Qed.

Lemma StronglySorted_firstn {A : Type} (R : A -> A -> Prop) n (l : list A) :
  StronglySorted R l -> StronglySorted R (firstn n l).
Proof.
  revert n. induction l as [|a r IH]; intros [|n] Hs; cbn; try constructor.
  - inversion Hs; subst. by apply IH.
  - inversion Hs as [|? ? _ Ha]; subst.
    rewrite List.Forall_forall in *. intros b Hb. apply Ha.
    eapply (In_firstn_skipn n). left. exact Hb.
Qed.
End SortedDescProperties.

Section SymbolsProperties.
Context {py : PyBuiltins} {W : Type}.
Variable fetch_binance_data : fetcher market_payload W.

Local Abbreviation get_symbols' := (get_symbols fetch_binance_data).

Lemma keyed_inv (l : list MarketTicker) keyed :
  mapM (fun x => do k <- quote_volume_key x; Ok (k, x)) l = Ok keyed ->
  map snd keyed = l /\
  Forall (fun kx => quote_volume_key (snd kx) = Ok (fst kx)) keyed.
Proof.
  revert keyed. induction l as [|x r IH]; intros keyed H; cbn in H.
  - injection H as <-. split; [reflexivity | constructor].
  - apply rbind_Ok in H as ([k x'] & Hk & H).
    apply rbind_Ok in Hk as (k' & Hk & [= <- <-]).
    apply rbind_Ok in H as (keyed' & Hr & [= <-]).
    destruct (IH _ Hr) as [Hm Hf]. cbn. rewrite Hm.
    split; [reflexivity|]. constructor; [exact Hk | exact Hf].
Qed.

Lemma symbol_row_inv today now x row :
  symbol_row today now x = Ok row ->
  ticker_symbol (core x) = Some (row_symbol row) /\
  quote_volume_key x = Ok (row_quote_volume row) /\
  row_date row = today /\ row_timestamp row = now /\
  row_count row = row_number_of_trades row.
Proof.
  unfold symbol_row. intros H.
  apply rbind_Ok in H as (symbol & Hsym & H).
  apply rbind_Ok in H as (close & _ & H).
  apply rbind_Ok in H as (open & _ & H).
  apply rbind_Ok in H as (high & _ & H).
  apply rbind_Ok in H as (low & _ & H).
  apply rbind_Ok in H as (volume & _ & H).
  apply rbind_Ok in H as (qv & Hqv & H).
  apply rbind_Ok in H as (count & Hc & H).
  apply rbind_Ok in H as (trades & Ht & H).
  injection H as <-. cbn.
  destruct (ticker_symbol (core x)); [|discriminate]. injection Hsym as <-.
  repeat split; auto; congruence.
Qed.

(** The rows collected are those of the tickers that convert, in order. *)
Lemma collect_rows_inv today now (top : list MarketTicker) rows :
  collect_rows today now top = Ok rows ->
  (length rows <= length top)%nat /\
  Forall (fun row => exists x, In x top /\ symbol_row today now x = Ok row) rows /\
  (Forall (fun x => is_ok (symbol_row today now x) = true) top ->
   length rows = length top).
Proof.
  revert rows. induction top as [|x r IH]; intros rows H; cbn in H.
  - injection H as <-. repeat split; auto.
  - destruct (symbol_row today now x) as [row|e] eqn:E.
    + apply rbind_Ok in H as (rows' & Hr & [= <-]).
      destruct (IH _ Hr) as (Hlen & Hin & Hall). cbn.
      split; [lia|]. split.
      * constructor; [exists x; auto|].
        eapply Forall_impl; [exact Hin|]. cbn.
        intros row' (x' & ? & ?). exists x'. auto.
      * intros Hf. inversion Hf; subst. f_equal. auto.
    + assert (Hskip : collect_rows today now r = Ok rows)
        by (destruct e; first [exact H | discriminate]).
      destruct (IH _ Hskip) as (Hlen & Hin & _). cbn.
      split; [lia|]. split.
      * eapply Forall_impl; [exact Hin|]. cbn.
        intros row' (x' & ? & ?). exists x'. auto.
      * intros Hf. inversion Hf as [|? ? Hx _]; subst.
        rewrite E in Hx. discriminate.
Qed.

(** Rows collected from tickers sorted by descending key are sorted by
    descending quote volume. *)
Lemma collect_rows_sorted today now (kxs : list (Q * MarketTicker)) rows :
  StronglySorted key_desc kxs ->
  Forall (fun kx => quote_volume_key (snd kx) = Ok (fst kx)) kxs ->
  collect_rows today now (map snd kxs) = Ok rows ->
  StronglySorted (fun a b => row_quote_volume b <= row_quote_volume a) rows.
Proof.
  revert rows. induction kxs as [|[k x] r IH]; intros rows Hs Hk H; cbn in H.
  - injection H as <-. constructor.
  - inversion Hs as [|? ? Hsr Hhead]; subst.
    inversion Hk as [|? ? Hkx Hkr]; subst. cbn [fst snd] in Hkx.
    destruct (symbol_row today now x) as [row|e] eqn:E.
    + apply rbind_Ok in H as (rows' & Hr & [= <-]).
      constructor; [by apply IH|].
      apply symbol_row_inv in E as (_ & Hq & _).
      assert (row_quote_volume row = k) as -> by congruence.
      destruct (collect_rows_inv _ _ _ _ Hr) as (_ & Hin & _).
      rewrite List.Forall_forall in *. intros row' Hrow'.
      destruct (Hin _ Hrow') as (x' & Hx' & Hsr').
      apply symbol_row_inv in Hsr' as (_ & Hq' & _).
      apply List.in_map_iff in Hx' as ([k' x''] & Hx'' & Hkx').
      cbn in Hx''. subst x''.
      specialize (Hkr _ Hkx'). cbn [fst snd] in Hkr.
      assert (row_quote_volume row' = k') as -> by congruence.
      apply (Hhead _ Hkx').
    + apply IH; try assumption.
      destruct e; first [exact H | discriminate].
Qed.

(** X22. A listing holds at most 15 rows, sorted by descending quote volume.
    Every row is made from a ticker of the cached batch whose symbol is a
    string ending in "USDT", and carries that symbol. *)
Theorem list_symbols_rows today now (tickers : list MarketTicker) response :
  list_symbols today now tickers = Ok response ->
  exists rows,
    response = mkSymbolsResponse (SymbolsList rows) 200 /\
    (length rows <= 15)%nat /\
    StronglySorted (fun a b => row_quote_volume b <= row_quote_volume a) rows /\
    Forall (fun row =>
              exists x name,
                In x tickers /\
                symbol_row today now x = Ok row /\
                row_symbol row = JStr name /\
                ends_with name "USDT" = true) rows.
Proof.
  unfold list_symbols. intros H.
  apply rbind_Ok in H as (keyed & Hkeyed & H).
  apply rbind_Ok in H as (rows & Hrows & [= <-]).
  apply keyed_inv in Hkeyed as [Hmap Hkeys].
  exists rows. split; [reflexivity|].
  pose proof (sorted_desc_perm keyed) as Hperm.
  destruct (collect_rows_inv _ _ _ _ Hrows) as (Hlen & Hin & _).
  split; [|split].
  - rewrite length_firstn in Hlen. lia.
  - rewrite firstn_map in Hrows.
    eapply (collect_rows_sorted today now); [| |exact Hrows].
    + apply StronglySorted_firstn, sorted_desc_sorted.
    + apply List.Forall_forall. intros kx Hkx.
      apply In_firstn_In in Hkx.
      rewrite List.Forall_forall in Hkeys. apply Hkeys.
      eapply Permutation_in; [symmetry; exact Hperm | exact Hkx].
  - eapply Forall_impl; [exact Hin|]. cbn.
    intros row (x & Hx & Hrow).
    apply In_firstn_In in Hx.
    apply List.in_map_iff in Hx as (kx & <- & Hkx).
    eapply Permutation_in in Hkx; [|symmetry; exact Hperm].
    assert (Hu : In (snd kx) (List.filter is_usdt tickers)).
    { rewrite <- Hmap. apply List.in_map. exact Hkx. }
    apply List.filter_In in Hu as [Hmem Husdt].
    pose proof (symbol_row_inv _ _ _ _ Hrow) as (Hsym & _).
    unfold is_usdt in Husdt. rewrite Hsym in Husdt.
    destruct (row_symbol row) as [|name| |] eqn:En; try discriminate.
    exists (snd kx), name. auto.
Qed.

(** X23. When every "USDT" ticker of the batch converts, the listing has
    one row for each of them up to 15: malformed records are the only ones
    left out. *)
Theorem list_symbols_complete today now (tickers : list MarketTicker) :
  Forall (fun x => is_ok (symbol_row today now x) = true)
    (List.filter is_usdt tickers) ->
  exists rows,
    list_symbols today now tickers
    = Ok (mkSymbolsResponse (SymbolsList rows) 200) /\
    length rows = Nat.min 15 (length (List.filter is_usdt tickers)).
Proof.
  intros Hwf. unfold list_symbols.
  set (usdt := List.filter is_usdt tickers) in *.
  destruct (mapM_Ok (fun x => do k <- quote_volume_key x; Ok (k, x)) usdt)
    as (keyed & Hkeyed & Hklen).
  { intros x Hx. rewrite List.Forall_forall in Hwf. specialize (Hwf x Hx).
    destruct (symbol_row today now x) as [row|] eqn:E; [|discriminate].
    apply symbol_row_inv in E as (_ & -> & _). cbn. eauto. }
  rewrite Hkeyed. cbn [rbind].
  pose proof (keyed_inv _ _ Hkeyed) as [Hmap _].
  pose proof (sorted_desc_perm keyed) as Hperm.
  set (top := firstn 15 (map snd (sorted_desc keyed))).
  assert (Htop : Forall (fun x => is_ok (symbol_row today now x) = true) top).
  { apply List.Forall_forall. intros x Hx. unfold top in Hx.
    apply In_firstn_In in Hx.
    apply List.in_map_iff in Hx as (kx & <- & Hkx).
    eapply Permutation_in in Hkx; [|symmetry; exact Hperm].
    rewrite List.Forall_forall in Hwf. apply Hwf.
    rewrite <- Hmap. by apply List.in_map. }
  assert (Hrows : exists rows, collect_rows today now top = Ok rows).
  { clear -Htop. induction top as [|x r IH]; cbn; [eauto|].
    inversion Htop as [|? ? Hx Hr]; subst.
    destruct (symbol_row today now x); [|discriminate].
    destruct (IH Hr) as [rows ->]. cbn. eauto. }
  destruct Hrows as [rows Hrows]. rewrite Hrows. cbn [rbind].
  exists rows. split; [reflexivity|].
  destruct (collect_rows_inv _ _ _ _ Hrows) as (_ & _ & Hall).
  rewrite (Hall Htop). unfold top.
  rewrite length_firstn, length_map.
  rewrite <- (Permutation_length Hperm), Hklen. reflexivity.
Qed.

(** X24. The listing answers with status 500 and no rows when the cache has
    no ticker batch or an empty one, and when the quote volume of a single
    "USDT" ticker is not a number, wherever that ticker would rank. *)
Theorem get_symbols_failures (current_time : Q) (today now : Z)
    (s : State market_payload W) :
  let cached :=
    fst (get_cached_data current_time "binance_tickers" fetch_binance_data s) in
  let response := fst (get_symbols' current_time today now s) in
  (cached = None \/ cached = Some (MarketTickers []) ->
   response = mkSymbolsResponse (SymbolsError "Unable to fetch market data") 500) /\
  (forall tickers x e,
     cached = Some (MarketTickers tickers) ->
     In x tickers -> is_usdt x = true -> quote_volume_key x = Raise e ->
     exists message,
       response = mkSymbolsResponse (SymbolsError message) 500).
Proof.
  cbn zeta. unfold get_symbols.
  destruct (get_cached_data current_time "binance_tickers" _ s) as [cached s1].
  cbn [fst]. split.
  - intros [-> | ->]; reflexivity.
  - intros tickers x e -> Hin Husdt Hkey.
    destruct tickers as [|t0 ts]; [contradiction|].
    unfold list_symbols.
    destruct (mapM_Raise (fun x => do k <- quote_volume_key x; Ok (k, x))
                (List.filter is_usdt (t0 :: ts)) x e) as [e' ->].
    + apply List.filter_In. auto.
    + by rewrite Hkey.
    + cbn. eauto.
Qed.
End SymbolsProperties.

(** ** Chart payload *)

Lemma ffill_from_length (prev : option Q) (s : Series) :
  length (ffill_from prev s) = length s.
Proof.
  revert prev. induction s as [|[x|] r IH]; intros prev; cbn; auto.
Qed.

Lemma bfill_ffill_length (s : Series) : length (bfill (ffill s)) = length s.
Proof.
  unfold bfill, ffill.
  by rewrite length_rev, ffill_from_length, length_rev, ffill_from_length.
Qed.

Lemma fillna_series_length (close : list Q) (s : Series) :
  length (fillna_series close s) = length s.
Proof.
  revert close. induction s as [|[x|] r IH]; intros [|c cs]; cbn; auto.
Qed.

Section ChartsProperties.
Context {ta : TaLibrary} {np : NumpyLibrary}.

(** X25. In the forecast chart the labels, the historical line and the
    forecast line have the same length, the last 30 candles (or all of them)
    followed by the [days] forecast days, and no position holds both a
    historical and a forecast value. *)
Theorem build_charts_lstm_aligned (df : DataFrame) (days : Z)
    (technical : TechnicalAnalysis) lstm charts :
  compute_lstm_like_prediction df days = Ok lstm ->
  build_charts df technical lstm = Ok charts ->
  let chart := chart_lstm charts in
  let n := (Nat.min 30 (length df) + Z.to_nat days)%nat in
  length (lstm_labels chart) = n /\
  length (lstm_historical chart) = n /\
  length (lstm_forecast chart) = n /\
  Forall2 (fun h f => h = None \/ f = None)
    (lstm_historical chart) (lstm_forecast chart).
Proof.
  intros Hlstm H. cbn zeta.
  apply compute_lstm_like_prediction_length in Hlstm as (_ & Hp & Hd).
  unfold build_charts in H.
  apply rbind_Ok in H as (labels & Hlabels & H).
  apply column_Ok_inv in Hlabels as [_ ->].
  apply rbind_Ok in H as (close & Hclose & H).
  apply column_Ok_inv in Hclose as [_ ->].
  injection H as <-. cbn [chart_lstm lstm_labels lstm_historical lstm_forecast].
  rewrite !length_map.
  set (hp := if (30 <? length df)%nat then tail 30 (map c_close df)
             else map c_close df).
  set (hl := if (30 <? length df)%nat then tail 30 (map c_date df)
             else map c_date df).
  assert (Hhp : length hp = Nat.min 30 (length df)).
  { unfold hp. destruct (30 <? length df)%nat eqn:E.
    - rewrite tail_length, length_map. reflexivity.
    - apply Nat.ltb_ge in E. rewrite length_map. lia. }
  assert (Hhl : length hl = Nat.min 30 (length df)).
  { unfold hl. destruct (30 <? length df)%nat eqn:E.
    - rewrite tail_length, length_map. reflexivity.
    - apply Nat.ltb_ge in E. rewrite length_map. lia. }
  rewrite !length_app, !length_map, !repeat_length, Hhp, Hhl, Hp, Hd.
  repeat split; try reflexivity.
  apply Forall2_app.
  - rewrite <- Hhp. clear. induction hp; cbn; constructor; auto.
  - rewrite <- Hp.
    generalize (predictions (future_predictions lstm)). clear.
    induction l; cbn; constructor; auto.
Qed.

(** X26. When the library's SMA(20) series has one entry per candle, the
    technical chart of an analysis is aligned: its labels, its closes and the
    SMA(20) line all have the length of the window, the last 90 candles or
    fewer. *)
Theorem build_charts_technical_aligned (df : DataFrame)
    (technical : TechnicalAnalysis) lstm charts :
  length (SMAIndicator_sma_indicator 20 (map c_close (tail 90 df)))
  = length (tail 90 df) ->
  compute_technical_analysis df = Ok technical ->
  build_charts df technical lstm = Ok charts ->
  let chart := chart_technical charts in
  length (technical_labels chart) = Nat.min 90 (length df) /\
  length (technical_close chart) = Nat.min 90 (length df) /\
  length (technical_sma_20 chart) = Nat.min 90 (length df).
Proof.
  intros Hlib Htech H. cbn zeta.
  apply compute_technical_analysis_inv in Htech as (Hd & _).
  unfold build_charts in H.
  apply rbind_Ok in H as (labels & Hlabels & H).
  apply column_Ok_inv in Hlabels as [Hne ->].
  apply rbind_Ok in H as (close & Hclose & H).
  apply column_Ok_inv in Hclose as [_ ->].
  injection H as <-.
  cbn [chart_technical technical_labels technical_close technical_sma_20].
  assert (Hsma : length (series_sma_20 (series (tf_1d technical)))
                 = Nat.min 90 (length df)).
  { unfold compute_for_window in Hd.
    apply rbind_Ok in Hd as (close & Hclose & Hd).
    apply column_Ok_inv in Hclose as [_ ->].
    invert_binds Hd. unfold vote in Hd. invert_binds Hd.
    injection Hd as <-. cbn [series series_sma_20].
    rewrite tail_length, fillna_series_length, bfill_ffill_length, Hlib.
    rewrite tail_length. lia. }
  assert (Hpos : (0 < length (series_sma_20 (series (tf_1d technical))))%nat).
  { rewrite Hsma. destruct df; [congruence | cbn; lia]. }
  unfold trim_to.
  destruct (series_sma_20 (series (tf_1d technical))) as [|x r] eqn:E;
    [cbn in Hpos; lia|].
  rewrite !tail_length, !length_map, Hsma. repeat split; lia.
Qed.
End ChartsProperties.

(** ** The handlers wired to the upstream sources *)

Section LiveProperties.
Context {ta : TaLibrary} {np : NumpyLibrary} {py : PyBuiltins} {W : Type}.
Variable requests_get_tickers :
  string -> W -> result (HttpResponse (option (list MarketTicker))) * W.
Variable requests_get_klines :
  string -> string -> string -> Z -> W ->
  result (HttpResponse (list (list jsval))) * W.

Local Abbreviation live_tickers :=
  (fetch_binance_data Tickers (map core get_mock_tickers)
     (requests_get_core requests_get_tickers)).
Local Abbreviation live_klines := (fetch_binance_klines requests_get_klines).
Local Abbreviation get_analysis_live' :=
  (get_analysis_live requests_get_tickers requests_get_klines).

Lemma live_sources_never_none :
  never_returns_none live_tickers /\
  (forall symbol interval limit,
     never_returns_none (live_klines symbol interval limit)).
Proof.
  split.
  - intros w d w' Hf.
    destruct (fetch_binance_data_returns Tickers
                (map core get_mock_tickers)
                (requests_get_core requests_get_tickers) w)
      as (l & w1 & Hl).
    rewrite Hl in Hf. by injection Hf as <- <-.
  - intros symbol interval limit w d w' Hf.
    apply fetch_binance_klines_returns_frame in Hf as [df ->].
    discriminate.
Qed.

(** X27. With the repository's own sources a request never puts [None]
    into the cache: if no stored value is [None] before the request, none is
    after it. *)
Theorem get_analysis_live_keeps_cache_proper
    symbol period_arg (t_tickers t_klines now : Q) (s : State payload W) :
  no_none_stored s ->
  no_none_stored
    (snd (get_analysis_live' symbol period_arg t_tickers t_klines now s)).
Proof.
  intros Hn. unfold get_analysis_live.
  rewrite get_analysis_steps.
  destruct live_sources_never_none as [Ht Hkl].
  assert (Hn1 : no_none_stored
                  (state_before_klines live_tickers t_tickers s))
    by (unfold state_before_klines; by apply get_cached_data_no_none).
  destruct (read_ticker _ _); cbn [snd]; [|auto].
  apply get_cached_data_no_none; auto.
Qed.

(** X28. When the candle request raises, the analysis works on exactly what
    the cache holds for the symbol, however old it is; with nothing cached
    for the symbol the request fails with status 500, whatever the ticker
    source returned. *)
Theorem get_analysis_live_candles_unreachable
    symbol period_arg (t_tickers t_klines now : Q) (s : State payload W) :
  (forall w, exists e w',
     requests_get_klines KLINES_URL symbol "1d" 90%Z w = (Raise e, w')) ->
  window_of live_tickers live_klines symbol t_tickers t_klines s
  = default None (data_cache s !! klines_key symbol) /\
  (data_cache s !! klines_key symbol = None ->
   is_error
     (fst (get_analysis_live' symbol period_arg t_tickers t_klines now s))).
Proof.
  intros Hdown.
  assert (Hwin : window_of live_tickers live_klines symbol t_tickers t_klines s
                 = default None (data_cache s !! klines_key symbol)).
  { unfold window_of.
    set (s1 := state_before_klines live_tickers t_tickers s).
    assert (Hs1 : data_cache s1 !! klines_key symbol
                  = data_cache s !! klines_key symbol).
    { unfold s1, state_before_klines.
      apply (get_cached_data_lookup_other t_tickers "binance_tickers"
               live_tickers s).
      apply klines_key_not_tickers. }
    rewrite <- Hs1.
    unfold get_cached_data.
    assert (Hrefresh :
      fst (refresh t_klines (klines_key symbol)
             (live_klines symbol "1d" 90%Z) s1)
      = default None (data_cache s1 !! klines_key symbol)).
    { destruct (Hdown (world s1)) as (e & w' & Hreq).
      assert (Hf : live_klines symbol "1d" 90%Z (world s1) = (Raise e, w'))
        by (unfold fetch_binance_klines; by rewrite Hreq).
      rewrite (refresh_Raise _ _ _ _ _ _ Hf). cbn zeta.
      destruct (data_cache s1 !! klines_key symbol); reflexivity. }
    destruct (data_cache s1 !! klines_key symbol) as [v|] eqn:Ed;
      [destruct (cache_timestamp s1 !! klines_key symbol);
       [destruct (Qlt_bool _ _); [reflexivity|]|]|];
      rewrite Hrefresh; reflexivity. }
  split; [exact Hwin|].
  intros Hnone. unfold get_analysis_live. rewrite get_analysis_steps.
  destruct (read_ticker _ _); cbn [fst]; [|unfold is_error; eauto].
  rewrite Hwin, Hnone. cbn. unfold is_error, no_history. eauto.
Qed.
End LiveProperties.

(** ** Further concrete runs *)

Lemma build_charts_total (df : DataFrame) technical lstm :
  df <> [] -> exists charts, build_charts df technical lstm = Ok charts.
Proof.
  intros Hdf. unfold build_charts. rewrite !(column_Ok _ _ Hdf). cbn. eauto.
Qed.

Lemma get_cached_data_same_keys_witness :
  same_keys
    (snd (get_cached_data 0 "k" (counting_fetch (Ok (Some 7%nat)))
            (empty_cache 0%nat))).
Proof.
  apply get_cached_data_same_keys.
  intros k. cbn. rewrite !lookup_empty. split; intros [? ?]; discriminate.
Defined.

Lemma get_cached_data_failure_not_cached_witness :
  cache_valid 5 "k"
    (snd (get_cached_data 0 "k" (counting_fetch (Raise RequestError))
            (empty_cache (V := nat) 0%nat)))
  = false.
Proof.
  apply (get_cached_data_failure_not_cached 0 5 "k"
           (counting_fetch (Raise RequestError)) (empty_cache 0%nat)
           RequestError 1%nat); [reflexivity | reflexivity | lra].
Defined.

Lemma compute_for_window_counts_witness :
  exists r,
    @compute_for_window sample_ta sample_frame = Ok r /\
    (buy (summary (signals r)) + sell (summary (signals r))
     + hold (summary (signals r)) = 3)%Z.
Proof.
  destruct (@compute_for_window_total sample_ta sample_frame) as [r Hr];
    [discriminate|].
  exists r. split; [exact Hr|].
  exact (proj2 (@compute_for_window_counts sample_ta sample_frame r Hr)).
Defined.

Lemma technical_overall_is_1d_witness :
  exists r,
    @compute_technical_analysis sample_ta sample_frame = Ok r /\
    technical_overall_signal r = overall_signal (signals (tf_1d r)).
Proof.
  destruct (@compute_technical_analysis_total sample_ta sample_frame)
    as [r Hr]; [discriminate|].
  exists r. split; [exact Hr|].
  exact (@technical_overall_is_1d sample_ta sample_frame r Hr).
Defined.

Lemma compute_for_window_insufficient_history_witness :
  exists r,
    @compute_for_window sample_ta short_frame = Ok r /\
    summary (signals r) = mkSummary 0 0 3 /\
    overall_signal (signals r) = HOLD.
Proof.
  destruct (@compute_for_window_total sample_ta short_frame) as [r Hr];
    [discriminate|].
  exists r. split; [exact Hr|].
  destruct (@compute_for_window_insufficient_history sample_ta short_frame r)
    as (_ & _ & _ & _ & _ & Hs & Ho); try (vm_compute; reflexivity); auto.
Defined.

Lemma compute_for_window_series_filled_witness :
  exists r,
    @compute_for_window sample_ta sample_frame = Ok r /\
    Forall is_Some (series_rsi (series r)).
Proof.
  destruct (@compute_for_window_total sample_ta sample_frame) as [r Hr];
    [discriminate|].
  exists r. split; [exact Hr|].
  pose proof (@compute_for_window_series_filled sample_ta sample_frame r Hr)
    as H.
  apply Forall_cons_1 in H as [[_ H] _]. exact H.
Defined.

Lemma forecast_dates_follow_last_candle_witness :
  exists r,
    @compute_lstm_like_prediction exact_numpy sample_frame 3 = Ok r /\
    dates (future_predictions r) = [16; 17; 18]%Z.
Proof.
  destruct (@compute_lstm_like_prediction_total exact_numpy sample_frame 3)
    as [r Hr]; [discriminate | lia |].
  exists r. split; [exact Hr|].
  destruct (@forecast_dates_follow_last_candle exact_numpy sample_frame 3 r Hr)
    as (c & Hc & _ & Hd).
  vm_compute in Hc. injection Hc as <-. exact Hd.
Defined.

Lemma forecast_metric_bounds_witness :
  exists r,
    @compute_lstm_like_prediction exact_numpy sample_frame 3 = Ok r /\
    0 <= MAPE (model_performance r) /\ R2 (model_performance r) <= 1.
Proof.
  destruct (@compute_lstm_like_prediction_total exact_numpy sample_frame 3)
    as [r Hr]; [discriminate | lia |].
  exists r. split; [exact Hr|].
  exact (@forecast_metric_bounds exact_numpy sample_frame 3 r Hr).
Defined.

Lemma sentiment_onchain_proxies_witness :
  exists s,
    compute_sentiment "BTCUSDT" 10 (flat_technical 20) 640 (Some 1) 1
    = Ok s /\
    active_addresses (onchain_metrics s) = 5%Z /\
    nvt_ratio (onchain_metrics s) = Some (float_literal (1563 # 1000000)).
Proof.
  destruct (compute_sentiment_Ok "BTCUSDT" 10 (flat_technical 20) 640
              (Some 1) 1) as (s & Hs & _).
  exists s. split; [exact Hs|].
  destruct (sentiment_onchain_proxies _ _ _ _ _ _ _ Hs)
    as (_ & H & _ & _ & _ & Hn & _).
  specialize (H ltac:(lia)). split; [lia|].
  rewrite Hn. vm_compute. reflexivity.
Defined.

(** [1/640] is 0.0015625, a tie between 0.001562 and 0.001563; the double
    nearest to it lies above, and [round] gives 0.001563.  A double that
    is a tie, such as [2^-7 = 0.0078125], goes to the even neighbour. *)
Example nvt_ratio_rounds_the_double :
  py_round (1 / 640) 6 == (1562 # 1000000) /\
  float_round (fl (1 / float_of_int 640)) 6 = float_literal (1563 # 1000000) /\
  float_round (fl ((1 # 128) / float_of_int 1)) 6
  = float_literal (7812 # 1000000).
Proof. split; [reflexivity|]. split; vm_compute; reflexivity. Qed.

Lemma recommendation_follows_1d_witness :
  exists report,
    sample_report = Some report /\
    recommendation_signal (final_recommendation report)
    = overall_signal (signals (tf_1d (technical_analysis report))) /\
    In (confidence (final_recommendation report)) confidence_levels.
Proof.
  eexists. split; [reflexivity|].
  match goal with
  | |- recommendation_signal (final_recommendation ?r) = _ /\ _ =>
      destruct (@recommendation_follows_1d
                  sample_ta exact_numpy decimal_builtins nat
                  sample_tickers sample_klines "BTCUSDT" None 1000 1001 1002
                  sample_state r) as (Hs & Hc & _)
  end.
  - vm_compute. reflexivity.
  - split; [exact Hs | exact Hc].
Defined.

Lemma get_analysis_without_ticker_witness :
  exists report,
    fst (@get_analysis sample_ta exact_numpy decimal_builtins nat
           failing_tickers sample_klines "BTCUSDT" None 1000 1001 1002
           sample_state)
    = mkResponse (ReportBody report) 200 /\
    report_current_price report = 116 /\
    report_price_change_percent report = 0.
Proof.
  destruct (@get_analysis_without_ticker
              sample_ta exact_numpy decimal_builtins nat
              failing_tickers sample_klines "BTCUSDT" None 1000 1001 1002
              sample_state sample_frame)
    as (report & c & Hr & Hc & Hp & Hz & _).
  - vm_compute. exact I.
  - vm_compute. reflexivity.
  - intros H. vm_compute in H. discriminate.
  - exists report. split; [exact Hr|]. split; [|exact Hz].
    vm_compute in Hc. injection Hc as <-. exact Hp.
Defined.

Lemma get_analysis_week_forecast_flat_witness :
  exists report,
    sample_week_report = Some report /\
    predictions (future_predictions (lstm_prediction report)) = repeat 116 7.
Proof.
  eexists. split; [reflexivity|].
  match goal with
  | |- predictions (future_predictions (lstm_prediction ?r)) = _ =>
      destruct (@get_analysis_week_forecast_flat
                  sample_ta exact_numpy decimal_builtins nat
                  sample_tickers sample_klines "BTCUSDT" (Some "7D"%string)
                  1000 1001 1002 sample_state r) as (Hp & _)
  end.
  - reflexivity.
  - vm_compute. reflexivity.
  - exact Hp.
Defined.

Lemma get_analysis_malformed_price_witness :
  fst (@get_analysis sample_ta exact_numpy decimal_builtins nat
         broken_tickers sample_klines "BTCUSDT" None 1000 1001 1002
         sample_state)
  = mkResponse (ErrorBody "ValueError") 500.
Proof.
  rewrite (@get_analysis_malformed_price
             sample_ta exact_numpy decimal_builtins nat
             broken_tickers sample_klines "BTCUSDT" None 1000 1001 1002
             sample_state [broken_ticker] broken_ticker "n/a");
    first [reflexivity | discriminate].
Defined.

Lemma get_analysis_served_from_cache_witness :
  world (snd (@get_analysis sample_ta exact_numpy decimal_builtins nat
                sample_tickers sample_klines "BTCUSDT" None 1100 1101 1102
                warm_state))
  = world warm_state.
Proof.
  destruct (@get_analysis_served_from_cache
              sample_ta exact_numpy decimal_builtins nat
              sample_tickers sample_klines "BTCUSDT" None 1100 1101 1102
              warm_state) as (Hw & _).
  - vm_compute. reflexivity.
  - vm_compute. reflexivity.
  - exact Hw.
Defined.

(** The same request after the entries have expired asks both sources
    again. *)
Example get_analysis_after_expiry :
  world (snd (@get_analysis sample_ta exact_numpy decimal_builtins nat
                sample_tickers sample_klines "BTCUSDT" None 1400 1401 1402
                warm_state))
  = 4%nat /\ world warm_state = 2%nat.
Proof. vm_compute. auto. Qed.

Lemma tickers_never_served_stale_witness :
  exists tickers,
    fst (get_cached_data 0 "binance_tickers"
           (fetch_binance_data MarketTickers get_mock_tickers network_down)
           empty_market)
    = Some (MarketTickers tickers).
Proof.
  destruct (tickers_never_served_stale MarketTickers get_mock_tickers
              network_down 0 "binance_tickers" empty_market)
    as (tickers & Hr & _); [reflexivity|].
  exists tickers. exact Hr.
Defined.

Lemma fetch_binance_klines_result_witness :
  exists df,
    sample_klines_result = Some (Frame df) /\
    Sorted (fun a b => (c_date a <= c_date b)%Z) df /\
    length df = 3%nat.
Proof.
  destruct (@fetch_binance_klines_result decimal_builtins nat klines_up
              "BTCUSDT" "1d" 90%Z 0%nat sample_klines_result 1%nat)
    as (response & klines & rows & df & Hreq & Hj & Hrows & Hv & Hperm & Hs & _).
  - vm_compute. reflexivity.
  - exists df. split; [exact Hv|]. split; [exact Hs|].
    rewrite <- (Permutation_length Hperm).
    rewrite <- (Forall2_length _ _ _ Hrows).
    injection Hreq as <-. cbn in Hj. by injection Hj as <-.
Defined.

Lemma list_symbols_rows_witness :
  exists rows,
    mock_listing = mkSymbolsResponse (SymbolsList rows) 200 /\
    (length rows <= 15)%nat /\
    StronglySorted (fun a b => row_quote_volume b <= row_quote_volume a) rows.
Proof.
  destruct (@list_symbols_rows decimal_builtins 19000 1641600000
              get_mock_tickers mock_listing)
    as (rows & Hr & Hl & Hs & _); [vm_compute; reflexivity|].
  exists rows. auto.
Defined.

Lemma list_symbols_complete_witness :
  exists rows,
    @list_symbols decimal_builtins 19000 1641600000 get_mock_tickers
    = Ok (mkSymbolsResponse (SymbolsList rows) 200) /\
    length rows = 10%nat.
Proof.
  destruct (@list_symbols_complete decimal_builtins 19000 1641600000
              get_mock_tickers) as (rows & Hr & Hl).
  - apply List.Forall_forall. apply forallb_forall.
    vm_compute. reflexivity.
  - exists rows. split; [exact Hr|]. rewrite Hl. reflexivity.
Defined.

(** With the network down and nothing cached the listing shows the ten mock
    symbols, the largest quote volume first; two requests were tried. *)
Example get_symbols_offline :
  let r := @get_symbols_live decimal_builtins nat network_down 0 19000
             1641600000 empty_market in
  match symbols_body (fst r) with
  | SymbolsList rows => map row_symbol rows
  | SymbolsError _ => []
  end
  = map JStr ["BTCUSDT"; "ETHUSDT"; "SOLUSDT"; "BNBUSDT"; "LTCUSDT";
              "AVAXUSDT"; "LINKUSDT"; "XRPUSDT"; "ADAUSDT"; "DOGEUSDT"]%string
  /\ world (snd r) = 2%nat.
Proof. vm_compute. auto. Qed.

Lemma build_charts_lstm_aligned_witness :
  exists lstm charts,
    @compute_lstm_like_prediction exact_numpy sample_frame 7 = Ok lstm /\
    build_charts sample_frame (flat_technical 50) lstm = Ok charts /\
    length (lstm_labels (chart_lstm charts)) = 23%nat /\
    length (lstm_forecast (chart_lstm charts)) = 23%nat.
Proof.
  destruct (@compute_lstm_like_prediction_total exact_numpy sample_frame 7)
    as [lstm Hl]; [discriminate | lia |].
  destruct (build_charts_total sample_frame (flat_technical 50) lstm)
    as [charts Hc]; [discriminate|].
  exists lstm, charts. split; [exact Hl|]. split; [exact Hc|].
  destruct (@build_charts_lstm_aligned exact_numpy sample_frame 7
              (flat_technical 50) lstm charts Hl Hc) as (H1 & _ & H3 & _).
  split; [exact H1 | exact H3].
Defined.

Lemma build_charts_technical_aligned_witness :
  exists technical charts,
    @compute_technical_analysis sample_ta sample_frame = Ok technical /\
    build_charts sample_frame technical empty_forecast = Ok charts /\
    length (technical_labels (chart_technical charts)) = 16%nat /\
    length (technical_sma_20 (chart_technical charts)) = 16%nat.
Proof.
  destruct (@compute_technical_analysis_total sample_ta sample_frame)
    as [technical Ht]; [discriminate|].
  destruct (build_charts_total sample_frame technical empty_forecast)
    as [charts Hc]; [discriminate|].
  exists technical, charts. split; [exact Ht|]. split; [exact Hc|].
  destruct (@build_charts_technical_aligned sample_ta sample_frame
              technical empty_forecast charts) as (H1 & _ & H3);
    [vm_compute; reflexivity | exact Ht | exact Hc |].
  split; [exact H1 | exact H3].
Defined.

Lemma get_analysis_live_keeps_cache_proper_witness :
  no_none_stored
    (snd (@get_analysis_live sample_ta exact_numpy decimal_builtins nat
            network_down klines_up "BTCUSDT" None 1000 1001 1002
            sample_state)).
Proof.
  apply (@get_analysis_live_keeps_cache_proper
           sample_ta exact_numpy decimal_builtins nat
           network_down klines_up "BTCUSDT" None 1000 1001 1002 sample_state).
  intros k. cbn. rewrite lookup_empty. discriminate.
Defined.

Lemma get_analysis_live_candles_unreachable_witness :
  is_error
    (fst (@get_analysis_live sample_ta exact_numpy decimal_builtins nat
            network_down klines_down "BTCUSDT" None 1000 1001 1002
            sample_state)).
Proof.
  apply (@get_analysis_live_candles_unreachable
           sample_ta exact_numpy decimal_builtins nat
           network_down klines_down "BTCUSDT" None 1000 1001 1002 sample_state).
  - intros w. unfold klines_down. eauto.
  - reflexivity.
Defined.

(** With the ticker endpoints down but candles served, the analysis runs on
    the mock ticker of the symbol. *)
Example get_analysis_on_mock_ticker :
  match body (fst (@get_analysis_live sample_ta exact_numpy decimal_builtins
                     nat network_down klines_up "BTCUSDT" None 1000 1001 1002
                     sample_state)) with
  | ReportBody r => Some (report_current_price r)
  | ErrorBody _ => None
  end = Some 50000.
Proof. vm_compute. reflexivity. Qed.
